(** * Asana integration of OpenHands: webhook endpoint, reconciler, reporter

    A shallow embedding of [openhands/integrations/asana]:
    - [asana_webhooks.py]: signature verification, the webhook endpoint,
      event dispatch and the processed-events deduplication set;
    - [asana_service.py]: the task-assignment and comment-mention
      reconcilers, the persisted task-to-conversation mapping, listener
      subscription with its catch-up scan;
    - [asana_reporter.py]: mention sanitising, markdown to Asana HTML,
      the conversation listener callback.

    Python [str] values are lists of Unicode code points, [bytes] values
    are lists of octets, dictionaries are [gmap]s and sets are [gset]s.
    Collaborators outside the repository (the Asana REST API, the
    conversation manager, mistune, markdownify) appear as fields of an
    explicit world state or as the methods of a type class. *)

From Stdlib Require Import NArith ZArith Ascii String List Lia Bool.
From stdpp Require Import gmap list strings.

Set Warnings "-clear-no-such-hyp".

Open Scope N_scope.

(** ** Python strings *)

Definition str := list N.
Definition bytes := list N.

(** An ASCII literal of the source, as code points. *)
Definition lit (s : string) : str :=
  map N_of_ascii (list_ascii_of_string s).

(** Truthiness of a [str]: the empty string is falsy. *)
Definition truthy (s : str) : bool :=
  match s with [] => false | _ :: _ => true end.

(** Truthiness of a [str | None] value. *)
Definition truthy_opt (o : option str) : bool :=
  match o with Some s => truthy s | None => false end.

(** [x or ''] for a [str | None] value, also [d.get(k, '')]. *)
Definition or_empty (o : option str) : str :=
  match o with Some s => s | None => [] end.

(** [f'{x}'] for a [str | None] value: [None] prints as [None]. *)
Definition fmt_opt (o : option str) : str :=
  match o with Some s => s | None => lit "None" end.

Definition str_eqb (a b : str) : bool := bool_decide (a = b).

(** [a.startswith(b)] *)
Fixpoint starts_with (p s : str) : bool :=
  match p, s with
  | [], _ => true
  | _ :: _, [] => false
  | a :: p', b :: s' => (a =? b) && starts_with p' s'
  end.

(** [p in s] for strings: some suffix of [s] starts with [p]. *)
Fixpoint contains (p s : str) : bool :=
  starts_with p s ||
  match s with
  | [] => false
  | _ :: s' => contains p s'
  end.

(** ** Whitespace and [str.strip] *)

(** The code points for which [str.isspace] holds; [str.strip()] and the
    class [\s] of [re] both use them. *)
Definition is_space (c : N) : bool :=
  ((9 <=? c) && (c <=? 13)) || ((28 <=? c) && (c <=? 32))
  || (c =? 0x85) || (c =? 0xA0) || (c =? 0x1680)
  || ((0x2000 <=? c) && (c <=? 0x200A))
  || (c =? 0x2028) || (c =? 0x2029) || (c =? 0x202F) || (c =? 0x205F)
  || (c =? 0x3000).

(** [s.lstrip()] *)
Fixpoint lstrip (s : str) : str :=
  match s with
  | c :: s' => if is_space c then lstrip s' else s
  | [] => []
  end.

(** [s.rstrip()] *)
Definition rstrip (s : str) : str := rev (lstrip (rev s)).

(** [s.strip()] *)
Definition strip (s : str) : str := rstrip (lstrip s).

(** ** Regular expressions ([re])

    Every pattern of the module is a sequence of character classes, each
    taken once, optionally, or greedily any number of times.  Matching
    is the backtracking search of [re]: a greedy item first takes all it
    can and gives back one character at a time. *)

Inductive item :=
| One (p : N → bool)
| Opt (p : N → bool)
| Star (p : N → bool).

Definition pattern := list item.

(** The length of the match of [pat] at the start of [s], if there is
    one. *)
Fixpoint match_here (pat : pattern) : str → option nat :=
  match pat with
  | [] => fun _ => Some O
  | One p :: r =>
      fun s =>
        match s with
        | c :: s' => if p c then S <$> match_here r s' else None
        | [] => None
        end
  | Opt p :: r =>
      fun s =>
        match s with
        | c :: s' =>
            if p c then
              match match_here r s' with
              | Some n => Some (S n)
              | None => match_here r s
              end
            else match_here r s
        | [] => match_here r []
        end
  | Star p :: r =>
      fix star (s : str) : option nat :=
        match s with
        | c :: s' =>
            if p c then
              match star s' with
              | Some n => Some (S n)
              | None => match_here r s
              end
            else match_here r s
        | [] => match_here r []
        end
  end.

(** [re.sub(pat, repl, s)] from the left, [skip] characters of a match
    still to be passed over.  None of the module's patterns matches the
    empty string; were one to, [repl] is inserted and the scan moves on by
    one character. *)
Fixpoint sub_from (pat : pattern) (repl : str) (skip : nat) (s : str) : str :=
  match s with
  | [] =>
      match skip, match_here pat [] with
      | O, Some _ => repl
      | _, _ => []
      end
  | c :: s' =>
      match skip with
      | S k => sub_from pat repl k s'
      | O =>
          match match_here pat s with
          | Some (S n) => repl ++ sub_from pat repl n s'
          | Some O => repl ++ c :: sub_from pat repl O s'
          | None => c :: sub_from pat repl O s'
          end
      end
  end.

Definition re_sub (pat : pattern) (repl : str) (s : str) : str :=
  sub_from pat repl O s.

(** Character classes. *)
Definition is_char (a : N) (c : N) : bool := c =? a.
Definition not_in (l : list N) (c : N) : bool := negb (bool_decide (c ∈ l)).

(** [\d]: which code points are decimal digits is a table of the
    interpreter's Unicode database. *)
Class UnicodeData := { is_decimal : N → bool }.

(** The decimal digits of ASCII alone. *)
Definition ascii_digits : UnicodeData :=
  {| is_decimal := fun c => (48 <=? c) && (c <=? 57) |}.

(** Case folding of [re.IGNORECASE]: the letters of ASCII, and the four
    other code points that match an ASCII letter (dotted capital and
    dotless small i, long s, the Kelvin sign); every other code point
    stands for itself. *)
Definition fold_case (c : N) : N :=
  if (65 <=? c) && (c <=? 90) then c + 32
  else if (c =? 0x130) || (c =? 0x131) then 105
  else if c =? 0x17F then 115
  else if c =? 0x212A then 107
  else c.

Definition is_char_i (a : N) (c : N) : bool := fold_case c =? fold_case a.

(** A literal, as [re.escape] makes of a string. *)
Definition literal (s : str) : pattern := map (fun a => One (is_char a)) s.
Definition literal_i (s : str) : pattern := map (fun a => One (is_char_i a)) s.

Definition newline : N := 10.

(** [\n{3,}] *)
Definition three_newlines : pattern :=
  [One (is_char newline); One (is_char newline); One (is_char newline);
   Star (is_char newline)].

(** [re.sub(r'\n{3,}', '\n\n', s)] *)
Definition collapse_newlines (s : str) : str :=
  re_sub three_newlines [newline; newline] s.

(** ** Logging

    Only the warning and error records matter to the properties below. *)

Inductive level := Warning | Error.

Record log_record := { lvl : level; msg : str }.

(** ** Models ([asana_models.py]) *)

Record AsanaResource := {
  gid : str;
  resource_type : option str;
  name : option str
}.

(** A [datetime] is kept as its [str()] rendering. *)
Definition datetime := str.

Record WebhookEvent := {
  user : option AsanaResource;
  created_at : option datetime;
  action : str;
  resource : AsanaResource;
  parent : option AsanaResource;
  change : option str
}.

Record Story := {
  Story_gid : str;
  story_text : option str;
  html_text : option str;
  resource_subtype : option str;
  story_created_at : option datetime;
  created_by : option AsanaResource;
  is_pinned : bool;
  target : option AsanaResource
}.

Record AsanaTask := {
  AsanaTask_gid : str;
  AsanaTask_name : str;
  notes : option str;
  html_notes : option str;
  due_on : option str;
  assignee : option AsanaResource;
  projects : list AsanaResource;
  permalink_url : option str
}.

(** What a reconciler entry point does as seen by its caller: it returns a
    conversation id or [None], or an exception escapes it. *)
Inductive outcome :=
| Returned (conversation_id : option str)
| Raised.

(** ** SHA-256 and HMAC ([hashlib.sha256], [hmac.new]) *)

Module Sha256.

Definition w32 (x : N) : N := x mod 2 ^ 32.
Definition add32 (x y : N) : N := w32 (x + y).
Definition rotr (n x : N) : N :=
  w32 (N.lor (N.shiftr x n) (N.shiftl x (32 - n))).
Definition not32 (x : N) : N := N.lxor x 0xffffffff.
Definition Ch (x y z : N) : N := N.lxor (N.land x y) (N.land (not32 x) z).
Definition Maj (x y z : N) : N :=
  N.lxor (N.lxor (N.land x y) (N.land x z)) (N.land y z).
Definition Sigma0 (x : N) : N := N.lxor (N.lxor (rotr 2 x) (rotr 13 x)) (rotr 22 x).
Definition Sigma1 (x : N) : N := N.lxor (N.lxor (rotr 6 x) (rotr 11 x)) (rotr 25 x).
Definition sigma0 (x : N) : N := N.lxor (N.lxor (rotr 7 x) (rotr 18 x)) (N.shiftr x 3).
Definition sigma1 (x : N) : N := N.lxor (N.lxor (rotr 17 x) (rotr 19 x)) (N.shiftr x 10).

(** The first [n] primes, by trial division. *)
Definition is_prime (n : N) : bool :=
  (2 <=? n) &&
  forallb (fun d => negb (n mod (N.of_nat d) =? 0)) (seq 2 (N.to_nat n - 2)).

Definition primes (n : nat) : list N :=
  take n (filter (fun p => is_prime p = true) (map N.of_nat (seq 2 310))).

(** The integer cube root, one bit at a time from bit [bits - 1] down. *)
Fixpoint cube_root (bits : nat) (x r : N) : N :=
  match bits with
  | O => r
  | S b =>
      let r' := r + 2 ^ N.of_nat b in
      cube_root b x (if r' * r' * r' <=? x then r' else r)
  end.

(** The round constants: the first 32 bits of the fractional parts of the
    cube roots of the first 64 primes. *)
Definition K : list N :=
  map (fun p => w32 (cube_root 40 (p * 2 ^ 96) 0)) (primes 64).

(** The initial hash value: the same of the square roots of the first 8
    primes. *)
Definition H0 : list N :=
  map (fun p => w32 (N.sqrt (p * 2 ^ 64))) (primes 8).

(** Big-endian bytes of a word, and back. *)
Definition be_bytes (n : nat) (x : N) : bytes :=
  map (fun i => N.shiftr x (8 * N.of_nat i) mod 256) (rev (seq 0 n)).

Definition be_word (bs : bytes) : N :=
  fold_left (fun acc b => acc * 256 + b) bs 0.

Definition pad (m : bytes) : bytes :=
  let l := length m in
  let zeros := ((64 - (l + 9) mod 64) mod 64)%nat in
  m ++ [0x80] ++ repeat 0 zeros ++ be_bytes 8 (8 * N.of_nat l).

Fixpoint chunks (count size : nat) (bs : bytes) : list bytes :=
  match count with
  | O => []
  | S c => take size bs :: chunks c size (drop size bs)
  end.

(** The message schedule, most recent word first. *)
Fixpoint extend (n : nat) (rw : list N) : list N :=
  match n with
  | O => rw
  | S k =>
      let w := add32 (add32 (sigma1 (nth 1 rw 0)) (nth 6 rw 0))
                     (add32 (sigma0 (nth 14 rw 0)) (nth 15 rw 0)) in
      extend k (w :: rw)
  end.

Definition schedule (block : bytes) : list N :=
  rev (extend 48 (rev (map be_word (chunks 16 4 block)))).

Definition round (s : list N) (kw : N * N) : list N :=
  match s with
  | [a; b; c; d; e; f; g; h] =>
      let t1 := add32 (add32 (add32 h (Sigma1 e)) (add32 (Ch e f g) (fst kw)))
                      (snd kw) in
      let t2 := add32 (Sigma0 a) (Maj a b c) in
      [add32 t1 t2; a; b; c; add32 d t1; e; f; g]
  | _ => s
  end.

Definition compress (h : list N) (block : bytes) : list N :=
  let s := fold_left round (combine K (schedule block)) h in
  map (fun p => add32 (fst p) (snd p)) (combine h s).

Definition digest (m : bytes) : bytes :=
  let p := pad m in
  let h := fold_left compress (chunks (length p / 64) 64 p) H0 in
  concat (map (be_bytes 4) h).

End Sha256.

(** The block size of SHA-256, in octets. *)
Definition block_size : nat := 64.

(** [hmac.new(key, msg, hashlib.sha256).digest()] *)
Definition hmac_sha256 (key msg : bytes) : bytes :=
  let key' := if (block_size <? length key)%nat then Sha256.digest key else key in
  let key'' := key' ++ repeat 0 (block_size - length key') in
  let ipad := map (N.lxor 0x36) key'' in
  let opad := map (N.lxor 0x5c) key'' in
  Sha256.digest (opad ++ Sha256.digest (ipad ++ msg)).

Definition hex_digit (d : N) : N := if d <? 10 then 48 + d else 87 + d.

(** [.hexdigest()]: two lower-case hexadecimal digits per octet. *)
Definition hexdigest (bs : bytes) : str :=
  concat (map (fun b => [hex_digit (b / 16 mod 16); hex_digit (b mod 16)]) bs).

(** ** Signature verification ([asana_webhooks.py]) *)

(** What a call that may raise gives back. *)
Inductive pyresult (A : Type) :=
| Ok (a : A)
| TypeError
| UnicodeEncodeError.
Arguments Ok {A} _.
Arguments TypeError {A}.
Arguments UnicodeEncodeError {A}.

(** [s.encode('utf-8')]; a lone surrogate cannot be encoded. *)
Definition utf8_char (c : N) : option bytes :=
  if c <? 0x80 then Some [c]
  else if c <? 0x800 then
    Some [N.lor 0xC0 (N.shiftr c 6); N.lor 0x80 (N.land c 0x3F)]
  else if c <? 0x10000 then
    if (0xD800 <=? c) && (c <=? 0xDFFF) then None
    else Some [N.lor 0xE0 (N.shiftr c 12);
               N.lor 0x80 (N.land (N.shiftr c 6) 0x3F);
               N.lor 0x80 (N.land c 0x3F)]
  else if c <? 0x110000 then
    Some [N.lor 0xF0 (N.shiftr c 18);
          N.lor 0x80 (N.land (N.shiftr c 12) 0x3F);
          N.lor 0x80 (N.land (N.shiftr c 6) 0x3F);
          N.lor 0x80 (N.land c 0x3F)]
  else None.

Fixpoint utf8_encode (s : str) : option bytes :=
  match s with
  | [] => Some []
  | c :: s' =>
      match utf8_char c, utf8_encode s' with
      | Some b, Some bs => Some (b ++ bs)
      | _, _ => None
      end
  end.

Definition is_ascii (s : str) : bool := forallb (fun c => c <? 128) s.

(** The constant-time loop of [hmac.compare_digest]: it runs over the
    second argument, against the first when the lengths agree and against
    the second itself, with the result already set, when they do not. *)
Definition tscmp (a b : str) : bool :=
  let same := (length a =? length b)%nat in
  let left := if same then a else b in
  let result := if same then 0 else 1 in
  fold_left (fun r p => N.lor r (N.lxor (fst p) (snd p))) (combine left b) result
  =? 0.

(** [hmac.compare_digest(a, b)] on two [str]: both must be ASCII. *)
Definition compare_digest (a b : str) : pyresult bool :=
  if is_ascii a && is_ascii b then Ok (tscmp a b) else TypeError.

Definition verify_webhook_signature (body : bytes) (signature secret : str)
  : pyresult bool :=
  match utf8_encode secret with
  | None => UnicodeEncodeError
  | Some key =>
      let computed := hexdigest (hmac_sha256 key body) in
      compare_digest computed signature
  end.

(** ** The processed-events set and event dispatch ([asana_webhooks.py]) *)

(** [set.pop()] removes and returns an arbitrary element; which one is
    left to the interpreter's hash table.  A [SetPop] fixes one such
    choice: it only ever returns a member, and finds one whenever the set
    is not empty (Python raises [KeyError] on the empty set). *)
Class SetPop := {
  set_pop : gset str → option str;
  set_pop_elem : ∀ s x, set_pop s = Some x → x ∈ s;
  set_pop_nonempty : ∀ s, s ≠ ∅ → is_Some (set_pop s)
}.

(** The reconciler entry points as the dispatcher sees them, over a world
    state [W] holding everything they read and write. *)
Class Reconcilers (W : Type) := {
  run_task_assignment : str → W → outcome * W;
  run_story_mention : str → option str → W → outcome * W
}.

Inductive call :=
| TaskAssignment (task : str)
| StoryMention (story : str) (parent_gid : option str).

Record hooks (W : Type) := {
  webhook_secrets : gmap str str;
  _processed_events : gset str;
  invocations : list call;
  hook_log : list log_record;
  world : W
}.
Arguments webhook_secrets {W} _.
Arguments _processed_events {W} _.
Arguments invocations {W} _.
Arguments hook_log {W} _.
Arguments world {W} _.

Definition _MAX_PROCESSED_EVENTS : nat := 1000.

(** [int(_MAX_PROCESSED_EVENTS * 0.9)]: the double product is [900.0]. *)
Definition keep_after_cleanup : nat := 900.

(** A call either completes or lets an exception escape; both carry the
    state reached. *)
Inductive completion (A : Type) :=
| Completed (a : A)
| Escaped (a : A).
Arguments Completed {A} _.
Arguments Escaped {A} _.

Definition state_of {A} (c : completion A) : A :=
  match c with Completed a => a | Escaped a => a end.

(** [for _ in range(n): s.pop()]; [None] is the [KeyError] of an empty
    set. *)
Fixpoint pop_times `{SetPop} (n : nat) (s : gset str) : option (gset str) :=
  match n with
  | O => Some s
  | S k =>
      match set_pop s with
      | Some x => pop_times k (s ∖ {[x]})
      | None => None
      end
  end.

Section Dispatch.
Context {W : Type} `{SetPop} `{Reconcilers W}.

Definition with_events (st : hooks W) (s : gset str) : hooks W :=
  {| webhook_secrets := webhook_secrets st; _processed_events := s;
     invocations := invocations st; hook_log := hook_log st;
     world := world st |}.

Definition logged (st : hooks W) (r : log_record) : hooks W :=
  {| webhook_secrets := webhook_secrets st;
     _processed_events := _processed_events st;
     invocations := invocations st; hook_log := hook_log st ++ [r];
     world := world st |}.

(** The call of a reconciler inside its [try ... except Exception]. *)
Definition invoke (c : call) (st : hooks W) : hooks W :=
  let '(o, w) :=
    match c with
    | TaskAssignment t => run_task_assignment t (world st)
    | StoryMention s p => run_story_mention s p (world st)
    end in
  let st' :=
    {| webhook_secrets := webhook_secrets st;
       _processed_events := _processed_events st;
       invocations := invocations st ++ [c]; hook_log := hook_log st;
       world := w |} in
  match o with
  | Returned _ => st'
  | Raised =>
      logged st' {| lvl := Error;
                    msg := match c with
                           | TaskAssignment _ => lit "Error processing task assignment"
                           | StoryMention _ _ => lit "Error processing story mention"
                           end |}
  end.

Definition task_dedup_key (event : WebhookEvent) : str :=
  lit "task-" ++ gid (resource event) ++ lit "-" ++ fmt_opt (created_at event).

Definition story_dedup_key (event : WebhookEvent) : str :=
  lit "story-" ++ gid (resource event) ++ lit "-" ++ fmt_opt (created_at event).

Definition process_task_event (event : WebhookEvent) (st : hooks W)
  : completion (hooks W) :=
  let task_gid := gid (resource event) in
  if negb (bool_decide (resource_type (resource event) = Some (lit "task")))
  then Completed st
  else if negb (str_eqb (action event) (lit "changed")) then Completed st
  else
    let dedup_key := task_dedup_key event in
    if bool_decide (dedup_key ∈ _processed_events st) then Completed st
    else
      let added := _processed_events st ∪ {[dedup_key]} in
      let cleaned :=
        if (_MAX_PROCESSED_EVENTS <? size added)%nat
        then pop_times (size added - keep_after_cleanup)%nat added
        else Some added in
      match cleaned with
      | None => Escaped (with_events st added)
      | Some s =>
          Completed (invoke (TaskAssignment task_gid) (with_events st s))
      end.

Definition process_story_event (event : WebhookEvent) (st : hooks W)
  : completion (hooks W) :=
  let story_gid := gid (resource event) in
  if negb (str_eqb (action event) (lit "added")) then Completed st
  else
    let dedup_key := story_dedup_key event in
    if bool_decide (dedup_key ∈ _processed_events st) then Completed st
    else
      let added := _processed_events st ∪ {[dedup_key]} in
      let parent_gid :=
        match parent event with
        | Some p => Some (gid p)
        | None => None
        end in
      Completed (invoke (StoryMention story_gid parent_gid)
                        (with_events st added)).

Definition process_webhook_event (event : WebhookEvent) (st : hooks W)
  : completion (hooks W) :=
  if bool_decide (resource_type (resource event) = Some (lit "task"))
  then process_task_event event st
  else if bool_decide (resource_type (resource event) = Some (lit "story"))
  then process_story_event event st
  else Completed st.

Definition process_webhook_event_safe (event : WebhookEvent) (st : hooks W)
  : hooks W :=
  match process_webhook_event event st with
  | Completed st' => st'
  | Escaped st' =>
      logged st' {| lvl := Error;
                    msg := lit "Failed to process webhook event in background" |}
  end.

(** The background tasks of the queued events, run one after another. *)
Definition run_background (events : list WebhookEvent) (st : hooks W)
  : hooks W :=
  fold_left (fun s e => process_webhook_event_safe e s) events st.
End Dispatch.

(** ** The webhook endpoint ([asana_webhooks.py]) *)

Record Request := {
  body : bytes;
  x_hook_secret : option str;
  x_hook_signature : option str
}.

(** What the endpoint takes from outside the module: the decoding of a
    body into a [WebhookPayload] ([None] when [request.json()] or the
    model validation raises), and the webhook secret of the settings
    store ([None] when there is none or loading fails). *)
Class Endpoint (W : Type) := {
  parse_payload : bytes → option (list WebhookEvent);
  settings_webhook_secret : W → option str
}.

Inductive response :=
| HandshakeEcho (secret : str)
| HTTPException (status_code : nat) (detail : str)
| HeartbeatReceived
| Queued (count : nat)
| InternalError.

(** The outcome of one request: the response, the state left behind, the
    events handed to [background_tasks.add_task], and how many times
    [verify_webhook_signature] was called. *)
Record handled (W : Type) := {
  resp : response;
  after : hooks W;
  background_tasks : list WebhookEvent;
  signature_checks : nat
}.
Arguments resp {W} _.
Arguments after {W} _.
Arguments background_tasks {W} _.
Arguments signature_checks {W} _.

Section WebhookEndpoint.
Context {W : Type} `{Endpoint W}.

Definition default_key : str := lit "default".

Definition with_secret (st : hooks W) (secret : str) : hooks W :=
  {| webhook_secrets := <[default_key := secret]> (webhook_secrets st);
     _processed_events := _processed_events st;
     invocations := invocations st; hook_log := hook_log st;
     world := world st |}.

Definition warned (st : hooks W) (m : string) : hooks W :=
  {| webhook_secrets := webhook_secrets st;
     _processed_events := _processed_events st;
     invocations := invocations st;
     hook_log := hook_log st ++ [{| lvl := Warning; msg := lit m |}];
     world := world st |}.

Definition failed (st : hooks W) (m : string) : hooks W :=
  {| webhook_secrets := webhook_secrets st;
     _processed_events := _processed_events st;
     invocations := invocations st;
     hook_log := hook_log st ++ [{| lvl := Error; msg := lit m |}];
     world := world st |}.

(** From the payload parse to the response. *)
Definition parse_and_queue (request : Request) (st : hooks W) (checks : nat)
  : handled W :=
  match parse_payload (body request) with
  | None =>
      {| resp := HTTPException 400 (lit "Invalid payload");
         after := failed st "Failed to parse webhook payload";
         background_tasks := []; signature_checks := checks |}
  | Some [] =>
      {| resp := HeartbeatReceived; after := st;
         background_tasks := []; signature_checks := checks |}
  | Some events =>
      {| resp := Queued (length events); after := st;
         background_tasks := events; signature_checks := checks |}
  end.

Definition asana_webhook (request : Request) (st : hooks W) : handled W :=
  if truthy_opt (x_hook_secret request) then
    let secret := or_empty (x_hook_secret request) in
    {| resp := HandshakeEcho secret; after := with_secret st secret;
       background_tasks := []; signature_checks := 0 |}
  else if truthy_opt (x_hook_signature request) then
    let signature := or_empty (x_hook_signature request) in
    let cached := or_empty (webhook_secrets st !! default_key) in
    let '(stored_secret, st1) :=
      if truthy cached then (cached, st)
      else
        let loaded := or_empty (settings_webhook_secret (world st)) in
        if truthy loaded then (loaded, with_secret st loaded)
        else (loaded, st) in
    if negb (truthy stored_secret) then
      {| resp := HTTPException 401 (lit "No webhook secret configured");
         after := warned st1 "No webhook secret stored, cannot verify signature";
         background_tasks := []; signature_checks := 0 |}
    else
      match verify_webhook_signature (body request) signature stored_secret with
      | Ok true => parse_and_queue request st1 1
      | Ok false =>
          {| resp := HTTPException 401 (lit "Invalid signature");
             after := warned st1 "Invalid webhook signature";
             background_tasks := []; signature_checks := 1 |}
      | _ =>
          {| resp := InternalError; after := st1;
             background_tasks := []; signature_checks := 1 |}
      end
  else parse_and_queue request st 0.
End WebhookEndpoint.

(** ** Text formatting ([asana_reporter.py], [asana_service.py]) *)

(** The converters of the two libraries the module calls: mistune with
    the module's [AsanaHTMLRenderer] and the strikethrough plugin, and
    markdownify with [heading_style='ATX', bullets='-', strip=['body']]. *)
Class Converters := {
  _asana_markdown : str → str;
  md : str → str
}.

Definition quote : N := 34.

(** The first pattern of [sanitize_agent_mentions], case ignored: [<a],
    any run without [>], [data-asana-gid=] and the gid in double quotes,
    any run without [>], [>@], any run without [<], [</a>]. *)
Definition mention_anchor (agent_user_gid : str) : pattern :=
  literal_i (lit "<a") ++ [Star (not_in [62])]
  ++ literal_i (lit "data-asana-gid=") ++ [One (is_char_i quote)]
  ++ literal_i agent_user_gid
  ++ [One (is_char_i quote); Star (not_in [62]); One (is_char_i 62);
      One (is_char_i 64); Star (not_in [60])]
  ++ literal_i (lit "</a>").

(** The class of the second pattern: anything but white space, [<], [>]
    and the double quote. *)
Definition url_char (c : N) : bool :=
  negb (is_space c || bool_decide (c ∈ [60; 62; quote])).

(** The second pattern, case ignored: [http], an optional [s], [://],
    and the gid between two runs of that class. *)
Definition url_with (agent_user_gid : str) : pattern :=
  literal_i (lit "http") ++ [Opt (is_char_i 115)] ++ literal_i (lit "://")
  ++ [Star url_char] ++ literal_i agent_user_gid ++ [Star url_char].

(** The third pattern, case ignored: a bracketed run without a closing
    bracket, then in parentheses the gid between two runs without a
    closing parenthesis. *)
Definition markdown_link_with (agent_user_gid : str) : pattern :=
  [One (is_char_i 91); Star (not_in [93]); One (is_char_i 93);
   One (is_char_i 40); Star (not_in [41])]
  ++ literal_i agent_user_gid ++ [Star (not_in [41]); One (is_char_i 41)].

Definition sanitize_agent_mentions (text : str) (agent_user_gid : option str)
  : str :=
  if negb (truthy text) || negb (truthy_opt agent_user_gid) then text
  else
    let g := or_empty agent_user_gid in
    let text := re_sub (mention_anchor g) [] text in
    let text := re_sub (url_with g) (lit "[link removed]") text in
    let text := re_sub (markdown_link_with g) [] text in
    text.

Definition markdown_to_asana_html `{Converters}
    (markdown_text : str) (agent_user_gid : option str) : str :=
  if negb (truthy markdown_text) then []
  else
    let text := sanitize_agent_mentions markdown_text agent_user_gid in
    let result := _asana_markdown text in
    let result := collapse_newlines result in
    strip result.

(** A double or a single quote. *)
Definition any_quote (c : N) : bool := (c =? quote) || (c =? 39).

(** A profile link, case ignored: [http], an optional [s],
    [://app.asana.com/], digits, [/profile/], digits. *)
Definition profile_url `{UnicodeData} : pattern :=
  literal_i (lit "http") ++ [Opt (is_char_i 115)]
  ++ literal_i (lit "://app.asana.com/")
  ++ [One is_decimal; Star is_decimal] ++ literal_i (lit "/profile/")
  ++ [One is_decimal; Star is_decimal].

(** An anchor on a profile link, case ignored: [<a], any run without
    [>], [href=] and the quoted profile link, any run without [>], [>],
    any run without [<], [</a>], and the white space that follows. *)
Definition profile_anchor `{UnicodeData} : pattern :=
  literal_i (lit "<a") ++ [Star (not_in [62])] ++ literal_i (lit "href=")
  ++ [One any_quote] ++ profile_url
  ++ [One any_quote; Star (not_in [62]); One (is_char_i 62);
      Star (not_in [60])]
  ++ literal_i (lit "</a>") ++ [Star is_space].

Definition asana_html_to_markdown `{UnicodeData} `{Converters}
    (html_text : str) : str :=
  if negb (truthy html_text) then []
  else
    let text := re_sub profile_anchor [] html_text in
    let markdown := md text in
    let markdown := collapse_newlines markdown in
    strip markdown.

Definition clean_asana_comment `{UnicodeData}
    (comment_text : str) (agent_user_gid : option str) : str :=
  if negb (truthy comment_text) then comment_text
  else
    let text := re_sub (profile_url ++ [Star is_space]) [] comment_text in
    let text := collapse_newlines text in
    strip text.

(** [AsanaHTMLRenderer.paragraph] *)
Definition paragraph (text : str) : str := text ++ [newline; newline].

(** ** Events of a conversation ([openhands.events]) *)

Inductive EventSource := AGENT | USER | ENVIRONMENT.

(** The events the module tells apart: the agent-state observation with
    the raw value of its [agent_state] field, a message action with its
    source, any other observation that has a [content], and the rest. *)
Inductive Event :=
| AgentStateChangedObservation (agent_state : str)
| MessageAction (content : str) (source : option EventSource)
| Observation (content : str)
| OtherEvent.

(** The members of the [AgentState] enumeration of
    [openhands.core.schema.agent]; the first five are the module's
    [TERMINAL_STATES]. *)
Inductive AgentState :=
| FINISHED | STOPPED | ERROR | REJECTED | AWAITING_USER_INPUT
| LOADING | RUNNING | PAUSED | AWAITING_USER_CONFIRMATION
| USER_CONFIRMED | USER_REJECTED | RATE_LIMITED.

Definition agent_state_values : list (string * AgentState) :=
  [("finished", FINISHED); ("stopped", STOPPED); ("error", ERROR);
   ("rejected", REJECTED); ("awaiting_user_input", AWAITING_USER_INPUT);
   ("loading", LOADING); ("running", RUNNING); ("paused", PAUSED);
   ("awaiting_user_confirmation", AWAITING_USER_CONFIRMATION);
   ("user_confirmed", USER_CONFIRMED); ("user_rejected", USER_REJECTED);
   ("rate_limited", RATE_LIMITED)]%string.

(** [AgentState(value)]; [None] is its [ValueError]. *)
Definition AgentState_of (value : str) : option AgentState :=
  snd <$> find (fun p => str_eqb (lit (fst p)) value) agent_state_values.

Definition TERMINAL_STATES : list AgentState :=
  [FINISHED; STOPPED; ERROR; REJECTED; AWAITING_USER_INPUT].

Definition is_terminal (s : AgentState) : bool :=
  match s with
  | FINISHED | STOPPED | ERROR | REJECTED | AWAITING_USER_INPUT => true
  | _ => false
  end.

(** ** The reporter ([asana_reporter.py]) *)

(** The last agent message, scanning the events from the newest: a
    message action of the agent, or an observation with a non-empty
    content; message actions of other sources are passed over. *)
Fixpoint last_agent_message (reversed_events : list Event) : option str :=
  match reversed_events with
  | [] => None
  | MessageAction content source :: rest =>
      match source with
      | Some AGENT => Some content
      | _ => last_agent_message rest
      end
  | Observation content :: rest =>
      if truthy content then Some content else last_agent_message rest
  | _ :: rest => last_agent_message rest
  end.

(** [format_agent_result]; [metrics] is what [format_metrics] printed for
    the duration and the cost (a float, not modelled). *)
Definition format_agent_result `{Converters}
    (events : list Event) (agent_state : AgentState) (conversation_url : str)
    (metrics : str) (agent_user_gid : option str) : str :=
  let last_message := last_agent_message (rev events) in
  let parts :=
    if truthy_opt last_message then
      let formatted_message :=
        markdown_to_asana_html (or_empty last_message) agent_user_gid in
      let formatted_message :=
        if 10000 <? N.of_nat (length formatted_message)
        then take (N.to_nat 10000) formatted_message
             ++ lit "..." ++ [newline] ++ lit "<em>(truncated)</em>"
        else formatted_message in
      [formatted_message; [newline; newline]]
    else [] in
  let parts :=
    if truthy metrics
    then parts ++ [lit "<em>" ++ metrics ++ lit "</em>"]
    else parts in
  concat parts.

(** A comment created on a task through the API. *)
Record Comment := {
  on_task : str;
  text : option str;
  comment_html : option str;
  pinned : bool
}.

Record AsanaConversationListener := {
  listener_task_gid : str;
  conversation_id : str;
  conversation_url : str;
  asana_access_token : str;
  asana_workspace_gid : option str;
  listener_agent_user_gid : option str;
  _reported : bool;
  _start_time : N
}.

Definition set_reported (b : bool) (l : AsanaConversationListener)
  : AsanaConversationListener :=
  {| listener_task_gid := listener_task_gid l;
     conversation_id := conversation_id l;
     conversation_url := conversation_url l;
     asana_access_token := asana_access_token l;
     asana_workspace_gid := asana_workspace_gid l;
     listener_agent_user_gid := listener_agent_user_gid l;
     _reported := b; _start_time := _start_time l |}.

Definition set_start_time (t : N) (l : AsanaConversationListener)
  : AsanaConversationListener :=
  {| listener_task_gid := listener_task_gid l;
     conversation_id := conversation_id l;
     conversation_url := conversation_url l;
     asana_access_token := asana_access_token l;
     asana_workspace_gid := asana_workspace_gid l;
     listener_agent_user_gid := listener_agent_user_gid l;
     _reported := _reported l; _start_time := t |}.

(** ** The world of the reconciler ([asana_service.py])

    Everything the service reads and writes outside its own frames: the
    settings store, the Asana workspace behind the API client, the file
    store with the mapping file, the conversation manager with its
    sessions, and the module's own listener table. *)

Record AsanaSettings := {
  access_token : str;
  workspace_gid : option str;
  project_gid : option str;
  agent_user_gid : option str
}.

(** An agent session: its event stream ([None] when the session has
    none), the callbacks subscribed to the stream, by callback id, each
    bound to the listener object it was created from, and the events
    already emitted but not yet dispatched. *)
Record Session := {
  event_stream : option (list Event);
  callbacks : gmap str nat;
  in_flight : list Event
}.

(** What the next call of [create_new_conversation] does. *)
Inductive creation :=
| Creates (new_conversation_id : str) (session : option Session)
| Fails (error : str).

(** - [settings]: what [load_asana_settings] finds;
    - [asana_tasks], [asana_stories], [asana_task_stories]: what the API
      serves, a missing key being a failed request;
    - [likes_accepted], [comments_accepted]: whether those requests
      succeed; [likes], [comments]: what they have created;
    - [mapping_file]: the content of the mapping file, [None] when there
      is no readable file; [store_writable]: whether writes succeed;
    - [sessions]: the sessions of the conversation manager; [upcoming]:
      the results of the next conversation creations; [created]: the
      conversations created, with their initial message;
    - [listeners]: the listener objects, by address; [_active_listeners]:
      the module's table, from conversation id to listener;
    - [metrics_text]: what [format_metrics] prints; [clock]: [time.time()]. *)
Record World := {
  settings : option AsanaSettings;
  base_url : str;
  asana_tasks : gmap str AsanaTask;
  asana_stories : gmap str Story;
  asana_task_stories : gmap str (list Story);
  likes_accepted : bool;
  comments_accepted : bool;
  likes : list str;
  comments : list Comment;
  mapping_file : option (gmap str str);
  store_writable : bool;
  sessions : gmap str Session;
  upcoming : list creation;
  created : list (str * str);
  listeners : list AsanaConversationListener;
  _active_listeners : gmap str nat;
  metrics_text : str;
  clock : N;
  log : list log_record
}.

Definition set_likes (v : list str) (w : World) : World :=
  {| settings := settings w; base_url := base_url w;
     asana_tasks := asana_tasks w; asana_stories := asana_stories w;
     asana_task_stories := asana_task_stories w;
     likes_accepted := likes_accepted w;
     comments_accepted := comments_accepted w; likes := v;
     comments := comments w; mapping_file := mapping_file w;
     store_writable := store_writable w; sessions := sessions w;
     upcoming := upcoming w; created := created w; listeners := listeners w;
     _active_listeners := _active_listeners w;
     metrics_text := metrics_text w; clock := clock w; log := log w |}.

Definition set_comments (v : list Comment) (w : World) : World :=
  {| settings := settings w; base_url := base_url w;
     asana_tasks := asana_tasks w; asana_stories := asana_stories w;
     asana_task_stories := asana_task_stories w;
     likes_accepted := likes_accepted w;
     comments_accepted := comments_accepted w; likes := likes w;
     comments := v; mapping_file := mapping_file w;
     store_writable := store_writable w; sessions := sessions w;
     upcoming := upcoming w; created := created w; listeners := listeners w;
     _active_listeners := _active_listeners w;
     metrics_text := metrics_text w; clock := clock w; log := log w |}.

Definition set_mapping_file (v : option (gmap str str)) (w : World) : World :=
  {| settings := settings w; base_url := base_url w;
     asana_tasks := asana_tasks w; asana_stories := asana_stories w;
     asana_task_stories := asana_task_stories w;
     likes_accepted := likes_accepted w;
     comments_accepted := comments_accepted w; likes := likes w;
     comments := comments w; mapping_file := v;
     store_writable := store_writable w; sessions := sessions w;
     upcoming := upcoming w; created := created w; listeners := listeners w;
     _active_listeners := _active_listeners w;
     metrics_text := metrics_text w; clock := clock w; log := log w |}.

Definition set_sessions (v : gmap str Session) (w : World) : World :=
  {| settings := settings w; base_url := base_url w;
     asana_tasks := asana_tasks w; asana_stories := asana_stories w;
     asana_task_stories := asana_task_stories w;
     likes_accepted := likes_accepted w;
     comments_accepted := comments_accepted w; likes := likes w;
     comments := comments w; mapping_file := mapping_file w;
     store_writable := store_writable w; sessions := v;
     upcoming := upcoming w; created := created w; listeners := listeners w;
     _active_listeners := _active_listeners w;
     metrics_text := metrics_text w; clock := clock w; log := log w |}.

Definition set_upcoming (v : list creation) (w : World) : World :=
  {| settings := settings w; base_url := base_url w;
     asana_tasks := asana_tasks w; asana_stories := asana_stories w;
     asana_task_stories := asana_task_stories w;
     likes_accepted := likes_accepted w;
     comments_accepted := comments_accepted w; likes := likes w;
     comments := comments w; mapping_file := mapping_file w;
     store_writable := store_writable w; sessions := sessions w;
     upcoming := v; created := created w; listeners := listeners w;
     _active_listeners := _active_listeners w;
     metrics_text := metrics_text w; clock := clock w; log := log w |}.

Definition set_created (v : list (str * str)) (w : World) : World :=
  {| settings := settings w; base_url := base_url w;
     asana_tasks := asana_tasks w; asana_stories := asana_stories w;
     asana_task_stories := asana_task_stories w;
     likes_accepted := likes_accepted w;
     comments_accepted := comments_accepted w; likes := likes w;
     comments := comments w; mapping_file := mapping_file w;
     store_writable := store_writable w; sessions := sessions w;
     upcoming := upcoming w; created := v; listeners := listeners w;
     _active_listeners := _active_listeners w;
     metrics_text := metrics_text w; clock := clock w; log := log w |}.

Definition set_listeners (v : list AsanaConversationListener) (w : World) : World :=
  {| settings := settings w; base_url := base_url w;
     asana_tasks := asana_tasks w; asana_stories := asana_stories w;
     asana_task_stories := asana_task_stories w;
     likes_accepted := likes_accepted w;
     comments_accepted := comments_accepted w; likes := likes w;
     comments := comments w; mapping_file := mapping_file w;
     store_writable := store_writable w; sessions := sessions w;
     upcoming := upcoming w; created := created w; listeners := v;
     _active_listeners := _active_listeners w;
     metrics_text := metrics_text w; clock := clock w; log := log w |}.

Definition set_active_listeners (v : gmap str nat) (w : World) : World :=
  {| settings := settings w; base_url := base_url w;
     asana_tasks := asana_tasks w; asana_stories := asana_stories w;
     asana_task_stories := asana_task_stories w;
     likes_accepted := likes_accepted w;
     comments_accepted := comments_accepted w; likes := likes w;
     comments := comments w; mapping_file := mapping_file w;
     store_writable := store_writable w; sessions := sessions w;
     upcoming := upcoming w; created := created w; listeners := listeners w;
     _active_listeners := v; metrics_text := metrics_text w;
     clock := clock w; log := log w |}.

Definition set_log (v : list log_record) (w : World) : World :=
  {| settings := settings w; base_url := base_url w;
     asana_tasks := asana_tasks w; asana_stories := asana_stories w;
     asana_task_stories := asana_task_stories w;
     likes_accepted := likes_accepted w;
     comments_accepted := comments_accepted w; likes := likes w;
     comments := comments w; mapping_file := mapping_file w;
     store_writable := store_writable w; sessions := sessions w;
     upcoming := upcoming w; created := created w; listeners := listeners w;
     _active_listeners := _active_listeners w;
     metrics_text := metrics_text w; clock := clock w; log := v |}.

(** State passing, written as in the source: one statement after the
    other. *)
Definition M (A : Type) : Type := World → A * World.

Definition ret {A : Type} (a : A) : M A := fun w => (a, w).

Definition bind {A B : Type} (m : M A) (k : A → M B) : M B :=
  fun w => let '(a, w') := m w in k a w'.

Notation "'let*' x ':=' m 'in' k" := (bind m (fun x => k))
  (at level 10, x pattern, m at level 100, k at level 200).
Notation "m ';;' k" := (bind m (fun _ => k))
  (at level 100, k at level 200, right associativity).

Definition gets {A : Type} (f : World → A) : M A := fun w => (f w, w).
Definition modify (f : World → World) : M unit := fun w => (tt, f w).

Definition logger (l : level) (m : string) : M unit :=
  modify (fun w => set_log (log w ++ [{| lvl := l; msg := lit m |}]) w).

(** *** The API client ([asana_client.py]); [None] is a failed request *)

Definition get_task (task_gid : str) : M (option AsanaTask) :=
  gets (fun w => asana_tasks w !! task_gid).

Definition get_story (story_gid : str) : M (option Story) :=
  gets (fun w => asana_stories w !! story_gid).

Definition get_task_stories (task_gid : str) : M (option (list Story)) :=
  gets (fun w => asana_task_stories w !! task_gid).

Definition like (gid : str) : M bool :=
  let* ok := gets likes_accepted in
  if ok then modify (fun w => set_likes (likes w ++ [gid]) w) ;; ret true
  else ret false.

Definition add_comment (task_gid : str) (text html_text : option str)
    (is_pinned : bool) : M bool :=
  let* ok := gets comments_accepted in
  if ok then
    modify (fun w =>
      set_comments (comments w ++ [{| on_task := task_gid; text := text;
                                      comment_html := html_text;
                                      pinned := is_pinned |}]) w) ;;
    ret true
  else ret false.

(** *** The reporter's listener *)

Definition report_result `{Converters} (task_gid : str) (events : list Event)
    (agent_state : AgentState) (conversation_url : str)
    (agent_user_gid : option str) : M bool :=
  let* metrics := gets metrics_text in
  let html_content :=
    format_agent_result events agent_state conversation_url metrics
                        agent_user_gid in
  let wrapped_html := lit "<body>" ++ html_content ++ lit "</body>" in
  let* posted := add_comment task_gid None (Some wrapped_html) false in
  if posted then ret true
  else logger Error "report_result: Failed to post result to task" ;; ret false.

(** [AsanaConversationListener._report_to_asana] of the listener at
    address [self]. *)
Definition _report_to_asana `{Converters} (self : nat) (agent_state : AgentState)
  : M unit :=
  let* me := gets (fun w => listeners w !! self) in
  match me with
  | None => ret tt
  | Some l =>
      let* agent_session := gets (fun w => sessions w !! conversation_id l) in
      match agent_session with
      | None => logger Warning "Could not get agent session for conversation"
      | Some session =>
          match event_stream session with
          | None => logger Warning "Could not get event stream for conversation"
          | Some events =>
              report_result (listener_task_gid l) events agent_state
                            (conversation_url l) (listener_agent_user_gid l) ;;
              ret tt
          end
      end
  end.

Definition update_listener (self : nat)
    (f : AsanaConversationListener → AsanaConversationListener) : M unit :=
  modify (fun w =>
    match listeners w !! self with
    | Some l => set_listeners (<[self := f l]> (listeners w)) w
    | None => w
    end).

(** The callback made by [create_callback] of the listener at address
    [self].  The report runs under a 60 second timeout, which is not
    modelled: the report is taken to complete. *)
Definition callback `{Converters} (self : nat) (event : Event) : M unit :=
  match event with
  | AgentStateChangedObservation value =>
      match AgentState_of value with
      | None => logger Warning "Invalid agent state value"
      | Some agent_state =>
          if negb (is_terminal agent_state) then ret tt
          else
            let* me := gets (fun w => listeners w !! self) in
            match me with
            | None => ret tt
            | Some l =>
                if _reported l then ret tt
                else
                  update_listener self (set_reported true) ;;
                  _report_to_asana self agent_state
            end
      end
  | _ => ret tt
  end.

(** *** The mapping file *)

Definition get_task_conversation_mapping : M (gmap str str) :=
  gets (fun w => match mapping_file w with Some m => m | None => ∅ end).

Definition save_task_conversation_mapping (mapping : gmap str str) : M unit :=
  let* ok := gets store_writable in
  if ok then modify (set_mapping_file (Some mapping))
  else logger Warning "Failed to save Asana task mapping".

(** [conversation_manager.get_agent_session] *)
Definition get_agent_session (conversation_id : str) : M (option Session) :=
  gets (fun w => sessions w !! conversation_id).

Definition get_conversation_for_task (task_gid : str) : M (option str) :=
  let* mapping := get_task_conversation_mapping in
  match mapping !! task_gid with
  | Some conversation_id =>
      if truthy conversation_id then
        let* agent_session := get_agent_session conversation_id in
        match agent_session with
        | Some _ => ret (Some conversation_id)
        | None =>
            save_task_conversation_mapping (delete task_gid mapping) ;;
            ret None
        end
      else ret None
  | None => ret None
  end.

Definition set_conversation_for_task (task_gid conversation_id : str) : M unit :=
  let* mapping := get_task_conversation_mapping in
  save_task_conversation_mapping (<[task_gid := conversation_id]> mapping).

Definition get_conversation_url (conversation_id : str) : M str :=
  let* base := gets base_url in
  ret (base ++ lit "/conversations/" ++ conversation_id).

(** *** Listener subscription *)

Definition update_session (conversation_id : str) (f : Session → Session)
  : M unit :=
  modify (fun w =>
    match sessions w !! conversation_id with
    | Some s => set_sessions (<[conversation_id := f s]> (sessions w)) w
    | None => w
    end).

Definition append_event (e : Event) (s : Session) : Session :=
  {| event_stream := (fun events => events ++ [e]) <$> event_stream s;
     callbacks := callbacks s; in_flight := in_flight s |}.

Definition with_callback (callback_id : str) (self : nat) (s : Session)
  : Session :=
  {| event_stream := event_stream s;
     callbacks := <[callback_id := self]> (callbacks s);
     in_flight := in_flight s |}.

Definition without_in_flight (s : Session) : Session :=
  {| event_stream := event_stream s; callbacks := callbacks s;
     in_flight := [] |}.

(** One statement after the other over a list. *)
Fixpoint for_each {A : Type} (l : list A) (body : A → M unit) : M unit :=
  match l with
  | [] => ret tt
  | x :: rest => body x ;; for_each rest body
  end.

(** The event stream dispatches an event: it joins the stream and every
    subscribed callback is called with it. *)
Definition dispatch `{Converters} (conversation_id : str) (e : Event) : M unit :=
  update_session conversation_id (append_event e) ;;
  let* agent_session := get_agent_session conversation_id in
  match agent_session with
  | Some s =>
      for_each (map snd (map_to_list (callbacks s))) (fun self => callback self e)
  | None => ret tt
  end.

(** What happens while a coroutine of the module sleeps: the events in
    flight of the conversation are dispatched. *)
Definition settle `{Converters} (conversation_id : str) : M unit :=
  let* agent_session := get_agent_session conversation_id in
  match agent_session with
  | Some s =>
      update_session conversation_id without_in_flight ;;
      for_each (in_flight s) (dispatch conversation_id)
  | None => ret tt
  end.

(** The catch-up loop over the recent events, newest first: the first
    terminal state found is reported, whatever the listener's flag. *)
Fixpoint catch_up `{Converters} (self : nat) (events : list Event) : M unit :=
  match events with
  | [] => ret tt
  | AgentStateChangedObservation value :: rest =>
      match AgentState_of value with
      | Some agent_state =>
          if is_terminal agent_state then
            update_listener self (set_reported true) ;;
            _report_to_asana self agent_state
          else catch_up self rest
      | None =>
          logger Warning "Invalid agent state value" ;;
          catch_up self rest
      end
  | _ :: rest => catch_up self rest
  end.

Definition subscribe_to_conversation_events `{Converters}
    (conversation_id task_gid asana_access_token : str)
    (asana_workspace_gid agent_user_gid : option str) : M unit :=
  let* agent_session := get_agent_session conversation_id in
  match agent_session with
  | None => logger Warning "Could not get agent session for conversation"
  | Some session =>
      match event_stream session with
      | None => logger Warning "No event stream for conversation"
      | Some _ =>
          let* conversation_url := get_conversation_url conversation_id in
          let* now := gets clock in
          let listener :=
            {| listener_task_gid := task_gid;
               conversation_id := conversation_id;
               conversation_url := conversation_url;
               asana_access_token := asana_access_token;
               asana_workspace_gid := asana_workspace_gid;
               listener_agent_user_gid := agent_user_gid;
               _reported := false; _start_time := now |} in
          let* self := gets (fun w => length (listeners w)) in
          modify (fun w => set_listeners (listeners w ++ [listener]) w) ;;
          modify (fun w =>
            set_active_listeners
              (<[conversation_id := self]> (_active_listeners w)) w) ;;
          let callback_id := lit "asana_reporter_" ++ conversation_id in
          (match callbacks session !! callback_id with
           | Some _ => ret tt
           | None =>
               update_session conversation_id (with_callback callback_id self)
           end) ;;
          settle conversation_id ;;
          let* agent_session := get_agent_session conversation_id in
          match agent_session ≫= event_stream with
          | Some events => catch_up self (take 50 (rev events))
          | None =>
              logger Warning "Error checking for existing terminal state"
          end
      end
  end.

(** *** Conversations *)

Definition send_message_to_conversation `{Converters}
    (conversation_id message : str) (task_gid asana_access_token : option str)
    (asana_workspace_gid agent_user_gid : option str) : M bool :=
  let* agent_session := get_agent_session conversation_id in
  match agent_session with
  | None =>
      logger Warning "Could not get agent session for conversation" ;;
      ret false
  | Some _ =>
      let* active := gets (fun w => _active_listeners w !! conversation_id) in
      (match active with
       | Some self =>
           let* now := gets clock in
           update_listener self (set_reported false) ;;
           update_listener self (set_start_time now)
       | None =>
           if truthy_opt task_gid && truthy_opt asana_access_token then
             subscribe_to_conversation_events
               conversation_id (or_empty task_gid)
               (or_empty asana_access_token) asana_workspace_gid
               agent_user_gid
           else
             logger Warning "No listener for conversation and no credentials to re-create it"
       end) ;;
      let* agent_session := get_agent_session conversation_id in
      match agent_session ≫= event_stream with
      | Some _ =>
          update_session conversation_id
            (append_event (MessageAction message (Some USER))) ;;
          ret true
      | None =>
          logger Error "Failed to send message to conversation" ;;
          ret false
      end
  end.

(** [create_asana_conversation]; [inr error] is the exception of
    [create_new_conversation]. *)
Definition create_asana_conversation `{Converters}
    (initial_message : str) (task_name task_gid asana_access_token : option str)
    (asana_workspace_gid agent_user_gid : option str) : M (str + str) :=
  let* next := gets upcoming in
  match next with
  | [] => ret (inr (lit "no conversation could be created"))
  | Fails error :: rest =>
      modify (set_upcoming rest) ;;
      ret (inr error)
  | Creates conversation_id session :: rest =>
      modify (set_upcoming rest) ;;
      modify (fun w =>
        set_created (created w ++ [(conversation_id, initial_message)]) w) ;;
      modify (fun w =>
        match session with
        | Some s => set_sessions (<[conversation_id := s]> (sessions w)) w
        | None => w
        end) ;;
      (if truthy_opt task_gid && truthy_opt asana_access_token then
         subscribe_to_conversation_events
           conversation_id (or_empty task_gid) (or_empty asana_access_token)
           asana_workspace_gid agent_user_gid
       else ret tt) ;;
      ret (inl conversation_id)
  end.

(** ['\n'.join(parts)] *)
Fixpoint join_lines (parts : list str) : str :=
  match parts with
  | [] => []
  | [p] => p
  | p :: rest => p ++ [newline] ++ join_lines rest
  end.

(** [', '.join(names)] *)
Fixpoint join_commas (names : list str) : str :=
  match names with
  | [] => []
  | [p] => p
  | p :: rest => p ++ lit ", " ++ join_commas rest
  end.

(** The description block both message builders start from. *)
Definition description_parts `{UnicodeData} `{Converters} (task : AsanaTask)
  : list str :=
  if truthy_opt (html_notes task) then
    let description := asana_html_to_markdown (or_empty (html_notes task)) in
    if truthy description then [lit "## Description"; description; []]
    else []
  else if truthy_opt (notes task) then
    [lit "## Description"; or_empty (notes task); []]
  else [].

Definition build_task_message `{UnicodeData} `{Converters} (task : AsanaTask)
  : str :=
  let parts := [lit "# Asana Task: " ++ AsanaTask_name task; []] in
  let parts := parts ++ description_parts task in
  let parts := parts ++ [lit "## Task Details";
                         lit "- **Task ID**: " ++ AsanaTask_gid task] in
  let parts :=
    if truthy_opt (permalink_url task)
    then parts ++ [lit "- **Link**: " ++ or_empty (permalink_url task)]
    else parts in
  let parts :=
    if truthy_opt (due_on task)
    then parts ++ [lit "- **Due Date**: " ++ or_empty (due_on task)]
    else parts in
  let project_names :=
    filter (fun n => truthy n = true) (map (fun p => or_empty (name p)) (projects task)) in
  let parts :=
    match project_names with
    | [] => parts
    | _ => parts ++ [lit "- **Projects**: " ++ join_commas project_names]
    end in
  let parts := parts ++ [[]; lit "---"; [];
                         lit "Please analyze this task and work on completing it."] in
  join_lines parts.

(** The lines of one previous comment; the time stamp is
    [strftime('%Y-%m-%d %H:%M')], the first sixteen characters of the
    rendering kept for a [datetime]. *)
Definition previous_comment_parts `{UnicodeData} `{Converters} (comment : Story)
  : list str :=
  let author :=
    match created_by comment with
    | Some u => fmt_opt (name u)
    | None => lit "Unknown"
    end in
  let profile_link :=
    match created_by comment with
    | Some u => if truthy (gid u) then lit "https://app.asana.com/0/" ++ gid u else []
    | None => []
    end in
  let comment_text :=
    if truthy_opt (html_text comment)
    then asana_html_to_markdown (or_empty (html_text comment))
    else or_empty (story_text comment) in
  let timestamp :=
    match story_created_at comment with
    | Some t => lit " (" ++ take 16 t ++ lit ")"
    | None => []
    end in
  let head :=
    if truthy profile_link
    then lit "**" ++ author ++ lit "**" ++ timestamp ++ lit " (" ++ profile_link ++ lit "):"
    else lit "**" ++ author ++ lit "**" ++ timestamp ++ lit ":" in
  [head; comment_text; []].

Definition build_task_message_with_question `{UnicodeData} `{Converters}
    (task : AsanaTask) (question : str) (previous_comments : list Story) : str :=
  let parts := description_parts task in
  let parts :=
    match previous_comments with
    | [] => parts
    | _ => parts ++ [lit "## Previous Comments"; []]
                 ++ concat (map previous_comment_parts previous_comments)
    end in
  let parts := parts ++ [lit "---"; []; lit "## Question"; []; question] in
  join_lines parts.

(** *** The two reconciler entry points *)

(** The technologist and the cross mark that open the two comments. *)
Definition follow_mark : str := [0x1F9D1; 0x1F3FD; 0x200D; 0x1F4BB].
Definition cross_mark : str := [0x274C].

Definition process_task_assignment `{UnicodeData} `{Converters} (task_gid : str)
  : M (option str) :=
  let* asana_settings := gets settings in
  match asana_settings with
  | None =>
      logger Error "Cannot process task: Asana settings not configured" ;;
      ret None
  | Some asana_settings =>
      let* fetched := get_task task_gid in
      match fetched with
      | None => logger Error "Failed to fetch task" ;; ret None
      | Some task =>
          let assignee_gid := gid <$> assignee task in
          if truthy_opt (agent_user_gid asana_settings)
             && negb (bool_decide (assignee_gid = agent_user_gid asana_settings))
          then ret None
          else
            let* liked := like task_gid in
            (if liked then ret tt else logger Warning "Failed to like task") ;;
            let initial_message := build_task_message task in
            let* existing_conversation_id := get_conversation_for_task task_gid in
            if truthy_opt existing_conversation_id
            then ret existing_conversation_id
            else
              let* made :=
                create_asana_conversation
                  initial_message (Some (AsanaTask_name task)) (Some task_gid)
                  (Some (access_token asana_settings))
                  (workspace_gid asana_settings)
                  (agent_user_gid asana_settings) in
              match made with
              | inr e =>
                  logger Error "Failed to create conversation for task" ;;
                  add_comment task_gid
                    (Some (cross_mark ++ lit " Failed to start OpenHands: " ++ e))
                    None false ;;
                  ret None
              | inl conversation_id =>
                  set_conversation_for_task task_gid conversation_id ;;
                  let* conversation_url := get_conversation_url conversation_id in
                  let* posted :=
                    add_comment task_gid
                      (Some (follow_mark ++ lit " Follow progress here:"
                             ++ [newline] ++ conversation_url))
                      None true in
                  (if posted then ret tt
                   else logger Warning "Failed to post pinned comment to task") ;;
                  ret (Some conversation_id)
              end
      end
  end.

Definition process_story_mention `{UnicodeData} `{Converters}
    (story_gid : str) (parent_gid : option str) : M (option str) :=
  let* asana_settings := gets settings in
  match asana_settings with
  | None =>
      logger Error "Cannot process story: Asana settings not configured" ;;
      ret None
  | Some asana_settings =>
      if negb (truthy_opt (agent_user_gid asana_settings)) then
        logger Warning "Agent user GID not configured, cannot check for @mentions" ;;
        ret None
      else
        let agent := or_empty (agent_user_gid asana_settings) in
        let* fetched := get_story story_gid in
        match fetched with
        | None => logger Error "Failed to fetch story" ;; ret None
        | Some story =>
            if negb (bool_decide (resource_subtype story = Some (lit "comment_added")))
            then ret None
            else
              let agent_mentioned :=
                truthy_opt (html_text story)
                && contains agent (or_empty (html_text story)) in
              if negb agent_mentioned then ret None
              else
                let comment_text :=
                  if truthy_opt (html_text story)
                  then asana_html_to_markdown (or_empty (html_text story))
                  else or_empty (story_text story) in
                if negb (truthy (strip comment_text)) then ret None
                else
                  let task_gid :=
                    if negb (truthy_opt parent_gid)
                    then match target story with
                         | Some t => Some (gid t)
                         | None => parent_gid
                         end
                    else parent_gid in
                  if negb (truthy_opt task_gid) then
                    logger Warning "Could not determine parent task for story" ;;
                    ret None
                  else
                    let task_gid := or_empty task_gid in
                    let* liked := like story_gid in
                    (if liked then ret tt
                     else logger Warning "Failed to like story") ;;
                    let cleaned_comment :=
                      clean_asana_comment comment_text
                                          (agent_user_gid asana_settings) in
                    let* existing_conversation_id :=
                      get_conversation_for_task task_gid in
                    let* sent :=
                      match existing_conversation_id with
                      | Some existing =>
                          if truthy existing then
                            let* success :=
                              send_message_to_conversation
                                existing cleaned_comment (Some task_gid)
                                (Some (access_token asana_settings))
                                (workspace_gid asana_settings)
                                (agent_user_gid asana_settings) in
                            if success then ret (Some existing)
                            else
                              logger Warning "Could not send to existing conversation, will create new one" ;;
                              ret None
                          else ret None
                      | None => ret None
                      end in
                    match sent with
                    | Some existing => ret (Some existing)
                    | None =>
                        let* task := get_task task_gid in
                        let* all_stories :=
                          match task with
                          | Some _ => get_task_stories task_gid
                          | None => ret None
                          end in
                        let* context :=
                          match task, all_stories with
                          | Some task, Some all_stories =>
                              let previous_comments :=
                                filter (fun s =>
                                  resource_subtype s = Some (lit "comment_added")
                                  ∧ Story_gid s ≠ story_gid) all_stories in
                              ret (build_task_message_with_question
                                     task cleaned_comment previous_comments,
                                   AsanaTask_name task)
                          | _, _ =>
                              logger Warning "Failed to fetch task for context" ;;
                              ret (cleaned_comment,
                                   lit "Comment follow-up (story " ++ story_gid
                                   ++ lit ")")
                          end in
                        let '(initial_message, task_name) := context in
                        let* made :=
                          create_asana_conversation
                            initial_message (Some task_name) (Some task_gid)
                            (Some (access_token asana_settings))
                            (workspace_gid asana_settings)
                            (agent_user_gid asana_settings) in
                        match made with
                        | inr _ =>
                            logger Error "Failed to create conversation for story" ;;
                            ret None
                        | inl conversation_id =>
                            set_conversation_for_task task_gid conversation_id ;;
                            ret (Some conversation_id)
                        end
                    end
        end
  end.

(** The entry points as the dispatcher of [asana_webhooks.py] calls them;
    nothing in them raises past their own handlers. *)
Instance asana_reconcilers `{UnicodeData} `{Converters} : Reconcilers World :=
  {| run_task_assignment := fun task_gid w =>
       let '(r, w') := process_task_assignment task_gid w in (Returned r, w');
     run_story_mention := fun story_gid parent_gid w =>
       let '(r, w') := process_story_mention story_gid parent_gid w in
       (Returned r, w') |}.

(** ** Deliveries used to exercise the dispatcher *)

(** [str(n)] for a natural number. *)
Fixpoint digits_from (fuel : nat) (n : N) (acc : str) : str :=
  match fuel with
  | O => acc
  | S f =>
      let acc' := (48 + n mod 10) :: acc in
      if n / 10 =? 0 then acc' else digits_from f (n / 10) acc'
  end.

Definition decimal (n : N) : str := digits_from 40 n [].

Definition sample_time : datetime := lit "2024-01-01 00:00:00+00:00".

(** A [story]/[added] event for the comment with gid [str(i)]. *)
Definition story_added (i : nat) : WebhookEvent :=
  {| user := None; created_at := Some sample_time; action := lit "added";
     resource := {| gid := decimal (N.of_nat i);
                    resource_type := Some (lit "story"); name := None |};
     parent := None; change := None |}.

Definition story_deliveries (n : nat) : list WebhookEvent :=
  map story_added (seq 0 n).

(** A [task]/[changed] event on the assignee field. *)
Definition task_changed : WebhookEvent :=
  {| user := None; created_at := Some sample_time; action := lit "changed";
     resource := {| gid := lit "1200000000000001";
                    resource_type := Some (lit "task"); name := None |};
     parent := None; change := Some (lit "assignee") |}.

Definition fresh_hooks {W : Type} (w : W) : hooks W :=
  {| webhook_secrets := ∅; _processed_events := ∅; invocations := [];
     hook_log := []; world := w |}.

(** A [set.pop()] whose table order puts the key [k] first. *)
Definition pop_preferring (k : str) (s : gset str) : option str :=
  if bool_decide (k ∈ s) then Some k else head (elements s).

#[refine] Instance evicts_first (k : str) : SetPop :=
  {| set_pop := pop_preferring k |}.
Proof.
  - intros s x. unfold pop_preferring. case_bool_decide as Hk.
    + intros [= <-]. exact Hk.
    + intros Hx. apply elem_of_elements. apply head_Some_elem_of. exact Hx.
  - intros s Hne. unfold pop_preferring. case_bool_decide; [eauto|].
    destruct (elements s) as [|y l] eqn:He; [|eauto].
    apply elements_empty_inv in He. apply leibniz_equiv in He. contradiction.
Defined.

(** A body of the source's shape with ['] standing for the double quote. *)
Definition with_quotes (s : string) : bytes :=
  map (fun c => if c =? 39 then 34 else c) (lit s).

Definition sample_body : bytes :=
  with_quotes "{'events':[{'action':'changed','resource':{'gid':'1200000000000001','resource_type':'task'},'created_at':'2024-01-01T00:00:00.000Z','change':{'field':'assignee'}}]}".

(** A decoder that knows the sample body and rejects every other one, and
    a settings store without a webhook secret. *)
Instance sample_endpoint : Endpoint unit :=
  {| parse_payload := fun b =>
       if bool_decide (b = sample_body) then Some [task_changed] else None;
     settings_webhook_secret := fun _ => None |}.

Definition unsigned_request : Request :=
  {| body := sample_body; x_hook_secret := None; x_hook_signature := None |}.

(** ** A workspace used to exercise the reconciler *)

(** A stand-in for the two converters: every text is one paragraph for
    mistune, and markdownify only drops the tags. *)
Fixpoint drop_tags (inside : bool) (s : str) : str :=
  match s with
  | [] => []
  | c :: s' =>
      if c =? 60 then drop_tags true s'
      else if c =? 62 then drop_tags false s'
      else if inside then drop_tags inside s'
      else c :: drop_tags inside s'
  end.

Definition plain_converters : Converters :=
  {| _asana_markdown := paragraph; md := drop_tags false |}.

Definition agent_gid : str := lit "1201234567890123".
Definition sample_task_gid : str := lit "1200000000000001".
Definition mention_gid : str := lit "1205550000000001".
Definition remark_gid : str := lit "1205550000000002".
Definition sample_conversation : str := lit "c0ffee".

Definition sample_settings : AsanaSettings :=
  {| access_token := lit "0/secret"; workspace_gid := None;
     project_gid := None; agent_user_gid := Some agent_gid |}.

Definition agent_resource : AsanaResource :=
  {| gid := agent_gid; resource_type := Some (lit "user");
     name := Some (lit "OpenHands") |}.

Definition task_resource : AsanaResource :=
  {| gid := sample_task_gid; resource_type := Some (lit "task"); name := None |}.

Definition sample_task : AsanaTask :=
  {| AsanaTask_gid := sample_task_gid; AsanaTask_name := lit "Fix the build";
     notes := Some (lit "The nightly build fails."); html_notes := None;
     due_on := None; assignee := Some agent_resource; projects := [];
     permalink_url := None |}.

(** A comment that mentions the agent, and one that does not. *)
Definition mention_story : Story :=
  {| Story_gid := mention_gid;
     story_text := Some (lit "@OpenHands please check the failing build");
     html_text := Some (with_quotes "<body><a data-asana-gid='1201234567890123'>@OpenHands</a> please check the failing build</body>");
     resource_subtype := Some (lit "comment_added");
     story_created_at := Some sample_time; created_by := None;
     is_pinned := false; target := Some task_resource |}.

Definition remark_story : Story :=
  {| Story_gid := remark_gid;
     story_text := Some (lit "I will look into 1201234567890123 tomorrow");
     html_text := Some (lit "<body>I will look into it tomorrow</body>");
     resource_subtype := Some (lit "comment_added");
     story_created_at := Some sample_time; created_by := None;
     is_pinned := false; target := Some task_resource |}.

Definition quiet_session : Session :=
  {| event_stream := Some []; callbacks := ∅; in_flight := [] |}.

(** A session whose agent finishes while the subscription sleeps. *)
Definition racing_session : Session :=
  {| event_stream := Some [MessageAction (lit "Fix the build") (Some USER)];
     callbacks := ∅;
     in_flight := [AgentStateChangedObservation (lit "running");
                   MessageAction (lit "The build is green again.") (Some AGENT);
                   AgentStateChangedObservation (lit "finished")] |}.

(** A session whose agent had finished before the subscription began. *)
Definition finished_session : Session :=
  {| event_stream := Some [MessageAction (lit "Fix the build") (Some USER);
                           AgentStateChangedObservation (lit "running");
                           MessageAction (lit "The build is green again.") (Some AGENT);
                           AgentStateChangedObservation (lit "finished")];
     callbacks := ∅; in_flight := [] |}.

(** The workspace: the API serves the two comments and, when [with_task],
    the task; no mapping file yet; the next conversation to be created is
    [sample_conversation] with the session [next]. *)
Definition workspace (with_task : bool) (next : Session) : World :=
  {| settings := Some sample_settings;
     base_url := lit "http://localhost:3000";
     asana_tasks := if with_task then {[sample_task_gid := sample_task]} else ∅;
     asana_stories := {[mention_gid := mention_story; remark_gid := remark_story]};
     asana_task_stories := ∅;
     likes_accepted := true; comments_accepted := true;
     likes := []; comments := [];
     mapping_file := None; store_writable := true;
     sessions := ∅;
     upcoming := [Creates sample_conversation (Some next)];
     created := []; listeners := []; _active_listeners := ∅;
     metrics_text := []; clock := 0; log := [] |}.

(** The workspace once the task is mapped to a live conversation. *)
Definition mapped_workspace : World :=
  set_sessions {[sample_conversation := quiet_session]}
    (set_mapping_file (Some {[sample_task_gid := sample_conversation]})
       (workspace true quiet_session)).

(** The workspace with a session, before any listener is attached. *)
Definition unsubscribed (session : Session) : World :=
  set_sessions {[sample_conversation := session]} (workspace true session).




(** The workspace when the conversation manager refuses to create a
    conversation. *)
Definition refusing_workspace : World :=
  set_upcoming [Fails (lit "no runtime")] (workspace false quiet_session).

(** ** Notions used to state the properties *)

(** The part of the world that neither a listener nor a subscription
    writes: everything but the sessions, the listener objects and table,
    the comments and the log. *)
Definition outside_reporting (w : World) :=
  (settings w, base_url w, asana_tasks w, asana_stories w,
   asana_task_stories w, likes_accepted w, comments_accepted w, likes w,
   mapping_file w, store_writable w, upcoming w, created w, metrics_text w,
   clock w).

(** [w'] differs from [w] by reporting alone, and its log extends the log
    of [w]. *)
Definition reporting_only (w w' : World) : Prop :=
  outside_reporting w' = outside_reporting w ∧ log w `prefix_of` log w'.

(** An action that only reports, whatever state it starts from. *)
Definition reports {A : Type} (m : M A) : Prop :=
  ∀ w, reporting_only w (snd (m w)).

(** The parent task of a mention: the parent of the event when it has
    one, else the target of the story. *)
Definition parent_task (parent_gid : option str) (story : Story) : option str :=
  if negb (truthy_opt parent_gid)
  then match target story with
       | Some t => Some (gid t)
       | None => parent_gid
       end
  else parent_gid.

Definition context_warning : log_record :=
  {| lvl := Warning; msg := lit "Failed to fetch task for context" |}.

Definition creation_error : log_record :=
  {| lvl := Error; msg := lit "Failed to create conversation for story" |}.

(** The number a string of decimal digits stands for. *)
Definition digits_value (s : str) : N :=
  fold_left (fun a d => 10 * a + (d - 48)) s 0.

(** A string is trimmed when neither its first nor its last character is
    white space. *)
Definition trimmed (s : str) : Prop :=
  match s with [] => True | c :: _ => is_space c = false end
  ∧ match rev s with [] => True | c :: _ => is_space c = false end.

(** The number of newlines a string starts with. *)
Fixpoint leading_newlines (s : str) : nat :=
  match s with
  | c :: s' => if c =? newline then S (leading_newlines s') else O
  | [] => O
  end.

(** Three newlines in a row. *)
Definition three : str := [newline; newline; newline].

(** An ASCII decimal digit. *)
Definition is_digit (c : N) : bool := (48 <=? c) && (c <=? 57).

(** The attribute of the anchor, as a text and as a pattern. *)
Definition gid_attribute (g : str) : str :=
  lit "data-asana-gid=" ++ [quote] ++ g ++ [quote].

(** A mention of a user as Asana writes it in a comment: an anchor that
    carries the user's gid among its attributes, around the at sign and
    the user's name. *)
Definition mention_tag (user_gid attrs_before attrs_after name : str) : str :=
  lit "<a" ++ attrs_before ++ gid_attribute user_gid ++ attrs_after
  ++ lit ">@" ++ name ++ lit "</a>".

(** A stretch of text and the mention that follows it. *)
Record mentioning := {
  stretch : str;
  attrs_before : str;
  attrs_after : str;
  shown_name : str
}.

(** A text with mentions of one user: stretches of text, each followed by
    a mention, and a last stretch; and the stretches alone. *)
Fixpoint with_mentions (user_gid : str) (pieces : list mentioning)
    (last : str) : str :=
  match pieces with
  | [] => last
  | p :: rest =>
      stretch p
      ++ mention_tag user_gid (attrs_before p) (attrs_after p) (shown_name p)
      ++ with_mentions user_gid rest last
  end.

Fixpoint without_mentions (pieces : list mentioning) (last : str) : str :=
  match pieces with
  | [] => last
  | p :: rest => stretch p ++ without_mentions rest last
  end.

(** No anchor tag opens in the text. *)
Definition opens_no_anchor (s : str) : Prop :=
  contains (lit "<a") s = false ∧ contains (lit "<A") s = false.

(** Every tag that opens in the text closes in it: each [<] has a [>]
    somewhere after it. *)
Fixpoint tags_closed (s : str) : bool :=
  match s with
  | [] => true
  | c :: s' =>
      (if c =? 60 then bool_decide (62 ∈ s') else true) && tags_closed s'
  end.

(** A stretch that holds no mention of the user: no anchor tag opens in
    it, or its tags close in it and none of them carries the gid. *)
Definition clear_of_mentions (user_gid s : str) : Prop :=
  opens_no_anchor s ∨ (tags_closed s = true ∧ contains user_gid s = false).

(** The stretch holds no mention, the attributes of the mention stay
    inside its tag and the name inside the anchor. *)
Definition well_formed (user_gid : str) (p : mentioning) : Prop :=
  clear_of_mentions user_gid (stretch p)
  ∧ (62 ∉ attrs_before p) ∧ (62 ∉ attrs_after p) ∧ (60 ∉ shown_name p).

(** A mention with further attributes after a stretch that holds other
    tags, a link among them, and a second, bare mention of the same user. *)
Definition asana_mention : mentioning :=
  {| stretch :=
       with_quotes "<body><strong>Done.</strong> See <a href='https://ci.example.com/42'>the log</a>. ";
     attrs_before := lit " ";
     attrs_after :=
       with_quotes " data-asana-accessible='true' data-asana-type='user' href='https://app.asana.com/0/profile/1201234567890123'";
     shown_name := lit "OpenHands" |}.

Definition second_mention : mentioning :=
  {| stretch := lit " has fixed the build, thanks ";
     attrs_before := lit " "; attrs_after := [];
     shown_name := lit "OpenHands" |}.

(** ** Further functions of the module

    [webhook_status] of [asana_webhooks.py] and [report_error] of
    [asana_reporter.py]. *)

(** [webhook_status]: the two counts it reports. *)
Record status := {
  configured_secrets : nat;
  processed_events_count : nat
}.

Definition webhook_status {W : Type} (st : hooks W) : status :=
  {| configured_secrets := size (webhook_secrets st);
     processed_events_count := size (_processed_events st) |}.

(** One request from its arrival to the end of its background tasks. *)
Definition serve {W : Type} `{SetPop} `{Reconcilers W} `{Endpoint W}
    (st : hooks W) (request : Request) : hooks W :=
  let h := asana_webhook request st in
  run_background (background_tasks h) (after h).

(** [s.replace(c, by)] for a single character [c]. *)
Definition replace_char (c : N) (by_ : str) (s : str) : str :=
  flat_map (fun x => if x =? c then by_ else [x]) s.

(** [html.escape(s, quote=False)]: the ampersand first, then the two
    angle brackets. *)
Definition html_escape (s : str) : str :=
  let s := replace_char 38 (lit "&amp;") s in
  let s := replace_char 60 (lit "&lt;") s in
  replace_char 62 (lit "&gt;") s.

(** The link that closes an error or a progress comment. *)
Definition view_conversation (conversation_url : option str) : list str :=
  if truthy_opt conversation_url
  then [[newline; newline];
        lit "<a href=" ++ [quote] ++ or_empty conversation_url ++ [quote]
        ++ lit ">View conversation " ++ [0x2192] ++ lit "</a>"]
  else [].

(** [report_error] *)
Definition report_error (task_gid error_message : str)
    (conversation_url : option str) : M bool :=
  let parts :=
    [lit "<strong>" ++ cross_mark ++ lit " OpenHands Error</strong>";
     [newline; newline];
     lit "<code>" ++ html_escape error_message ++ lit "</code>"] in
  let parts := parts ++ view_conversation conversation_url in
  let wrapped_html := lit "<body>" ++ concat parts ++ lit "</body>" in
  let* posted := add_comment task_gid None (Some wrapped_html) false in
  if posted then ret true
  else logger Error "Failed to post error to task" ;; ret false.

(** ** Further notions used to state the properties *)

(** A lower-case hexadecimal digit. *)
Definition is_hex_lower (c : N) : bool :=
  ((48 <=? c) && (c <=? 57)) || ((97 <=? c) && (c <=? 102)).

(** The key under which [process_webhook_event] records an event, for the
    events it hands to a reconciler: a changed task, an added story. *)
Definition event_key (event : WebhookEvent) : option str :=
  if bool_decide (resource_type (resource event) = Some (lit "task")) then
    if bool_decide (action event = lit "changed")
    then Some (task_dedup_key event) else None
  else if bool_decide (resource_type (resource event) = Some (lit "story")) then
    if bool_decide (action event = lit "added")
    then Some (story_dedup_key event) else None
  else None.

Definition event_keys (events : list WebhookEvent) : gset str :=
  list_to_set (omap event_key events).

(** The reconciler call such an event leads to. *)
Definition event_call (event : WebhookEvent) : call :=
  if bool_decide (resource_type (resource event) = Some (lit "task"))
  then TaskAssignment (gid (resource event))
  else StoryMention (gid (resource event)) (gid <$> parent event).

(** The terminal state an event announces, if it announces one. *)
Definition terminal_value (e : Event) : option AgentState :=
  match e with
  | AgentStateChangedObservation value =>
      match AgentState_of value with
      | Some a => if is_terminal a then Some a else None
      | None => None
      end
  | _ => None
  end.

(** The comment a listener posts for a terminal state. *)
Definition result_comment `{Converters} (l : AsanaConversationListener)
    (events : list Event) (a : AgentState) (metrics : str) : Comment :=
  {| on_task := listener_task_gid l; text := None;
     comment_html :=
       Some (lit "<body>"
             ++ format_agent_result events a (conversation_url l) metrics
                                    (listener_agent_user_gid l)
             ++ lit "</body>");
     pinned := false |}.

(** An event that [format_agent_result] passes over when it looks for the
    last agent message. *)
Definition passed_over (e : Event) : Prop :=
  match e with
  | MessageAction _ (Some AGENT) => False
  | Observation content => truthy content = false
  | _ => True
  end.

(** What the callback leaves alone when it does not report. *)
Definition untouched (w w' : World) : Prop :=
  comments w' = comments w ∧ listeners w' = listeners w
  ∧ sessions w' = sessions w ∧ comments_accepted w' = comments_accepted w
  ∧ metrics_text w' = metrics_text w.

(** The part of the world that nothing in the module writes: the
    settings, the base URL, what the API serves and accepts, whether the
    store can be written, the metrics text and the clock. *)
Definition environment (w : World) :=
  (settings w, base_url w, asana_tasks w, asana_stories w,
   asana_task_stories w, likes_accepted w, comments_accepted w,
   store_writable w, metrics_text w, clock w).

(** The pinned comment that links a task to its conversation, and the
    comment that reports a failed start. *)
Definition link_comment (task_gid conversation_url : str) : Comment :=
  {| on_task := task_gid;
     text := Some (follow_mark ++ lit " Follow progress here:"
                   ++ [newline] ++ conversation_url);
     comment_html := None; pinned := true |}.

Definition failure_comment (task_gid error : str) : Comment :=
  {| on_task := task_gid;
     text := Some (cross_mark ++ lit " Failed to start OpenHands: " ++ error);
     comment_html := None; pinned := false |}.

(** The text of a story as [process_story_mention] reads it. *)
Definition comment_text_of `{UnicodeData} `{Converters} (story : Story) : str :=
  if truthy_opt (html_text story)
  then asana_html_to_markdown (or_empty (html_text story))
  else or_empty (story_text story).

(** The class of characters an item of a pattern asks for. *)
Definition item_class (it : item) : N → bool :=
  match it with One p | Opt p | Star p => p end.

(** An absolute link, with or without the [s] of its scheme. *)
Definition absolute_url (secure : bool) (rest : str) : str :=
  lit "http" ++ (if secure then [115] else []) ++ lit "://" ++ rest.

(** A link as markdown writes it: the label in brackets, the target in
    parentheses. *)
Definition markdown_link (label target : str) : str :=
  [91] ++ label ++ [93; 40] ++ target ++ [41].

(** The comment [report_error] posts, given the escaped message. *)
Definition error_comment (task_gid escaped : str)
    (conversation_url : option str) : Comment :=
  {| on_task := task_gid; text := None;
     comment_html :=
       Some (lit "<body>"
             ++ concat
                  ([lit "<strong>" ++ cross_mark ++ lit " OpenHands Error</strong>";
                    [newline; newline];
                    lit "<code>" ++ escaped ++ lit "</code>"]
                   ++ view_conversation conversation_url)
             ++ lit "</body>");
     pinned := false |}.

(** The listener [subscribe_to_conversation_events] creates. *)
Definition new_listener (conversation_id task_gid asana_access_token : str)
    (asana_workspace_gid agent_user_gid : option str) (w : World)
  : AsanaConversationListener :=
  {| listener_task_gid := task_gid;
     conversation_id := conversation_id;
     conversation_url := base_url w ++ lit "/conversations/" ++ conversation_id;
     asana_access_token := asana_access_token;
     asana_workspace_gid := asana_workspace_gid;
     listener_agent_user_gid := agent_user_gid;
     _reported := false; _start_time := clock w |}.

(** The events the catch-up scan looks at, newest first. *)
Definition recent_events (stream : list Event) : list Event :=
  take 50 (rev stream).

(** The session of a conversation once a listener is subscribed to it
    and its events in flight are dispatched. *)
Definition subscribed_session (conversation_id : str) (self : nat)
    (session : Session) : Session :=
  let callback_id := lit "asana_reporter_" ++ conversation_id in
  without_in_flight
    (match callbacks session !! callback_id with
     | Some _ => session
     | None => with_callback callback_id self session
     end).

(** The world once a listener is created, stored and subscribed, before
    the catch-up scan. *)
Definition subscribed (conversation_id task_gid asana_access_token : str)
    (asana_workspace_gid agent_user_gid : option str) (session : Session)
    (w : World) : World :=
  let self := length (listeners w) in
  set_sessions
    (<[conversation_id := subscribed_session conversation_id self session]>
       (sessions w))
    (set_active_listeners
       (<[conversation_id := self]> (_active_listeners w))
       (set_listeners
          (listeners w
           ++ [new_listener conversation_id task_gid asana_access_token
                            asana_workspace_gid agent_user_gid w]) w)).

(** ** Further samples *)

(** Reconcilers that do nothing, a handshake, and a delivery with a
    signature of two characters, to exercise the endpoint. *)
Definition idle_reconcilers : Reconcilers unit :=
  {| run_task_assignment := fun _ w => (Returned None, w);
     run_story_mention := fun _ _ w => (Returned None, w) |}.

Definition handshake_request : Request :=
  {| body := []; x_hook_secret := Some (lit "Jefe"); x_hook_signature := None |}.

Definition signed_request (signature : str) : Request :=
  {| body := sample_body; x_hook_secret := None;
     x_hook_signature := Some signature |}.

(** A settings store that holds the webhook secret [secret]. *)
Definition stored_endpoint (secret : str) : Endpoint unit :=
  {| parse_payload := fun b =>
       if bool_decide (b = sample_body) then Some [task_changed] else None;
     settings_webhook_secret := fun _ => Some secret |}.

(** The workspace once a listener is subscribed to the conversation. *)
Definition armed_workspace : World :=
  snd (@subscribe_to_conversation_events plain_converters
         sample_conversation sample_task_gid (lit "0/secret") None
         (Some agent_gid) (unsubscribed quiet_session)).

(** A task nobody is assigned to, and a story that records an activity
    of the task and names the agent as a comment would. *)
Definition unassigned_task : AsanaTask :=
  {| AsanaTask_gid := sample_task_gid; AsanaTask_name := lit "Fix the build";
     notes := None; html_notes := None; due_on := None; assignee := None;
     projects := []; permalink_url := None |}.

Definition activity_story : Story :=
  {| Story_gid := remark_gid;
     story_text := Some (lit "assigned to OpenHands");
     html_text := Some (with_quotes "<body>assigned to <a data-asana-gid='1201234567890123'>OpenHands</a></body>");
     resource_subtype := Some (lit "assigned");
     story_created_at := Some sample_time; created_by := None;
     is_pinned := false; target := Some task_resource |}.

(** The workspace with that task and that story. *)
Definition activity_workspace : World :=
  {| settings := Some sample_settings;
     base_url := lit "http://localhost:3000";
     asana_tasks := {[sample_task_gid := unassigned_task]};
     asana_stories := {[remark_gid := activity_story]};
     asana_task_stories := ∅;
     likes_accepted := true; comments_accepted := true;
     likes := []; comments := [];
     mapping_file := None; store_writable := true;
     sessions := ∅;
     upcoming := [Creates sample_conversation (Some quiet_session)];
     created := []; listeners := []; _active_listeners := ∅;
     metrics_text := []; clock := 0; log := [] |}.

(** The workspace with a listener, once the task is mapped to the
    conversation. *)
Definition followed_workspace : World :=
  set_mapping_file (Some {[sample_task_gid := sample_conversation]})
                   armed_workspace.

(** * Properties *)

(** ** The processed-events set *)

Section DispatchFacts.
Context {W : Type} `{SetPop} `{Reconcilers W}.

Lemma pop_times_size (n : nat) (s : gset str) :
  (n ≤ size s)%nat →
  ∃ s', pop_times n s = Some s' ∧ size s' = (size s - n)%nat ∧ s' ⊆ s.
Proof.
  revert s. induction n as [|n IH]; intros s Hn; simpl.
  - exists s. split; [done|]. split; [lia | done].
  - destruct (set_pop s) as [x|] eqn:Hx.
    + pose proof (set_pop_elem _ _ Hx) as Hin.
      assert (Hsz : size (s ∖ {[x]}) = (size s - 1)%nat).
      { rewrite size_difference by set_solver. by rewrite size_singleton. }
      destruct (IH (s ∖ {[x]})) as (s' & Hs' & Hsize & Hsub); [lia|].
      exists s'. split; [done|]. split; [lia | set_solver].
    + assert (s ≠ ∅) as Hne.
      { intros ->. rewrite size_empty in Hn. lia. }
      destruct (set_pop_nonempty s Hne) as [y Hy]. congruence.
Qed.

Lemma invoke_events (c : call) (st : hooks W) :
  _processed_events (invoke c st) = _processed_events st.
Proof.
  unfold invoke.
  destruct (match c with
            | TaskAssignment t => run_task_assignment t (world st)
            | StoryMention s p => run_story_mention s p (world st)
            end) as [[o|] w]; reflexivity.
Qed.

Lemma invoke_invocations (c : call) (st : hooks W) :
  invocations (invoke c st) = invocations st ++ [c].
Proof.
  unfold invoke.
  destruct (match c with
            | TaskAssignment t => run_task_assignment t (world st)
            | StoryMention s p => run_story_mention s p (world st)
            end) as [[o|] w]; reflexivity.
Qed.

(** The cleanup of the task path never raises and leaves at most the
    maximum behind. *)
Lemma process_task_event_bounded (event : WebhookEvent) (st : hooks W) :
  (size (_processed_events st) ≤ _MAX_PROCESSED_EVENTS)%nat ∨
  resource_type (resource event) = Some (lit "task") ∧
  action event = lit "changed" ∧
  task_dedup_key event ∉ _processed_events st →
  ∃ st', process_task_event event st = Completed st' ∧
         (size (_processed_events st') ≤ _MAX_PROCESSED_EVENTS)%nat.
Proof.
  intros Hcase. unfold process_task_event.
  destruct (bool_decide (resource_type (resource event) = Some (lit "task")))
    eqn:Hty; simpl.
  2:{ exists st. split; [done|]. apply bool_decide_eq_false in Hty.
      destruct Hcase as [?|(? & _)]; [done | congruence]. }
  unfold str_eqb.
  destruct (bool_decide (action event = lit "changed")) eqn:Hact; simpl.
  2:{ exists st. split; [done|]. apply bool_decide_eq_false in Hact.
      destruct Hcase as [?|(_ & ? & _)]; [done | congruence]. }
  destruct (bool_decide (task_dedup_key event ∈ _processed_events st))
    eqn:Hin.
  { exists st. split; [done|]. apply bool_decide_eq_true in Hin.
    destruct Hcase as [?|(_ & _ & ?)]; [done | contradiction]. }
  set (added := _processed_events st ∪ {[task_dedup_key event]}).
  destruct (_MAX_PROCESSED_EVENTS <? size added)%nat eqn:Hbig.
  - apply Nat.ltb_lt in Hbig.
    destruct (pop_times_size (size added - keep_after_cleanup) added)
      as (s' & -> & Hsz & _); [lia|].
    eexists. split; [reflexivity|]. rewrite invoke_events. simpl.
    unfold _MAX_PROCESSED_EVENTS, keep_after_cleanup in *. lia.
  - apply Nat.ltb_ge in Hbig.
    eexists. split; [reflexivity|]. rewrite invoke_events. simpl. done.
Qed.

(** Below capacity nothing is evicted and a repeated task event is
    dropped: the reconciler runs once. *)
Lemma task_event_once_below_capacity (event : WebhookEvent) (st : hooks W) :
  resource_type (resource event) = Some (lit "task") →
  action event = lit "changed" →
  task_dedup_key event ∉ _processed_events st →
  (size (_processed_events st) < _MAX_PROCESSED_EVENTS)%nat →
  ∃ st1, process_task_event event st = Completed st1 ∧
         invocations st1 =
           invocations st ++ [TaskAssignment (gid (resource event))] ∧
         process_task_event event st1 = Completed st1.
Proof.
  intros Hty Hact Hnew Hsz. unfold process_task_event at 1.
  rewrite (bool_decide_eq_true_2 _ Hty). unfold str_eqb.
  rewrite (bool_decide_eq_true_2 _ Hact). simpl.
  rewrite (bool_decide_eq_false_2 _ Hnew).
  assert (Hadd : size (_processed_events st ∪ {[task_dedup_key event]})
                 = S (size (_processed_events st))).
  { rewrite size_union by set_solver. rewrite size_singleton. lia. }
  rewrite Hadd.
  destruct (Nat.ltb_spec _MAX_PROCESSED_EVENTS (S (size (_processed_events st))));
    [lia|].
  eexists. split; [reflexivity|]. split.
  - by rewrite invoke_invocations.
  - unfold process_task_event.
    rewrite (bool_decide_eq_true_2 _ Hty). unfold str_eqb.
    rewrite (bool_decide_eq_true_2 _ Hact). simpl.
    rewrite bool_decide_eq_true_2; [done|].
    rewrite invoke_events. simpl. set_solver.
Qed.

(** The story path never evicts: a repeated story event is always
    dropped. *)
Lemma story_event_once (event : WebhookEvent) (st : hooks W) :
  action event = lit "added" →
  story_dedup_key event ∉ _processed_events st →
  ∃ st1, process_story_event event st = Completed st1 ∧
         length (invocations st1) = S (length (invocations st)) ∧
         _processed_events st1 =
           _processed_events st ∪ {[story_dedup_key event]} ∧
         process_story_event event st1 = Completed st1.
Proof.
  intros Hact Hnew. unfold process_story_event at 1. unfold str_eqb.
  rewrite (bool_decide_eq_true_2 _ Hact). simpl.
  rewrite (bool_decide_eq_false_2 _ Hnew).
  eexists. split; [reflexivity|]. split; [|split].
  - rewrite invoke_invocations, length_app. simpl. lia.
  - by rewrite invoke_events.
  - unfold process_story_event. unfold str_eqb.
    rewrite (bool_decide_eq_true_2 _ Hact). simpl.
    rewrite bool_decide_eq_true_2; [done|].
    rewrite invoke_events. simpl. set_solver.
Qed.
End DispatchFacts.

Section StoryDeliveries.
Context {W : Type} `{SetPop} `{Reconcilers W}.

Lemma story_added_kind (i : nat) :
  resource_type (resource (story_added i)) = Some (lit "story") ∧
  action (story_added i) = lit "added".
Proof. split; reflexivity. Qed.

(** Story deliveries with fresh, pairwise distinct keys are all recorded
    and all handed to the reconciler; nothing is ever removed. *)
Lemma run_story_deliveries (l : list nat) (st : hooks W) :
  NoDup (map (fun i => story_dedup_key (story_added i)) l) →
  (∀ i, i ∈ l → story_dedup_key (story_added i) ∉ _processed_events st) →
  let st' := run_background (map story_added l) st in
  _processed_events st' =
    _processed_events st
    ∪ list_to_set (map (fun i => story_dedup_key (story_added i)) l) ∧
  length (invocations st') = (length (invocations st) + length l)%nat.
Proof.
  revert st. induction l as [|i l IH]; intros st Hnd Hfresh; simpl.
  - split; [set_solver | lia].
  - apply NoDup_cons in Hnd as [Hi Hnd].
    destruct (story_event_once (story_added i) st) as (st1 & Hrun & Hlen & Hset & _).
    { reflexivity. } { apply Hfresh. set_solver. }
    assert (Hstep : process_webhook_event_safe (story_added i) st = st1).
    { unfold process_webhook_event_safe, process_webhook_event.
      rewrite bool_decide_eq_false_2 by discriminate.
      rewrite bool_decide_eq_true_2 by reflexivity. by rewrite Hrun. }
    unfold run_background in *. rewrite Hstep.
    destruct (IH st1 Hnd) as [IHset IHlen].
    { intros j Hj. rewrite Hset. intros [Hin|Hin]%elem_of_union.
      - revert Hin. apply Hfresh. apply elem_of_cons. by right.
      - apply elem_of_singleton in Hin. apply Hi. rewrite <- Hin.
        apply (list_elem_of_fmap_2 (fun i => story_dedup_key (story_added i))).
        exact Hj. }
    split.
    + rewrite IHset, Hset. cbn [map list_to_set]. by rewrite (assoc_L (∪)).
    + rewrite IHlen, Hlen. lia.
Qed.
End StoryDeliveries.

Lemma digits_value_snoc (s : str) (d : N) :
  digits_value (s ++ [d]) = 10 * digits_value s + (d - 48).
Proof. unfold digits_value. by rewrite fold_left_app. Qed.

Lemma digits_from_value (fuel : nat) (n : N) (acc : str) :
  n < 10 ^ N.of_nat fuel →
  ∃ ds, digits_from fuel n acc = ds ++ acc ∧ digits_value ds = n.
Proof.
  revert n acc. induction fuel as [|fuel IH]; intros n acc Hn.
  - exists []. split; [done|]. unfold digits_value. cbn [fold_left].
    change (10 ^ N.of_nat 0) with 1 in Hn. lia.
  - cbn [digits_from].
    assert (Hmod : n mod 10 < 10) by (apply N.mod_lt; lia).
    pose proof (N.div_mod n 10 ltac:(lia)) as Hdiv.
    destruct (N.eqb_spec (n / 10) 0) as [Hz|Hz].
    + exists [48 + n mod 10]. split; [done|].
      unfold digits_value. cbn [fold_left]. rewrite Hz in Hdiv. lia.
    + destruct (IH (n / 10) ((48 + n mod 10) :: acc)) as (ds & Hds & Hval).
      { apply N.Div0.div_lt_upper_bound.
        rewrite Nat2N.inj_succ, N.pow_succ_r' in Hn. lia. }
      exists (ds ++ [48 + n mod 10]). split.
      * rewrite Hds. by rewrite <- app_assoc.
      * rewrite digits_value_snoc, Hval. clear - Hdiv.
        set (q := n / 10) in *. set (r := n mod 10) in *. lia.
Qed.

Lemma decimal_inj (n m : N) :
  n < 10 ^ 40 → m < 10 ^ 40 → decimal n = decimal m → n = m.
Proof.
  intros Hn Hm Heq. unfold decimal in Heq.
  destruct (digits_from_value 40 n [] Hn) as (dn & Hdn & Hvn).
  destruct (digits_from_value 40 m [] Hm) as (dm & Hdm & Hvm).
  rewrite Hdn, Hdm, !app_nil_r in Heq. congruence.
Qed.

Lemma story_key_inj (i j : nat) :
  (i ≤ 1001)%nat → (j ≤ 1001)%nat →
  story_dedup_key (story_added i) = story_dedup_key (story_added j) → i = j.
Proof.
  intros Hi Hj Heq. unfold story_dedup_key, story_added in Heq.
  cbn [gid resource created_at fmt_opt] in Heq.
  apply app_inv_head in Heq. apply app_inv_tail in Heq.
  apply decimal_inj in Heq; [lia | |].
  - apply N.lt_le_trans with (N.of_nat 1002); [lia|]. by vm_compute.
  - apply N.lt_le_trans with (N.of_nat 1002); [lia|]. by vm_compute.
Qed.

Lemma story_keys_distinct :
  NoDup (map (fun i => story_dedup_key (story_added i)) (seq 0 1001)).
Proof.
  apply NoDup_fmap_2_strong; [|apply NoDup_seq].
  intros i j Hi Hj Heq.
  apply elem_of_seq in Hi. apply elem_of_seq in Hj.
  apply story_key_inj; [lia | lia | exact Heq].
Qed.

Lemma task_key_not_story :
  task_dedup_key task_changed
    ∉ map (fun i => story_dedup_key (story_added i)) (seq 0 1001).
Proof.
  intros Hin. apply list_elem_of_fmap in Hin as (i & Heq & _).
  discriminate Heq.
Qed.

Lemma story_deliveries_size {W : Type} `{SetPop} `{Reconcilers W}
    (n : nat) (w : W) :
  (n ≤ 1001)%nat →
  _processed_events (run_background (story_deliveries n) (fresh_hooks w)) =
    list_to_set (map (fun i => story_dedup_key (story_added i)) (seq 0 n)) ∧
  size (_processed_events (run_background (story_deliveries n) (fresh_hooks w)))
    = n.
Proof.
  intros Hn.
  assert (Hnd : NoDup (map (fun i => story_dedup_key (story_added i)) (seq 0 n))).
  { pose proof story_keys_distinct as Hall.
    replace 1001%nat with (n + (1001 - n))%nat in Hall by lia.
    rewrite seq_app, map_app in Hall. by apply NoDup_app in Hall as [? _]. }
  destruct (run_story_deliveries (seq 0 n) (fresh_hooks w) Hnd) as [Hset _].
  { intros i _. simpl. set_solver. }
  unfold story_deliveries. rewrite Hset. simpl. rewrite (left_id_L ∅ (∪)).
  split; [done|].
  rewrite size_list_to_set by done. by rewrite length_map, length_seq.
Qed.

(** C2, at the input where the code departs from it: 1001 distinct
    story/added deliveries, starting from the empty set, leave 1001 keys
    in the processed-events set, one more than [_MAX_PROCESSED_EVENTS];
    [process_story_event] adds its key and never evicts. *)
Theorem story_events_exceed_max :
  ∀ (W : Type) (P : SetPop) (R : Reconcilers W) (w : W),
    size (_processed_events
            (run_background (story_deliveries 1001) (fresh_hooks w))) = 1001%nat
    ∧ (_MAX_PROCESSED_EVENTS <
       size (_processed_events
               (run_background (story_deliveries 1001) (fresh_hooks w))))%nat.
Proof.
  intros W P R w.
  destruct (story_deliveries_size 1001 w) as [_ Hsz]; [lia|].
  rewrite Hsz. unfold _MAX_PROCESSED_EVENTS. split; [done | lia].
Qed.

Lemma pop_times_S `{SetPop} (n : nat) (s : gset str) :
  pop_times (S n) s =
    match set_pop s with
    | Some x => pop_times n (s ∖ {[x]})
    | None => None
    end.
Proof. reflexivity. Qed.

(** At capacity the cleanup may take the key it has just recorded: with a
    [set.pop()] that reaches the new key first, a repeated task event is
    handed to the reconciler twice. *)
Lemma task_event_twice_at_capacity {W : Type} `{Reconcilers W}
    (event : WebhookEvent) (st : hooks W) :
  let P := evicts_first (task_dedup_key event) in
  resource_type (resource event) = Some (lit "task") →
  action event = lit "changed" →
  task_dedup_key event ∉ _processed_events st →
  size (_processed_events st) = 1000%nat →
  invocations (run_background [event; event] st) =
    (invocations st
    ++ [TaskAssignment (gid (resource event));
        TaskAssignment (gid (resource event))]).
Proof.
  intros P Hty Hact Hk Hsz.
  set (k := task_dedup_key event) in *.
  assert (Hadd : size (_processed_events st ∪ {[k]}) = 1001%nat).
  { rewrite size_union by set_solver. rewrite size_singleton. lia. }
  assert (Hfirst : ∃ st1, process_task_event event st = Completed st1 ∧
            invocations st1 =
              (invocations st ++ [TaskAssignment (gid (resource event))]) ∧
            (k ∉ _processed_events st1) ∧
            size (_processed_events st1) = 900%nat).
  { unfold process_task_event.
    rewrite (bool_decide_eq_true_2 _ Hty). unfold str_eqb.
    rewrite (bool_decide_eq_true_2 _ Hact). cbn [negb]. fold k.
    rewrite (bool_decide_eq_false_2 _ Hk). rewrite Hadd.
    replace (_MAX_PROCESSED_EVENTS <? 1001)%nat with true
      by (symmetry; apply Nat.ltb_lt; unfold _MAX_PROCESSED_EVENTS; lia).
    replace (1001 - keep_after_cleanup)%nat with (S 100)
      by (unfold keep_after_cleanup; lia).
    assert (Hpop : set_pop (_processed_events st ∪ {[k]}) = Some k).
    { cbn [set_pop P evicts_first]. unfold pop_preferring.
      rewrite bool_decide_eq_true_2 by set_solver. reflexivity. }
    rewrite pop_times_S, Hpop.
    destruct (@pop_times_size P 100 ((_processed_events st ∪ {[k]}) ∖ {[k]}))
      as (s' & Hs' & Hsz' & Hsub).
    { rewrite size_difference by set_solver. rewrite Hadd, size_singleton. lia. }
    rewrite Hs'. clear Hs'. eexists. split; [reflexivity|]. split; [|split].
    - by rewrite invoke_invocations.
    - rewrite invoke_events. cbn [with_events _processed_events]. set_solver.
    - rewrite invoke_events. cbn [with_events _processed_events]. rewrite Hsz'.
      rewrite size_difference by set_solver. rewrite Hadd, size_singleton. lia. }
  destruct Hfirst as (st1 & Hrun1 & Hinv1 & Hk1 & Hsz1).
  destruct (@task_event_once_below_capacity W P _ event st1 Hty Hact Hk1)
    as (st2 & Hrun2 & Hinv2 & _).
  { rewrite Hsz1. unfold _MAX_PROCESSED_EVENTS. lia. }
  unfold run_background. cbn [fold_left].
  unfold process_webhook_event_safe, process_webhook_event.
  rewrite (bool_decide_eq_true_2 _ Hty).
  rewrite Hrun1, Hrun2, Hinv2, Hinv1. rewrite <- app_assoc. reflexivity.
Qed.

(** C1, at the input where the code departs from it: 1000 story
    deliveries have filled the set, then the same task/changed event is
    delivered twice, and the [set.pop()] of the cleanup takes the key just
    added among the 101 it removes.  The second delivery finds no key and
    [process_task_assignment] runs a second time. *)
Theorem evicted_task_event_is_processed_twice :
  ∀ (W : Type) (R : Reconcilers W) (w : W),
    let P := evicts_first (task_dedup_key task_changed) in
    let st := run_background (story_deliveries 1000) (fresh_hooks w) in
    size (_processed_events st) = 1000%nat ∧
    invocations (run_background [task_changed; task_changed] st) =
      invocations st
      ++ [TaskAssignment (gid (resource task_changed));
          TaskAssignment (gid (resource task_changed))].
Proof.
  intros W R w P st.
  destruct (@story_deliveries_size W P R 1000 w) as [Hset Hsz]; [lia|].
  fold st in Hset, Hsz. split; [exact Hsz|].
  assert (Hk : task_dedup_key task_changed ∉ _processed_events st).
  { rewrite Hset. rewrite elem_of_list_to_set. intros Hin.
    apply task_key_not_story.
    change 1001%nat with (1000 + 1)%nat. rewrite seq_app, map_app.
    apply elem_of_app. by left. }
  clearbody st.
  exact (task_event_twice_at_capacity task_changed st eq_refl eq_refl Hk Hsz).
Qed.

(** ** Signature verification *)

Lemma fold_lor_xor_zero (l : list (N * N)) (r : N) :
  fold_left (fun r p => N.lor r (N.lxor (fst p) (snd p))) l r = 0 ↔
  r = 0 ∧ Forall (fun p => fst p = snd p) l.
Proof.
  revert r. induction l as [|[x y] l IH]; intros r; simpl.
  - split; [intros ->; split; [done | constructor] | by intros [-> _]].
  - rewrite IH. rewrite N.lor_eq_0_iff, N.lxor_eq_0_iff. split.
    + intros [[-> ->] Hl]. split; [done|]. by constructor.
    + intros [-> Hl]. inversion Hl; subst. simpl in *. by subst.
Qed.

Lemma combine_diag_eq (a b : str) :
  length a = length b →
  Forall (fun p : N * N => fst p = snd p) (combine a b) → a = b.
Proof.
  revert b. induction a as [|x a IH]; intros [|y b] Hlen Hall;
    simpl in *; try done.
  inversion Hall; subst. simpl in *. subst. f_equal. apply IH; [lia | done].
Qed.

Lemma combine_diag_refl (a : str) :
  Forall (fun p : N * N => fst p = snd p) (combine a a).
Proof. induction a; simpl; constructor; done. Qed.

(** The constant-time loop decides equality of the two strings. *)
Lemma tscmp_eq (a b : str) : tscmp a b = true ↔ a = b.
Proof.
  unfold tscmp. rewrite N.eqb_eq.
  destruct (Nat.eqb_spec (length a) (length b)) as [Hlen|Hlen].
  - rewrite fold_lor_xor_zero. split.
    + intros [_ Hall]. by apply combine_diag_eq.
    + intros ->. split; [done | apply combine_diag_refl].
  - rewrite fold_lor_xor_zero. split.
    + intros [Hone _]. discriminate.
    + intros ->. contradiction.
Qed.

Lemma hex_digit_ascii (d : N) : d < 16 → (hex_digit d <? 128) = true.
Proof.
  intros Hd. apply N.ltb_lt. unfold hex_digit.
  destruct (N.ltb_spec d 10); lia.
Qed.

Lemma hexdigest_ascii (bs : bytes) : is_ascii (hexdigest bs) = true.
Proof.
  unfold is_ascii, hexdigest. induction bs as [|b bs IH]; simpl; [done|].
  rewrite !hex_digit_ascii; [done | |].
  - apply N.mod_lt. lia.
  - apply N.mod_lt. lia.
Qed.

Lemma compare_digest_hex (bs : bytes) (signature : str) :
  (compare_digest (hexdigest bs) signature = Ok true ↔ signature = hexdigest bs)
  ∧ (is_ascii signature = true → signature ≠ hexdigest bs →
     compare_digest (hexdigest bs) signature = Ok false).
Proof.
  unfold compare_digest. rewrite hexdigest_ascii. simpl. split.
  - split.
    + destruct (is_ascii signature); [|discriminate].
      intros [= Heq]. symmetry. by apply tscmp_eq.
    + intros ->. rewrite hexdigest_ascii. f_equal. by apply tscmp_eq.
  - intros -> Hne. f_equal. apply not_true_is_false.
    rewrite tscmp_eq. congruence.
Qed.

(** C6: under a secret that encodes to the key [key],
    [verify_webhook_signature] returns true exactly when the signature is
    the hexadecimal HMAC-SHA256 digest of the body under that key; a
    signature made with the secret is therefore accepted, and it is
    refused (the call returns false) under every other secret and for
    every other body whose digest differs from it. *)
Theorem verify_webhook_signature_hmac
    (body : bytes) (signature secret : str) (key : bytes) :
  utf8_encode secret = Some key →
  (verify_webhook_signature body signature secret = Ok true ↔
   signature = hexdigest (hmac_sha256 key body))
  ∧ verify_webhook_signature body (hexdigest (hmac_sha256 key body)) secret
    = Ok true
  ∧ (∀ (secret' : str) (key' : bytes),
       utf8_encode secret' = Some key' →
       hexdigest (hmac_sha256 key' body) ≠ hexdigest (hmac_sha256 key body) →
       verify_webhook_signature body (hexdigest (hmac_sha256 key body)) secret'
       = Ok false)
  ∧ (∀ body' : bytes,
       hexdigest (hmac_sha256 key body') ≠ hexdigest (hmac_sha256 key body) →
       verify_webhook_signature body' (hexdigest (hmac_sha256 key body)) secret
       = Ok false).
Proof.
  intros Hkey. split; [|split; [|split]].
  - unfold verify_webhook_signature. rewrite Hkey.
    apply compare_digest_hex.
  - unfold verify_webhook_signature. rewrite Hkey.
    by apply compare_digest_hex.
  - intros secret' key' Hkey' Hne. unfold verify_webhook_signature.
    rewrite Hkey'. apply compare_digest_hex; [apply hexdigest_ascii | congruence].
  - intros body' Hne. unfold verify_webhook_signature. rewrite Hkey.
    apply compare_digest_hex; [apply hexdigest_ascii | congruence].
Qed.

Lemma verify_webhook_signature_hmac_witness :
  verify_webhook_signature (lit "what do ya want for nothing?")
    (lit "5bdcc146bf60754e6a042426089575c75a003f089d2739839dec58b964ec3843")
    (lit "Jefe") = Ok true.
Proof.
  destruct (verify_webhook_signature_hmac
              (lit "what do ya want for nothing?")
              (lit "5bdcc146bf60754e6a042426089575c75a003f089d2739839dec58b964ec3843")
              (lit "Jefe") (lit "Jefe") eq_refl) as [Hiff _].
  apply Hiff. vm_compute. reflexivity.
Defined.

(** ** The webhook endpoint *)

Section EndpointFacts.
Context {W : Type} `{Endpoint W}.

(** What a delivery whose signature has been verified is answered. *)
Lemma verified_delivery (request : Request) (st : hooks W)
    (signature secret : str) :
  truthy_opt (x_hook_secret request) = false →
  x_hook_signature request = Some signature →
  truthy signature = true →
  webhook_secrets st !! default_key = Some secret →
  truthy secret = true →
  verify_webhook_signature (body request) signature secret = Ok true →
  asana_webhook request st = parse_and_queue request st 1.
Proof.
  intros Hnosecret Hsig Hsigt Hstored Hsecret Hverify.
  unfold asana_webhook. rewrite Hnosecret, Hsig, Hstored.
  cbn [truthy_opt or_empty]. rewrite Hsigt, Hsecret.
  cbn [negb]. rewrite Hverify, Hsecret. reflexivity.
Qed.

(** C3: a request with neither [X-Hook-Secret] nor [X-Hook-Signature] is
    never answered 401 and [verify_webhook_signature] is not called; its
    body is parsed, a body that does not parse is answered 400, an empty
    events list is a heartbeat, and otherwise every event is queued, in
    order.  The response and the queued events are those of a delivery of
    the same body whose signature was verified. *)
Theorem unsigned_request_is_processed (request : Request) (st : hooks W) :
  x_hook_secret request = None →
  x_hook_signature request = None →
  signature_checks (asana_webhook request st) = 0%nat
  ∧ (∀ detail, resp (asana_webhook request st) ≠ HTTPException 401 detail)
  ∧ match parse_payload (body request) with
    | None =>
        resp (asana_webhook request st) = HTTPException 400 (lit "Invalid payload")
        ∧ background_tasks (asana_webhook request st) = []
    | Some [] =>
        resp (asana_webhook request st) = HeartbeatReceived
        ∧ background_tasks (asana_webhook request st) = []
    | Some events =>
        resp (asana_webhook request st) = Queued (length events)
        ∧ background_tasks (asana_webhook request st) = events
    end
  ∧ (∀ (signed : Request) (signature secret : str),
       body signed = body request →
       x_hook_secret signed = None →
       x_hook_signature signed = Some signature →
       truthy signature = true →
       webhook_secrets st !! default_key = Some secret →
       truthy secret = true →
       verify_webhook_signature (body signed) signature secret = Ok true →
       resp (asana_webhook signed st) = resp (asana_webhook request st)
       ∧ background_tasks (asana_webhook signed st)
         = background_tasks (asana_webhook request st)
       ∧ after (asana_webhook signed st) = after (asana_webhook request st)).
Proof.
  intros Hs Hg.
  assert (Hrun : asana_webhook request st = parse_and_queue request st 0).
  { unfold asana_webhook. by rewrite Hs, Hg. }
  rewrite Hrun. unfold parse_and_queue.
  split; [|split; [|split]].
  - by destruct (parse_payload (body request)) as [[|e l]|].
  - intros detail. by destruct (parse_payload (body request)) as [[|e l]|].
  - by destruct (parse_payload (body request)) as [[|e l]|].
  - intros signed signature secret Hbody Hs' Hg' Hsig Hstored Hsecret Hverify.
    rewrite (verified_delivery signed st signature secret); try done.
    + unfold parse_and_queue. rewrite Hbody.
      by destruct (parse_payload (body request)) as [[|e l]|].
    + by rewrite Hs'.
Qed.
End EndpointFacts.

Lemma unsigned_request_is_processed_witness :
  resp (asana_webhook unsigned_request (fresh_hooks tt)) = Queued 1
  ∧ background_tasks (asana_webhook unsigned_request (fresh_hooks tt))
    = [task_changed].
Proof.
  destruct (unsigned_request_is_processed unsigned_request (fresh_hooks tt)
              eq_refl eq_refl) as (_ & _ & Hqueued & _).
  exact Hqueued.
Defined.

(** ** What reporting leaves alone *)

Lemma reporting_only_refl (w : World) : reporting_only w w.
Proof. split; reflexivity. Qed.

Lemma reporting_only_same (w w' : World) :
  outside_reporting w' = outside_reporting w → log w' = log w →
  reporting_only w w'.
Proof. intros Ho Hl. split; [exact Ho | by rewrite Hl]. Qed.

Lemma reporting_only_trans (w1 w2 w3 : World) :
  reporting_only w1 w2 → reporting_only w2 w3 → reporting_only w1 w3.
Proof.
  intros [H1 L1] [H2 L2]. split; [congruence | by etrans].
Qed.

Lemma reports_ret {A : Type} (a : A) : reports (ret a).
Proof. intros w. apply reporting_only_refl. Qed.

Lemma reports_bind {A B : Type} (m : M A) (k : A → M B) :
  reports m → (∀ a, reports (k a)) → reports (bind m k).
Proof.
  intros Hm Hk w. unfold bind. destruct (m w) as [a w1] eqn:Hmw.
  apply reporting_only_trans with w1.
  - specialize (Hm w). by rewrite Hmw in Hm.
  - apply Hk.
Qed.

Lemma reports_gets {A : Type} (f : World → A) : reports (gets f).
Proof. intros w. apply reporting_only_refl. Qed.

Lemma reports_logger (l : level) (m : string) : reports (logger l m).
Proof.
  intros w. split; [reflexivity|]. simpl. by apply prefix_app_r.
Qed.

Lemma reports_update_listener (self : nat)
    (f : AsanaConversationListener → AsanaConversationListener) :
  reports (update_listener self f).
Proof.
  intros w. unfold update_listener, modify. simpl.
  destruct (listeners w !! self); by apply reporting_only_same.
Qed.

Lemma reports_update_session (c : str) (f : Session → Session) :
  reports (update_session c f).
Proof.
  intros w. unfold update_session, modify. simpl.
  destruct (sessions w !! c); by apply reporting_only_same.
Qed.

Lemma reports_add_comment (t : str) (x h : option str) (p : bool) :
  reports (add_comment t x h p).
Proof.
  intros w. unfold add_comment, bind, gets, modify, ret.
  destruct (comments_accepted w); by apply reporting_only_same.
Qed.

Lemma reports_for_each {A : Type} (l : list A) (body : A → M unit) :
  (∀ x, reports (body x)) → reports (for_each l body).
Proof.
  intros Hbody. induction l as [|x l IH]; simpl.
  - apply reports_ret.
  - apply reports_bind; [apply Hbody | intros _; apply IH].
Qed.

Section ReportingFrame.
Context `{Converters}.

Lemma reports_report_result (t : str) (events : list Event) (a : AgentState)
    (url : str) (g : option str) :
  reports (report_result t events a url g).
Proof.
  unfold report_result. apply reports_bind; [apply reports_gets|].
  intros metrics. apply reports_bind; [apply reports_add_comment|].
  intros [|]; [apply reports_ret|].
  apply reports_bind; [apply reports_logger | intros _; apply reports_ret].
Qed.

Lemma reports_report_to_asana (self : nat) (a : AgentState) :
  reports (_report_to_asana self a).
Proof.
  unfold _report_to_asana. apply reports_bind; [apply reports_gets|].
  intros [l|]; [|apply reports_ret].
  apply reports_bind; [apply reports_gets|].
  intros [session|]; [|apply reports_logger].
  destruct (event_stream session); [|apply reports_logger].
  apply reports_bind; [apply reports_report_result | intros _; apply reports_ret].
Qed.

Lemma reports_callback (self : nat) (e : Event) : reports (callback self e).
Proof.
  unfold callback. destruct e; try apply reports_ret.
  destruct (AgentState_of agent_state); [|apply reports_logger].
  destruct (negb (is_terminal a)); [apply reports_ret|].
  apply reports_bind; [apply reports_gets|].
  intros [l|]; [|apply reports_ret].
  destruct (_reported l); [apply reports_ret|].
  apply reports_bind; [apply reports_update_listener|].
  intros _. apply reports_report_to_asana.
Qed.

Lemma reports_dispatch (c : str) (e : Event) : reports (dispatch c e).
Proof.
  unfold dispatch. apply reports_bind; [apply reports_update_session|].
  intros _. apply reports_bind; [apply reports_gets|].
  intros [s|]; [|apply reports_ret].
  apply reports_for_each. intros self. apply reports_callback.
Qed.

Lemma reports_settle (c : str) : reports (settle c).
Proof.
  unfold settle. apply reports_bind; [apply reports_gets|].
  intros [s|]; [|apply reports_ret].
  apply reports_bind; [apply reports_update_session|].
  intros _. apply reports_for_each. intros e. apply reports_dispatch.
Qed.

Lemma reports_catch_up (self : nat) (events : list Event) :
  reports (catch_up self events).
Proof.
  induction events as [|e events IH]; simpl; [apply reports_ret|].
  destruct e; try apply IH.
  destruct (AgentState_of agent_state).
  - destruct (is_terminal a); [|apply IH].
    apply reports_bind; [apply reports_update_listener|].
    intros _. apply reports_report_to_asana.
  - apply reports_bind; [apply reports_logger | intros _; apply IH].
Qed.

Lemma reports_subscribe (c t k : str) (ws g : option str) :
  reports (subscribe_to_conversation_events c t k ws g).
Proof.
  unfold subscribe_to_conversation_events.
  apply reports_bind; [apply reports_gets|].
  intros [session|]; [|apply reports_logger].
  destruct (event_stream session); [|apply reports_logger].
  apply reports_bind.
  { unfold get_conversation_url. apply reports_bind; [apply reports_gets|].
    intros ?. apply reports_ret. }
  intros url. apply reports_bind; [apply reports_gets|].
  intros now. apply reports_bind; [apply reports_gets|].
  intros self. apply reports_bind.
  { intros w. by apply reporting_only_same. }
  intros _. apply reports_bind.
  { intros w. by apply reporting_only_same. }
  intros _. apply reports_bind.
  { destruct (callbacks session !! _); [apply reports_ret|].
    apply reports_update_session. }
  intros _. apply reports_bind; [apply reports_settle|].
  intros _. apply reports_bind; [apply reports_gets|].
  intros s. destruct (s ≫= event_stream); [apply reports_catch_up|].
  apply reports_logger.
Qed.
End ReportingFrame.

(** ** The reconciler *)

Section ReconcilerFacts.
Context `{UnicodeData} `{Converters}.

(** C4: a task that passes the assignee filter and is mapped to a
    conversation the conversation manager still knows is answered with
    that conversation id; no conversation is created, no comment is
    posted, and the mapping file, the sessions and the listeners are left
    as they were. *)
Theorem reassignment_is_idempotent
    (task_gid conversation : str) (w : World) (s : AsanaSettings)
    (task : AsanaTask) (mapping : gmap str str) (session : Session) :
  settings w = Some s →
  asana_tasks w !! task_gid = Some task →
  (truthy_opt (agent_user_gid s) = true →
   gid <$> assignee task = agent_user_gid s) →
  mapping_file w = Some mapping →
  mapping !! task_gid = Some conversation →
  truthy conversation = true →
  sessions w !! conversation = Some session →
  fst (process_task_assignment task_gid w) = Some conversation
  ∧ created (snd (process_task_assignment task_gid w)) = created w
  ∧ upcoming (snd (process_task_assignment task_gid w)) = upcoming w
  ∧ comments (snd (process_task_assignment task_gid w)) = comments w
  ∧ mapping_file (snd (process_task_assignment task_gid w)) = mapping_file w
  ∧ sessions (snd (process_task_assignment task_gid w)) = sessions w
  ∧ listeners (snd (process_task_assignment task_gid w)) = listeners w
  ∧ _active_listeners (snd (process_task_assignment task_gid w))
    = _active_listeners w.
Proof.
  intros Hs Htask Hfilter Hfile Hmap Hid Hsession.
  set (w1 := snd (like task_gid w)).
  set (w2 := if fst (like task_gid w) then w1
             else snd (logger Warning "Failed to like task" w1)).
  assert (Hframe : mapping_file w2 = mapping_file w ∧ sessions w2 = sessions w
                   ∧ created w2 = created w ∧ upcoming w2 = upcoming w
                   ∧ comments w2 = comments w ∧ listeners w2 = listeners w
                   ∧ _active_listeners w2 = _active_listeners w).
  { unfold w2, w1, like, bind, gets, modify, ret, logger.
    destruct (likes_accepted w); simpl; repeat split; reflexivity. }
  destruct Hframe as (Hf1 & Hf2 & Hf3 & Hf4 & Hf5 & Hf6 & Hf7).
  assert (Hrun : process_task_assignment task_gid w = (Some conversation, w2)).
  { unfold process_task_assignment, bind at 1, gets at 1. rewrite Hs.
    unfold bind at 1, get_task, gets at 1. rewrite Htask.
    assert (Hpass : truthy_opt (agent_user_gid s)
                    && negb (bool_decide (gid <$> assignee task = agent_user_gid s))
                    = false).
    { destruct (truthy_opt (agent_user_gid s)); [|done].
      rewrite bool_decide_eq_true_2 by auto. done. }
    rewrite Hpass. unfold bind at 1.
    destruct (like task_gid w) as [liked wl] eqn:Hlike.
    assert (Hw2 : (if liked then ret tt else logger Warning "Failed to like task") wl
                  = (tt, w2)).
    { unfold w2, w1. simpl. destruct liked; reflexivity. }
    unfold bind at 1. rewrite Hw2.
    unfold bind at 1, get_conversation_for_task, bind at 1,
      get_task_conversation_mapping, gets at 1.
    rewrite Hf1, Hfile, Hmap, Hid.
    unfold bind at 1, get_agent_session, gets at 1. rewrite Hf2, Hsession.
    unfold ret at 1. simpl. rewrite Hid. reflexivity. }
  rewrite Hrun. simpl. repeat split; assumption.
Qed.
End ReconcilerFacts.

Lemma bind_run {A B : Type} (m : M A) (k : A → M B) (w : World) :
  bind m k w = k (fst (m w)) (snd (m w)).
Proof. unfold bind. by destruct (m w). Qed.

Section MentionFacts.
Context `{UnicodeData} `{Converters}.

(** The acknowledgement touches the likes and the log alone. *)
Lemma like_frame (g : str) (m : string) (w : World) :
  let w' := snd (bind (like g)
                   (fun liked => if liked then ret tt else logger Warning m) w) in
  settings w' = settings w ∧ asana_tasks w' = asana_tasks w
  ∧ asana_task_stories w' = asana_task_stories w
  ∧ mapping_file w' = mapping_file w ∧ store_writable w' = store_writable w
  ∧ sessions w' = sessions w ∧ upcoming w' = upcoming w
  ∧ created w' = created w ∧ log w `prefix_of` log w'.
Proof.
  unfold like, bind, gets, modify, ret, logger.
  destruct (likes_accepted w); simpl; repeat split; try reflexivity.
  by apply prefix_app_r.
Qed.

(** Without a live mapped conversation the lookup returns [None]; it may
    drop a stale entry from the mapping file. *)
Lemma get_conversation_for_task_none (task_gid : str) (w : World) :
  (∀ m c, mapping_file w = Some m → m !! task_gid = Some c →
          truthy c = true → sessions w !! c = None) →
  let r := get_conversation_for_task task_gid w in
  fst r = None
  ∧ settings (snd r) = settings w ∧ asana_tasks (snd r) = asana_tasks w
  ∧ asana_task_stories (snd r) = asana_task_stories w
  ∧ store_writable (snd r) = store_writable w
  ∧ upcoming (snd r) = upcoming w ∧ created (snd r) = created w
  ∧ log w `prefix_of` log (snd r).
Proof.
  intros Hgone.
  cbv [get_conversation_for_task bind get_task_conversation_mapping gets
       get_agent_session save_task_conversation_mapping modify ret logger].
  destruct (mapping_file w) as [m|] eqn:Hfile.
  - destruct (m !! task_gid) as [c|] eqn:Hc; [|by repeat split].
    destruct (truthy c) eqn:Ht; [|by repeat split].
    rewrite (Hgone m c eq_refl Hc Ht).
    destruct (store_writable w) eqn:Hsw; simpl; repeat split;
      try done; try (by apply prefix_app_r).
  - rewrite lookup_empty. by repeat split.
Qed.

(** A successful creation records the conversation with its initial
    message; the subscription that follows only reports. *)
Lemma create_asana_conversation_creates
    (message : str) (task_name task_gid token ws g : option str) (w : World)
    (c : str) (session : option Session) (rest : list creation) :
  upcoming w = Creates c session :: rest →
  let r := create_asana_conversation message task_name task_gid token ws g w in
  fst r = inl c
  ∧ created (snd r) = created w ++ [(c, message)]
  ∧ upcoming (snd r) = rest
  ∧ mapping_file (snd r) = mapping_file w
  ∧ store_writable (snd r) = store_writable w
  ∧ log w `prefix_of` log (snd r).
Proof.
  intros Hup. unfold create_asana_conversation.
  rewrite bind_run. cbv [gets fst snd]. rewrite Hup.
  rewrite !bind_run. cbn [modify fst snd].
  set (w1 := match session with
             | Some s0 => _
             | None => _
             end).
  assert (Hw1 : outside_reporting w1
                = outside_reporting
                    (set_created (created w ++ [(c, message)])
                                 (set_upcoming rest w))
                ∧ log w1 = log w).
  { unfold w1. destruct session; split; reflexivity. }
  destruct Hw1 as [Hout Hlog].
  set (sub := if truthy_opt task_gid && truthy_opt token
              then subscribe_to_conversation_events c (or_empty task_gid)
                     (or_empty token) ws g
              else ret tt).
  assert (Hsub : reports sub).
  { unfold sub. destruct (truthy_opt task_gid && truthy_opt token);
      [apply reports_subscribe | apply reports_ret]. }
  destruct (Hsub w1) as [Hout2 Hlog2].
  rewrite Hout in Hout2. rewrite Hlog in Hlog2.
  cbv [ret fst snd]. unfold outside_reporting in Hout2.
  injection Hout2 as ?. simpl in *. repeat split; try done.
Qed.

Lemma set_conversation_for_task_stores (task_gid c : str) (w : World) :
  let w' := snd (set_conversation_for_task task_gid c w) in
  created w' = created w
  ∧ log w `prefix_of` log w'
  ∧ (store_writable w = true →
     ∃ m, mapping_file w' = Some m ∧ m !! task_gid = Some c).
Proof.
  cbv [set_conversation_for_task bind get_task_conversation_mapping gets
       save_task_conversation_mapping modify logger].
  destruct (store_writable w) eqn:Hsw; simpl; repeat split; try done.
  - intros _. eexists. split; [reflexivity|]. apply lookup_insert_eq.
  - by apply prefix_app_r.
Qed.

Lemma contains_nonempty (p s : str) :
  truthy p = true → contains p s = true → truthy s = true.
Proof. destruct p, s; simpl; done. Qed.

End MentionFacts.

Section MentionOutcome.
Context `{UnicodeData} `{Converters}.

Lemma get_conversation_for_task_sessions (task_gid : str) (w : World) :
  sessions (snd (get_conversation_for_task task_gid w)) = sessions w
  ∧ likes (snd (get_conversation_for_task task_gid w)) = likes w.
Proof.
  cbv [get_conversation_for_task bind get_task_conversation_mapping gets
       get_agent_session save_task_conversation_mapping modify ret logger].
  destruct (mapping_file w) as [m|].
  - destruct (m !! task_gid) as [c|]; [|done].
    destruct (truthy c); [|done].
    destruct (sessions w !! c); [done|].
    by destruct (store_writable w).
  - rewrite lookup_empty. done.
Qed.

(** A creation that fails creates nothing and logs nothing itself. *)
Lemma create_asana_conversation_fails
    (message : str) (task_name task_gid token ws g : option str) (w : World) :
  match upcoming w with Creates _ _ :: _ => False | _ => True end →
  let r := create_asana_conversation message task_name task_gid token ws g w in
  (∃ e, fst r = inr e)
  ∧ created (snd r) = created w ∧ sessions (snd r) = sessions w
  ∧ mapping_file (snd r) = mapping_file w ∧ log (snd r) = log w.
Proof.
  intros Hup. unfold create_asana_conversation.
  rewrite bind_run. cbv [gets fst snd].
  destruct (upcoming w) as [|[c session|e] rest]; [|done|].
  - cbv [ret fst snd]. eauto 6.
  - rewrite bind_run. cbv [modify ret fst snd]. cbn. eauto 6.
Qed.

(** From the creation of the conversation to the end of
    [process_story_mention]. *)
Lemma mention_creation
    (message name task_gid token : str) (ws g : option str) (w : World) :
  let r :=
    bind (create_asana_conversation message (Some name) (Some task_gid)
            (Some token) ws g)
      (fun made =>
         match made with
         | inr _ =>
             bind (logger Error "Failed to create conversation for story")
                  (fun _ => ret None)
         | inl conversation_id =>
             bind (set_conversation_for_task task_gid conversation_id)
                  (fun _ => ret (Some conversation_id))
         end) w in
  log w `prefix_of` log (snd r)
  ∧ match upcoming w with
    | Creates c session :: rest =>
        fst r = Some c
        ∧ created (snd r) = created w ++ [(c, message)]
        ∧ (store_writable w = true →
           ∃ m, mapping_file (snd r) = Some m ∧ m !! task_gid = Some c)
    | _ =>
        fst r = None
        ∧ created (snd r) = created w
        ∧ sessions (snd r) = sessions w
        ∧ mapping_file (snd r) = mapping_file w
        ∧ creation_error ∈ log (snd r)
    end.
Proof.
  cbv zeta. rewrite bind_run.
  destruct (upcoming w) as [|[c session|e] rest] eqn:Hup.
  - destruct (create_asana_conversation_fails message (Some name) (Some task_gid)
                (Some token) ws g w) as ((e & He) & C1 & C2 & C3 & C4).
    { by rewrite Hup. }
    rewrite He. rewrite bind_run. cbn [logger modify ret fst snd log set_log
      created sessions mapping_file].
    rewrite C1, C2, C3, C4. split; [by apply prefix_app_r|].
    repeat split; try done.
    apply elem_of_app. right. by apply list_elem_of_singleton.
  - destruct (create_asana_conversation_creates message (Some name)
                (Some task_gid) (Some token) ws g w c session rest Hup)
      as (C0 & C1 & C2 & C3 & C4 & C5).
    rewrite C0. rewrite bind_run. cbn [ret fst snd].
    destruct (set_conversation_for_task_stores task_gid c
                (snd (create_asana_conversation message (Some name)
                        (Some task_gid) (Some token) ws g w)))
      as (S1 & S2 & S3).
    split; [by etrans|]. split; [done|]. split.
    + by rewrite S1, C1.
    + intros Hw. apply S3. by rewrite C4.
  - destruct (create_asana_conversation_fails message (Some name) (Some task_gid)
                (Some token) ws g w) as ((e' & He) & C1 & C2 & C3 & C4).
    { by rewrite Hup. }
    rewrite He. rewrite bind_run. cbn [logger modify ret fst snd log set_log
      created sessions mapping_file].
    rewrite C1, C2, C3, C4. split; [by apply prefix_app_r|].
    repeat split; try done.
    apply elem_of_app. right. by apply list_elem_of_singleton.
Qed.
End MentionOutcome.

Section MentionGate.
Context `{UnicodeData} `{Converters}.

(** A comment that passes the gate on a task without a live mapped
    conversation reaches the creation of a conversation: with the context
    of the task, or with the comment alone when a fetch fails. *)
Lemma mention_reaches_creation
    (story_gid : str) (parent_gid : option str) (w : World)
    (s : AsanaSettings) (story : Story) (html task_gid : str) :
  settings w = Some s →
  truthy_opt (agent_user_gid s) = true →
  asana_stories w !! story_gid = Some story →
  resource_subtype story = Some (lit "comment_added") →
  html_text story = Some html →
  contains (or_empty (agent_user_gid s)) html = true →
  truthy (strip (asana_html_to_markdown html)) = true →
  parent_task parent_gid story = Some task_gid →
  truthy task_gid = true →
  (∀ m c', mapping_file w = Some m → m !! task_gid = Some c' →
           truthy c' = true → sessions w !! c' = None) →
  ∃ (message name : str) (w3 : World),
    process_story_mention story_gid parent_gid w
    = bind (create_asana_conversation message (Some name) (Some task_gid)
              (Some (access_token s)) (workspace_gid s) (agent_user_gid s))
        (fun made =>
           match made with
           | inr _ =>
               bind (logger Error "Failed to create conversation for story")
                    (fun _ => ret None)
           | inl conversation_id =>
               bind (set_conversation_for_task task_gid conversation_id)
                    (fun _ => ret (Some conversation_id))
           end) w3
    ∧ upcoming w3 = upcoming w ∧ created w3 = created w
    ∧ sessions w3 = sessions w ∧ store_writable w3 = store_writable w
    ∧ (asana_tasks w !! task_gid = None
       ∨ asana_task_stories w !! task_gid = None →
       message = clean_asana_comment (asana_html_to_markdown html)
                                     (agent_user_gid s)
       ∧ context_warning ∈ log w3).
Proof.
  intros Hs Hagent Hstory Hsub Hhtml Hmention Htext Hparent Htask Hgone.
  assert (Hag : truthy (or_empty (agent_user_gid s)) = true).
  { destruct (agent_user_gid s); [exact Hagent | discriminate]. }
  pose proof (contains_nonempty _ _ Hag Hmention) as Hhtml_t.
  unfold process_story_mention.
  rewrite bind_run. cbv [gets fst snd]. rewrite Hs, Hagent. cbn [negb].
  rewrite bind_run. cbv [get_story gets fst snd]. rewrite Hstory.
  rewrite (bool_decide_eq_true_2 _ Hsub). cbn [negb].
  rewrite Hhtml. cbn [truthy_opt or_empty]. rewrite Hhtml_t, Hmention.
  cbn [andb negb]. rewrite Htext. cbn [negb].
  fold (parent_task parent_gid story). rewrite Hparent.
  cbn [truthy_opt or_empty]. rewrite Htask. cbn [negb].
  (* the acknowledgement *)
  rewrite bind_run. rewrite (bind_run _ _ (snd (like story_gid w))).
  pose proof (like_frame story_gid "Failed to like story" w) as Hlike.
  rewrite bind_run in Hlike. cbv zeta in Hlike.
  set (w1 := snd ((if fst (like story_gid w) then ret tt
                   else logger Warning "Failed to like story")
                    (snd (like story_gid w)))) in *.
  destruct Hlike as (L1 & L2 & L3 & L4 & L5 & L6 & L7 & L8 & L9).
  (* the lookup of an existing conversation *)
  rewrite bind_run.
  destruct (get_conversation_for_task_none task_gid w1)
    as (G0 & G1 & G2 & G3 & G4 & G5 & G6 & G7).
  { intros m c' Hm. rewrite L6. apply Hgone. by rewrite <- L4. }
  destruct (get_conversation_for_task_sessions task_gid w1) as [G8 _].
  set (w2 := snd (get_conversation_for_task task_gid w1)) in *.
  rewrite G0. rewrite bind_run. cbn [ret fst snd].
  (* the context *)
  rewrite bind_run. cbv [get_task gets fst snd].
  rewrite G2, L2.
  destruct (asana_tasks w !! task_gid) as [task|] eqn:Ht.
  - rewrite bind_run. cbv [get_task_stories gets fst snd]. rewrite G3, L3.
    destruct (asana_task_stories w !! task_gid) as [all_stories|] eqn:Hst.
    + rewrite bind_run. cbv [ret fst snd].
      eexists _, _, w2. split; [reflexivity|].
      split_and!; try congruence.
      intros [?|?]; discriminate.
    + rewrite bind_run. rewrite bind_run. cbv [logger modify ret fst snd].
      eexists _, _, _. split; [reflexivity|]. cbn.
      split_and!; try congruence. intros _. split; [done|].
      apply elem_of_app. right. by apply list_elem_of_singleton.
  - rewrite bind_run. cbv [ret fst snd].
    rewrite bind_run. rewrite bind_run. cbv [logger modify ret fst snd].
    eexists _, _, _. split; [reflexivity|]. cbn.
    split_and!; try congruence. intros _. split; [done|].
    apply elem_of_app. right. by apply list_elem_of_singleton.
Qed.
End MentionGate.

Section MentionClaims.
Context `{UnicodeData} `{Converters}.

(** C8 as the code has it: when the agent is mentioned in a non-empty
    comment on a task without a live mapped conversation, and the fetch of
    the task or of its stories fails, the failure is logged as a warning
    and processing goes on with the cleaned comment alone as the initial
    message.  When [create_new_conversation] gives a conversation, it is
    created with that message, its id is returned, and it is stored in
    the mapping file when the store accepts the write.  When the creation
    itself fails, the event is given up: an error is logged, [None] is
    returned, and no conversation and no session has been added.  Either
    way the entry point returns to the dispatcher; nothing is raised. *)
Theorem mention_without_context_still_creates
    (story_gid : str) (parent_gid : option str) (w : World)
    (s : AsanaSettings) (story : Story) (html task_gid : str) :
  settings w = Some s →
  truthy_opt (agent_user_gid s) = true →
  asana_stories w !! story_gid = Some story →
  resource_subtype story = Some (lit "comment_added") →
  html_text story = Some html →
  contains (or_empty (agent_user_gid s)) html = true →
  truthy (strip (asana_html_to_markdown html)) = true →
  parent_task parent_gid story = Some task_gid →
  truthy task_gid = true →
  (∀ m c', mapping_file w = Some m → m !! task_gid = Some c' →
           truthy c' = true → sessions w !! c' = None) →
  asana_tasks w !! task_gid = None ∨ asana_task_stories w !! task_gid = None →
  let r := process_story_mention story_gid parent_gid w in
  context_warning ∈ log (snd r)
  ∧ run_story_mention story_gid parent_gid w = (Returned (fst r), snd r)
  ∧ match upcoming w with
    | Creates c _ :: _ =>
        fst r = Some c
        ∧ created (snd r)
          = created w
            ++ [(c, clean_asana_comment (asana_html_to_markdown html)
                                        (agent_user_gid s))]
        ∧ (store_writable w = true →
           ∃ m, mapping_file (snd r) = Some m ∧ m !! task_gid = Some c)
    | _ =>
        fst r = None
        ∧ created (snd r) = created w
        ∧ sessions (snd r) = sessions w
        ∧ creation_error ∈ log (snd r)
    end.
Proof.
  intros Hs Hagent Hstory Hsub Hhtml Hmention Htext Hparent Htask Hgone
    Hfetch r.
  destruct (mention_reaches_creation story_gid parent_gid w s story html
              task_gid Hs Hagent Hstory Hsub Hhtml Hmention Htext Hparent
              Htask Hgone)
    as (message & name & w3 & Hrun & U & C & S' & W' & Hfail).
  destruct (Hfail Hfetch) as [-> Hwarn].
  pose proof (mention_creation
                (clean_asana_comment (asana_html_to_markdown html)
                                     (agent_user_gid s))
                name task_gid (access_token s) (workspace_gid s)
                (agent_user_gid s) w3) as Hend.
  cbv zeta in Hend. rewrite <- Hrun in Hend. fold r in Hend.
  destruct Hend as [Hlog Hend].
  split; [by eapply elem_of_prefix|]. split.
  { cbn [run_story_mention asana_reconcilers]. subst r.
    by destruct (process_story_mention story_gid parent_gid w). }
  rewrite U, C, S', W' in Hend.
  destruct (upcoming w) as [|[c session|e] rest]; tauto.
Qed.

End MentionClaims.

(** ** The reconciler on the sample workspace *)

Lemma reassignment_is_idempotent_witness :
  fst (@process_task_assignment ascii_digits plain_converters sample_task_gid
         mapped_workspace) = Some sample_conversation
  ∧ created (snd (@process_task_assignment ascii_digits plain_converters
                    sample_task_gid mapped_workspace)) = []
  ∧ comments (snd (@process_task_assignment ascii_digits plain_converters
                     sample_task_gid mapped_workspace)) = [].
Proof.
  destruct (@reassignment_is_idempotent ascii_digits plain_converters
              sample_task_gid sample_conversation mapped_workspace
              sample_settings sample_task
              {[sample_task_gid := sample_conversation]} quiet_session)
    as (Hid & Hcreated & _ & Hcomments & _).
  - reflexivity.
  - vm_compute. reflexivity.
  - intros _. reflexivity.
  - reflexivity.
  - vm_compute. reflexivity.
  - reflexivity.
  - vm_compute. reflexivity.
  - split; [exact Hid|]. split; [exact Hcreated | exact Hcomments].
Defined.



(** C8 as stated fails: the agent is mentioned on a task that has no
    mapped conversation, the API does not serve the task, and a
    conversation is created all the same, with the comment alone as its
    initial message. *)
Lemma failed_fetch_creates_conversation :
  asana_tasks (workspace false quiet_session) !! sample_task_gid = None
  ∧ mapping_file (workspace false quiet_session) = None
  ∧ created (workspace false quiet_session) = []
  ∧ fst (@process_story_mention ascii_digits plain_converters mention_gid None
           (workspace false quiet_session)) = Some sample_conversation
  ∧ created (snd (@process_story_mention ascii_digits plain_converters
                    mention_gid None (workspace false quiet_session)))
    = [(sample_conversation,
        lit "@OpenHands please check the failing build")].
Proof. vm_compute. repeat split; reflexivity. Qed.

Lemma mention_without_context_still_creates_witness :
  (fst (@process_story_mention ascii_digits plain_converters mention_gid None
          (workspace false quiet_session)) = Some sample_conversation
   ∧ context_warning
     ∈ log (snd (@process_story_mention ascii_digits plain_converters
                   mention_gid None (workspace false quiet_session))))
  ∧ (fst (@process_story_mention ascii_digits plain_converters mention_gid None
            refusing_workspace) = None
     ∧ created (snd (@process_story_mention ascii_digits plain_converters
                       mention_gid None refusing_workspace)) = []
     ∧ creation_error
       ∈ log (snd (@process_story_mention ascii_digits plain_converters
                     mention_gid None refusing_workspace))).
Proof.
  split.
  - destruct (@mention_without_context_still_creates ascii_digits
                plain_converters mention_gid None (workspace false quiet_session)
                sample_settings mention_story
                (or_empty (html_text mention_story)) sample_task_gid)
      as (Hlog & _ & Hid & _).
    + reflexivity.
    + reflexivity.
    + vm_compute. reflexivity.
    + reflexivity.
    + reflexivity.
    + vm_compute. reflexivity.
    + vm_compute. reflexivity.
    + reflexivity.
    + reflexivity.
    + intros m c Hm. discriminate Hm.
    + left. reflexivity.
    + split; [exact Hid | exact Hlog].
  - destruct (@mention_without_context_still_creates ascii_digits
                plain_converters mention_gid None refusing_workspace
                sample_settings mention_story
                (or_empty (html_text mention_story)) sample_task_gid)
      as (_ & _ & Hnone & Hcreated & _ & Herror).
    + reflexivity.
    + reflexivity.
    + vm_compute. reflexivity.
    + reflexivity.
    + reflexivity.
    + vm_compute. reflexivity.
    + vm_compute. reflexivity.
    + reflexivity.
    + reflexivity.
    + intros m c Hm. discriminate Hm.
    + left. reflexivity.
    + split; [exact Hnone|]. split; [exact Hcreated | exact Herror].
Defined.

(** ** Reporting *)

Section CallbackFacts.
Context `{Converters}.

(** A report posts at most one comment and touches no listener. *)
Lemma report_to_asana_posts (self : nat) (a : AgentState) (w : World) :
  listeners (snd (_report_to_asana self a w)) = listeners w
  ∧ (length (comments (snd (_report_to_asana self a w)))
     ≤ S (length (comments w)))%nat.
Proof.
  cbv [_report_to_asana bind gets ret logger modify report_result add_comment].
  destruct (listeners w !! self) as [l|]; [|simpl; split; [done | lia]].
  destruct (sessions w !! conversation_id l) as [session|];
    [|simpl; split; [done | lia]].
  destruct (event_stream session); [|simpl; split; [done | lia]].
  destruct (comments_accepted w); simpl; (split; [done|]).
  - rewrite length_app. simpl. lia.
  - lia.
Qed.

(** The callback posts only when the flag is down, and then raises it. *)
Lemma callback_posts (self : nat) (e : Event) (w : World)
    (l : AsanaConversationListener) :
  listeners w !! self = Some l →
  ∃ l', listeners (snd (callback self e w)) !! self = Some l'
        ∧ (_reported l = true → _reported l' = true)
        ∧ (length (comments (snd (callback self e w)))
           ≤ length (comments w)
             + (if _reported l then 0 else if _reported l' then 1 else 0))%nat.
Proof.
  intros Hl. unfold callback.
  assert (Hsame : ∀ w', listeners w' = listeners w → comments w' = comments w →
            ∃ l', listeners w' !! self = Some l'
                  ∧ (_reported l = true → _reported l' = true)
                  ∧ (length (comments w')
                     ≤ length (comments w)
                       + (if _reported l then 0
                          else if _reported l' then 1 else 0))%nat).
  { intros w' Hls Hcs. exists l. rewrite Hls, Hcs. split; [done|].
    split; [done|]. lia. }
  destruct e; try (by apply Hsame).
  destruct (AgentState_of agent_state) as [a|]; [|by apply Hsame].
  destruct (negb (is_terminal a)); [by apply Hsame|].
  rewrite bind_run. cbv [gets]. cbn [fst snd]. rewrite Hl.
  destruct (_reported l) eqn:Hrep; [by apply Hsame|].
  rewrite bind_run. cbv beta.
  set (w1 := snd (update_listener self (set_reported true) w)).
  assert (Hw1 : listeners w1 !! self = Some (set_reported true l)
                ∧ comments w1 = comments w).
  { unfold w1, update_listener, modify. cbn [snd]. rewrite Hl. cbn.
    split; [|done]. apply list_lookup_insert_eq.
    by apply lookup_lt_Some in Hl. }
  destruct Hw1 as [Hl1 Hc1].
  destruct (report_to_asana_posts self a w1) as [Hls Hlen].
  exists (set_reported true l). rewrite Hls. split; [exact Hl1|].
  split; [done|]. cbn [_reported set_reported]. rewrite Hc1 in Hlen. lia.
Qed.

(** Between two armings the callback posts at most one comment, however
    many events, terminal or not, are dispatched to it. *)
Lemma callback_reports_once (self : nat) (events : list Event) (w : World)
    (l : AsanaConversationListener) :
  listeners w !! self = Some l →
  (length (comments (snd (for_each events (callback self) w)))
   ≤ length (comments w) + (if _reported l then 0 else 1))%nat.
Proof.
  revert w l. induction events as [|e events IH]; intros w l Hl.
  - simpl. lia.
  - cbn [for_each]. rewrite bind_run.
    destruct (callback_posts self e w l Hl) as (l' & Hl' & Hmono & Hlen).
    specialize (IH (snd (callback self e w)) l' Hl').
    destruct (_reported l) eqn:Hrep.
    + rewrite (Hmono eq_refl) in IH. lia.
    + destruct (_reported l'); lia.
Qed.
End CallbackFacts.

(** When the agent had finished before the subscription began and no
    event is in flight, the catch-up scan posts the one report. *)
Lemma catch_up_alone_reports_once :
  length (comments
            (snd (@subscribe_to_conversation_events plain_converters
                    sample_conversation sample_task_gid (lit "0/secret") None
                    (Some agent_gid) (unsubscribed finished_session))))
  = 1%nat.
Proof. vm_compute. reflexivity. Qed.

(** C7, at the input where the code departs from it: the agent reaches
    [finished] while [subscribe_to_conversation_events] sleeps.  The event
    is dispatched to the callback just subscribed, which posts the result
    and sets the listener's flag; the catch-up scan then finds the same
    terminal state and posts the result again without reading the flag.
    One listener, armed once, has posted two comments. *)
Theorem catch_up_reports_a_second_time :
  let w := snd (@subscribe_to_conversation_events plain_converters
                  sample_conversation sample_task_gid (lit "0/secret") None
                  (Some agent_gid) (unsubscribed racing_session)) in
  comments (unsubscribed racing_session) = []
  ∧ length (listeners w) = 1%nat
  ∧ map on_task (comments w) = [sample_task_gid; sample_task_gid]
  ∧ map comment_html (comments w)
    = [Some (lit "<body>The build is green again." ++ [10; 10] ++ lit "</body>");
       Some (lit "<body>The build is green again." ++ [10; 10] ++ lit "</body>")].
Proof. vm_compute. repeat split; reflexivity. Qed.

(** ** Text normalisation *)

(** ** Substrings *)

Lemma starts_with_app (p s t : str) :
  starts_with p s = true → starts_with p (s ++ t) = true.
Proof.
  revert s. induction p as [|a p IH]; intros [|b s]; simpl; try done.
  intros [Hab Hp]%andb_true_iff. rewrite Hab. simpl. by apply IH.
Qed.

Lemma contains_app_l (p s t : str) :
  contains p s = true → contains p (s ++ t) = true.
Proof.
  induction s as [|b s IH]; simpl.
  - rewrite orb_false_r. intros Hp. destruct p; [|done]. by destruct t.
  - intros [Hp|Hp]%orb_true_iff.
    + apply orb_true_iff. left. by apply (starts_with_app p (b :: s)).
    + apply orb_true_iff. right. by apply IH.
Qed.

Lemma contains_app_r (p s t : str) :
  contains p t = true → contains p (s ++ t) = true.
Proof.
  intros Hp. induction s as [|b s IH]; simpl; [done|].
  apply orb_true_iff. by right.
Qed.

(** ** [str.strip] *)

Lemma lstrip_suffix (s : str) : ∃ pre, s = pre ++ lstrip s.
Proof.
  induction s as [|c s [pre IH]]; simpl.
  - by exists [].
  - destruct (is_space c).
    + exists (c :: pre). simpl. by rewrite <- IH.
    + by exists [].
Qed.

Lemma rstrip_prefix (s : str) : ∃ post, s = rstrip s ++ post.
Proof.
  unfold rstrip. destruct (lstrip_suffix (rev s)) as [pre Hpre].
  exists (rev pre). rewrite <- rev_app_distr, <- Hpre. by rewrite rev_involutive.
Qed.

Lemma lstrip_head (s : str) :
  match lstrip s with [] => True | c :: _ => is_space c = false end.
Proof.
  induction s as [|c s IH]; simpl; [done|].
  destruct (is_space c) eqn:Hc; [exact IH | exact Hc].
Qed.

Lemma lstrip_snoc (l : str) (c : N) :
  is_space c = false → ∃ l', lstrip (l ++ [c]) = l' ++ [c].
Proof.
  intros Hc. induction l as [|a l [l' IH]]; simpl.
  - rewrite Hc. by exists [].
  - destruct (is_space a); [by exists l' | by exists (a :: l)].
Qed.

Lemma strip_trimmed (s : str) : trimmed (strip s).
Proof.
  unfold strip, trimmed. split.
  - pose proof (lstrip_head s) as Hhead.
    destruct (lstrip s) as [|c t]; [done|].
    unfold rstrip. simpl rev.
    destruct (lstrip_snoc (rev t) c Hhead) as [l' ->].
    rewrite rev_app_distr. simpl. exact Hhead.
  - unfold rstrip. rewrite rev_involutive. apply lstrip_head.
Qed.

Lemma contains_strip (p s : str) :
  contains p (strip s) = true → contains p s = true.
Proof.
  intros Hp. unfold strip in Hp.
  destruct (rstrip_prefix (lstrip s)) as [post Hpost].
  destruct (lstrip_suffix s) as [pre Hpre].
  rewrite Hpre. apply contains_app_r. rewrite Hpost. by apply contains_app_l.
Qed.

(** ** [re.sub] *)

(** Past the end of a match the scan resumes as if it started there. *)
Lemma sub_from_skip (pat : pattern) (repl : str) (k : nat) (s : str) :
  match_here pat [] = None →
  sub_from pat repl k s = sub_from pat repl O (drop k s).
Proof.
  intros Hnil. revert s. induction k as [|k IH]; intros s.
  - by rewrite drop_0.
  - destruct s as [|c s]; simpl.
    + by rewrite Hnil.
    + apply IH.
Qed.

(** ** Newline runs *)

Lemma leading_newlines_split (s : str) :
  s = repeat newline (leading_newlines s) ++ drop (leading_newlines s) s
  ∧ leading_newlines (drop (leading_newlines s) s) = O.
Proof.
  induction s as [|c s [IH1 IH2]]; simpl; [done|].
  destruct (N.eqb_spec c newline) as [->|Hc]; simpl.
  - split; [by rewrite <- IH1 | exact IH2].
  - split; [done|]. simpl. by apply N.eqb_neq in Hc as ->.
Qed.

Lemma leading_newlines_repeat (k : nat) (rest : str) :
  leading_newlines rest = O →
  leading_newlines (repeat newline k ++ rest) = k.
Proof. intros Hrest. induction k as [|k IH]; simpl; [done | by rewrite IH]. Qed.

(** The greedy tail of the pattern takes the whole run. *)
Lemma star_newlines (s : str) :
  match_here [Star (is_char newline)] s = Some (leading_newlines s).
Proof.
  induction s as [|c s IH]; [done|].
  cbn [match_here leading_newlines] in *. unfold is_char at 1.
  destruct (c =? newline); [|done]. by rewrite IH.
Qed.

(** The pattern matches exactly the runs of three newlines or more, and
    all of the run. *)
Lemma match_three_newlines (s : str) :
  match_here three_newlines s
  = if (3 <=? leading_newlines s)%nat then Some (leading_newlines s) else None.
Proof.
  unfold three_newlines.
  destruct s as [|a s]; [done|]. cbn [match_here leading_newlines].
  unfold is_char at 1. destruct (a =? newline); [|done].
  destruct s as [|b s]; [done|]. cbn [match_here leading_newlines].
  unfold is_char at 1. destruct (b =? newline); [|done].
  destruct s as [|c s]; [done|]. cbn [match_here leading_newlines].
  unfold is_char at 1. destruct (c =? newline); [|done].
  rewrite star_newlines. done.
Qed.

Lemma collapse_newlines_other (c : N) (s : str) :
  c ≠ newline → collapse_newlines (c :: s) = c :: collapse_newlines s.
Proof.
  intros Hc. unfold collapse_newlines, re_sub. cbn [sub_from].
  rewrite match_three_newlines. cbn [leading_newlines].
  by apply N.eqb_neq in Hc as ->.
Qed.

(** A run of newlines closed by another character or by the end of the
    string becomes two newlines when it has three or more, and is kept
    when it has fewer. *)
Lemma collapse_newlines_run (k : nat) (rest : str) :
  leading_newlines rest = O →
  collapse_newlines (repeat newline k ++ rest)
  = (if (3 <=? k)%nat then [newline; newline] else repeat newline k)
    ++ collapse_newlines rest.
Proof.
  intros Hrest.
  assert (Hshort : ∀ j, (j < 3)%nat →
            collapse_newlines (repeat newline j ++ rest)
            = repeat newline j ++ collapse_newlines rest).
  { intros j Hj. induction j as [|j IH]; [done|].
    unfold collapse_newlines, re_sub in *. cbn [repeat app sub_from].
    rewrite match_three_newlines.
    change (newline :: repeat newline j ++ rest)
      with (repeat newline (S j) ++ rest).
    rewrite (leading_newlines_repeat (S j) rest Hrest).
    destruct (Nat.leb_spec 3 (S j)); [lia|]. f_equal. apply IH. lia. }
  destruct (Nat.leb_spec 3 k) as [Hk|Hk]; [|by apply Hshort].
  destruct k as [|k]; [lia|].
  unfold collapse_newlines, re_sub. cbn [repeat app sub_from].
  rewrite match_three_newlines.
  change (newline :: repeat newline k ++ rest)
    with (repeat newline (S k) ++ rest).
  rewrite (leading_newlines_repeat (S k) rest Hrest).
  destruct (Nat.leb_spec 3 (S k)); [|lia].
  rewrite sub_from_skip by done.
  rewrite drop_app_length'; [done | by rewrite repeat_length].
Qed.

Lemma collapse_newlines_no_three (s : str) :
  contains three (collapse_newlines s) = false.
Proof.
  remember (length s) as n eqn:Hn. revert s Hn.
  induction n as [n IH] using lt_wf_ind. intros s Hn.
  destruct (leading_newlines_split s) as [Hsplit Hrest].
  set (k := leading_newlines s) in *. set (rest := drop k s) in *.
  rewrite Hsplit, (collapse_newlines_run k rest Hrest).
  assert (Htail : contains three (collapse_newlines rest) = false
                  ∧ match collapse_newlines rest with
                    | c :: _ => c ≠ newline
                    | [] => True
                    end).
  { destruct rest as [|c rest'] eqn:Hr; [done|].
    simpl in Hrest. destruct (N.eqb_spec c newline) as [|Hc]; [done|].
    rewrite (collapse_newlines_other c rest' Hc). split; [|done].
    assert (Hlen : (length rest' < n)%nat).
    { subst n. rewrite Hsplit, length_app. simpl. lia. }
    cbn [contains starts_with three].
    apply N.eqb_neq in Hc. rewrite N.eqb_sym in Hc. rewrite Hc. simpl.
    by apply (IH (length rest') Hlen rest'). }
  destruct Htail as [Htail Hhead].
  set (out := collapse_newlines rest) in *.
  assert (Hpre : ∀ j, (j ≤ 2)%nat →
            contains three (repeat newline j ++ out) = false).
  { intros j Hj. destruct out as [|c out'].
    - destruct j as [|[|[|j]]]; [done..|lia].
    - apply N.eqb_neq in Hhead. rewrite N.eqb_sym in Hhead.
      assert (Hout : contains three out' = false).
      { cbn [contains starts_with three] in Htail.
        by rewrite Hhead in Htail. }
      destruct j as [|[|[|j]]]; [exact Htail | | | lia];
        cbn [repeat app contains starts_with three];
        rewrite ?N.eqb_refl, ?Hhead; simpl; exact Hout. }
  destruct (Nat.leb_spec 3 k).
  - apply (Hpre 2%nat). lia.
  - apply Hpre. lia.
Qed.

(** The substitution works run by run: it can be done on either side of
    a character that is not a newline. *)
Lemma collapse_newlines_app (pre t : str) :
  last pre ≠ Some newline →
  collapse_newlines (pre ++ t) = collapse_newlines pre ++ collapse_newlines t.
Proof.
  remember (length pre) as n eqn:Hn. revert pre Hn.
  induction n as [n IH] using lt_wf_ind. intros pre Hn Hlast.
  destruct (leading_newlines_split pre) as [Hsplit Hrest].
  set (k := leading_newlines pre) in *. set (rest := drop k pre) in *.
  destruct rest as [|c rest'] eqn:Hr.
  - rewrite app_nil_r in Hsplit. destruct k as [|k].
    + simpl in Hsplit. by rewrite Hsplit.
    + exfalso. apply Hlast. rewrite Hsplit.
      cbn [repeat]. rewrite repeat_cons. by rewrite last_snoc.
  - simpl in Hrest. destruct (N.eqb_spec c newline) as [|Hc]; [done|].
    rewrite Hsplit, <- app_assoc.
    rewrite (collapse_newlines_run k ((c :: rest') ++ t)),
            (collapse_newlines_run k (c :: rest'));
      [| simpl; by apply N.eqb_neq in Hc as -> ..].
    rewrite <- app_assoc. f_equal. simpl.
    rewrite !(collapse_newlines_other c) by done. simpl. f_equal.
    apply (IH (length rest')); [|done|].
    + subst n. rewrite Hsplit. rewrite length_app. simpl. lia.
    + intros Hl. apply Hlast. rewrite Hsplit.
      destruct rest' as [|d rest'']; [done|].
      rewrite last_app, last_cons_cons. by rewrite Hl.
Qed.

Section Normalisation.
Context `{UnicodeData} `{Converters}.

Lemma normalised (s : str) :
  contains three (strip (collapse_newlines s)) = false
  ∧ trimmed (strip (collapse_newlines s)).
Proof.
  split; [|apply strip_trimmed].
  apply not_true_is_false. intros Hc. apply contains_strip in Hc.
  by rewrite collapse_newlines_no_three in Hc.
Qed.

(** C10: whatever the input and whatever the two converters return, the
    output of [markdown_to_asana_html] and the output of
    [asana_html_to_markdown] hold no three newlines in a row and neither
    start nor end with white space; the substitution behind it turns
    every run of three newlines or more into exactly two, that is one
    blank line. *)
Theorem newlines_are_normalised (input : str) (agent_user_gid : option str) :
  (contains three (markdown_to_asana_html input agent_user_gid) = false
   ∧ trimmed (markdown_to_asana_html input agent_user_gid))
  ∧ (contains three (asana_html_to_markdown input) = false
     ∧ trimmed (asana_html_to_markdown input))
  ∧ (∀ (pre post : str) (k : nat),
       (3 ≤ k)%nat → last pre ≠ Some newline → leading_newlines post = O →
       collapse_newlines (pre ++ repeat newline k ++ post)
       = collapse_newlines pre ++ [newline; newline] ++ collapse_newlines post).
Proof.
  split; [|split].
  - unfold markdown_to_asana_html.
    destruct (negb (truthy input)); [by split | apply normalised].
  - unfold asana_html_to_markdown.
    destruct (negb (truthy input)); [by split | apply normalised].
  - intros pre post k Hk Hpre Hpost.
    rewrite (collapse_newlines_app pre) by done.
    rewrite (collapse_newlines_run k post Hpost).
    destruct (Nat.leb_spec 3 k); [done | lia].
Qed.
End Normalisation.

(** ** Mention sanitising *)

Lemma fold_case_digit (c d : N) :
  is_digit d = true → fold_case c = fold_case d → c = d.
Proof.
  unfold is_digit, fold_case. intros Hd.
  apply andb_true_iff in Hd as [H1%N.leb_le H2%N.leb_le].
  repeat match goal with
         | |- context [if ?b then _ else _] => destruct b eqn:?
         end;
    repeat match goal with
           | H : (_ && _) = true |- _ => apply andb_true_iff in H as [? ?]
           | H : (_ || _) = true |- _ => apply orb_true_iff in H as [?|?]
           | H : (_ <=? _) = true |- _ => apply N.leb_le in H
           | H : (_ =? _) = true |- _ => apply N.eqb_eq in H
           end; lia.
Qed.

Lemma is_char_i_refl (a : N) : is_char_i a a = true.
Proof. unfold is_char_i. apply N.eqb_refl. Qed.

(** A literal matches itself. *)
Lemma match_literal (l : str) (r : pattern) (s : str) :
  match_here (literal_i l ++ r) (l ++ s)
  = (fun n => (length l + n)%nat) <$> match_here r s.
Proof.
  induction l as [|a l IH]; cbn [literal_i map app match_here length].
  - by destruct (match_here r s).
  - rewrite is_char_i_refl. unfold literal_i in IH. rewrite IH.
    by destruct (match_here r s).
Qed.

(** A literal does not match where a character foreign to it comes
    before its end. *)
Lemma match_literal_short (l : str) (r : pattern) (u : str) (g : N) (s : str) :
  (length u < length l)%nat →
  Forall (fun a => is_char_i a g = false) l →
  match_here (literal_i l ++ r) (u ++ g :: s) = None.
Proof.
  revert u. induction l as [|a l IH]; intros u Hlen Hall; [simpl in Hlen; lia|].
  apply Forall_cons in Hall as [Ha Hall].
  destruct u as [|b u]; cbn [literal_i map app match_here].
  - by rewrite Ha.
  - destruct (is_char_i a b); [|done].
    unfold literal_i in IH. rewrite IH; [done | simpl in Hlen; lia | done].
Qed.

(** A greedy run that the rest of the pattern can follow at its very end
    is taken whole. *)
Lemma star_greedy (p : N → bool) (r : pattern) (x s : str) (n : nat) :
  Forall (fun c => p c = true) x →
  match_here r s = Some n →
  match s with c :: _ => p c = false | [] => True end →
  match_here (Star p :: r) (x ++ s) = Some (length x + n)%nat.
Proof.
  intros Hx Hr Hs. induction x as [|c x IH].
  - cbn [app length match_here]. destruct s as [|c s]; [exact Hr|].
    by rewrite Hs.
  - apply Forall_cons in Hx as [Hc Hx].
    change (match_here (Star p :: r) ((c :: x) ++ s))
      with (if p c then
              match match_here (Star p :: r) (x ++ s) with
              | Some n => Some (S n)
              | None => match_here r ((c :: x) ++ s)
              end
            else match_here r ((c :: x) ++ s)).
    rewrite Hc, (IH Hx). reflexivity.
Qed.

(** A greedy run gives back all it took when the rest of the pattern
    can follow nowhere inside or after it. *)
Lemma star_falls_back (p : N → bool) (r : pattern) (x s : str) :
  (∀ k, (0 < k ≤ length x)%nat → match_here r (drop k x ++ s) = None) →
  match s with c :: _ => p c = false | [] => True end →
  match_here (Star p :: r) (x ++ s) = match_here r (x ++ s).
Proof.
  intros Hnone Hs. induction x as [|c x IH].
  - cbn [app match_here]. destruct s as [|c s]; [done|]. by rewrite Hs.
  - change (match_here (Star p :: r) ((c :: x) ++ s))
      with (if p c then
              match match_here (Star p :: r) (x ++ s) with
              | Some n => Some (S n)
              | None => match_here r ((c :: x) ++ s)
              end
            else match_here r ((c :: x) ++ s)).
    destruct (p c); [|done].
    rewrite IH.
    + specialize (Hnone 1%nat). simpl in Hnone. rewrite drop_0 in Hnone.
      rewrite Hnone; [done | lia].
    + intros k Hk. specialize (Hnone (S k)). simpl in Hnone.
      apply Hnone. lia.
Qed.

Lemma star_step (p : N → bool) (r : pattern) (c : N) (s : str) (n : nat) :
  p c = true →
  match_here (Star p :: r) s = Some n →
  match_here (Star p :: r) (c :: s) = Some (S n).
Proof.
  intros Hc Hs.
  change (match_here (Star p :: r) (c :: s))
    with (if p c then
            match match_here (Star p :: r) s with
            | Some n => Some (S n)
            | None => match_here r (c :: s)
            end
          else match_here r (c :: s)).
  by rewrite Hc, Hs.
Qed.

Lemma mention_anchor_shape (g : str) :
  mention_anchor g
  = literal_i (lit "<a")
    ++ Star (not_in [62])
       :: literal_i (gid_attribute g)
          ++ Star (not_in [62])
             :: literal_i (lit ">@")
                ++ Star (not_in [60]) :: literal_i (lit "</a>") ++ [].
Proof.
  unfold mention_anchor, gid_attribute, literal_i.
  rewrite !map_app, app_nil_r. cbn [map]. rewrite <- !app_assoc. reflexivity.
Qed.

Lemma gid_attribute_no_gt (g : str) :
  Forall (fun d => is_digit d = true) g →
  Forall (fun a => is_char_i a 62 = false) (gid_attribute g).
Proof.
  intros Hg. unfold gid_attribute.
  repeat apply Forall_app_2; try (by repeat constructor).
  eapply Forall_impl; [exact Hg|]. intros d Hd. cbn beta in Hd.
  unfold is_char_i. apply N.eqb_neq. intros Heq. symmetry in Heq.
  change (fold_case 62) with 62 in Heq.
  assert (d = 62) as ->.
  { unfold is_digit in Hd. unfold fold_case in Heq.
    apply andb_true_iff in Hd as [H1%N.leb_le H2%N.leb_le].
    repeat match type of Heq with
           | context [if ?b then _ else _] => destruct b eqn:?
           end;
      repeat match goal with
             | H : (_ && _) = true |- _ => apply andb_true_iff in H as [? ?]
             | H : (_ || _) = true |- _ => apply orb_true_iff in H as [?|?]
             | H : (_ <=? _) = true |- _ => apply N.leb_le in H
             | H : (_ =? _) = true |- _ => apply N.eqb_eq in H
             end; lia. }
  discriminate Hd.
Qed.

Lemma contains_cons (p : str) (c : N) (s : str) :
  contains p s = true → contains p (c :: s) = true.
Proof. intros Hp. cbn [contains]. rewrite Hp. apply orb_true_r. Qed.

Lemma literal_digits_prefix (g : str) (post : pattern) (t : str) (n : nat) :
  Forall (fun d => is_digit d = true) g →
  match_here (literal_i g ++ post) t = Some n →
  starts_with g t = true.
Proof.
  intros Hg. revert t n. induction g as [|a g IH]; intros t n Hm; [done|].
  apply Forall_cons in Hg as [Ha Hg].
  destruct t as [|c t]; [done|]. cbn [literal_i map app match_here] in Hm.
  destruct (is_char_i a c) eqn:Hc; [|done].
  unfold is_char_i in Hc. apply N.eqb_eq in Hc.
  apply (fold_case_digit c a Ha) in Hc as ->.
  destruct (match_here (map (fun a => One (is_char_i a)) g ++ post) t)
    as [m|] eqn:Hrest; [|done].
  cbn [starts_with]. rewrite N.eqb_refl. cbn [andb].
  by apply (IH Hg t m).
Qed.

(** Whatever stands around it in the pattern, a literal of digits that
    has matched is found in the text. *)
Lemma match_contains (pre : pattern) (g : str) (post : pattern) (t : str)
    (n : nat) :
  Forall (fun d => is_digit d = true) g →
  match_here (pre ++ literal_i g ++ post) t = Some n →
  contains g t = true.
Proof.
  intros Hg. revert t n. induction pre as [|[p|p|p] pre IH]; intros t n Hm.
  - apply literal_digits_prefix in Hm; [|done].
    destruct t; cbn [contains]; by rewrite Hm.
  - destruct t as [|c t]; [done|]. cbn [app match_here] in Hm.
    destruct (p c); [|done].
    destruct (match_here (pre ++ literal_i g ++ post) t) as [m|] eqn:Hr; [|done].
    apply contains_cons. by apply (IH t m).
  - destruct t as [|c t]; cbn [app match_here] in Hm.
    + by apply (IH [] n).
    + destruct (p c); [|by apply (IH (c :: t) n)].
      destruct (match_here (pre ++ literal_i g ++ post) t) as [m|] eqn:Hr.
      * apply contains_cons. by apply (IH t m).
      * by apply (IH (c :: t) n).
  - revert n Hm. induction t as [|c t IHt]; intros n Hm.
    + by apply (IH [] n).
    + change (match_here ((Star p :: pre) ++ literal_i g ++ post) (c :: t))
        with (if p c then
                match match_here ((Star p :: pre) ++ literal_i g ++ post) t with
                | Some n => Some (S n)
                | None => match_here (pre ++ literal_i g ++ post) (c :: t)
                end
              else match_here (pre ++ literal_i g ++ post) (c :: t)) in Hm.
      destruct (p c); [|by apply (IH (c :: t) n)].
      destruct (match_here ((Star p :: pre) ++ literal_i g ++ post) t)
        as [m|] eqn:Hr.
      * apply contains_cons. by apply (IHt m).
      * by apply (IH (c :: t) n).
Qed.

(** A substitution whose pattern holds a literal of digits leaves a text
    without those digits as it is. *)
Lemma re_sub_without (pre : pattern) (g : str) (post : pattern)
    (repl s : str) :
  Forall (fun d => is_digit d = true) g →
  contains g s = false →
  re_sub (pre ++ literal_i g ++ post) repl s = s.
Proof.
  intros Hg. unfold re_sub. induction s as [|c s IH]; intros Hs.
  - cbn [sub_from].
    destruct (match_here (pre ++ literal_i g ++ post) []) as [n|] eqn:Hm; [|done].
    apply match_contains in Hm; [congruence | done].
  - cbn [sub_from].
    destruct (match_here (pre ++ literal_i g ++ post) (c :: s)) as [n|] eqn:Hm.
    + apply match_contains in Hm; [congruence | done].
    + f_equal. apply IH. cbn [contains] in Hs.
      by apply orb_false_iff in Hs as [_ ?].
Qed.

(** No match can start before the first character the pattern asks
    for. *)
Lemma sub_from_before (q : N → bool) (r : pattern) (repl before t : str) :
  Forall (fun c => q c = false) before →
  sub_from (One q :: r) repl O (before ++ t)
  = before ++ sub_from (One q :: r) repl O t.
Proof.
  intros Hq. induction before as [|c before IH]; [done|].
  apply Forall_cons in Hq as [Hc Hq].
  cbn [app sub_from match_here]. rewrite Hc. f_equal. by apply IH.
Qed.

Lemma is_char_i_lt (c : N) : c ≠ 60 → is_char_i 60 c = false.
Proof.
  intros Hc. unfold is_char_i. apply N.eqb_neq. intros Heq. apply Hc.
  change (fold_case 60) with 60 in Heq. unfold fold_case in Heq.
  repeat match type of Heq with
         | context [if ?b then _ else _] => destruct b eqn:?
         end;
    repeat match goal with
           | H : (_ && _) = true |- _ => apply andb_true_iff in H as [? ?]
           | H : (_ <=? _) = true |- _ => apply N.leb_le in H
           end; lia.
Qed.

Lemma contains_false_app (p s t : str) :
  contains p (s ++ t) = false → contains p t = false.
Proof.
  intros Hp. apply not_true_is_false. intros Ht.
  by rewrite (contains_app_r p s t Ht) in Hp.
Qed.

(** Each of the three patterns holds the gid as a literal. *)
Lemma patterns_hold_gid (g : str) :
  (∃ pre post, mention_anchor g = pre ++ literal_i g ++ post)
  ∧ (∃ pre post, url_with g = pre ++ literal_i g ++ post)
  ∧ (∃ pre post, markdown_link_with g = pre ++ literal_i g ++ post).
Proof.
  split; [|split].
  - exists (literal_i (lit "<a") ++ [Star (not_in [62])]
            ++ literal_i (lit "data-asana-gid=") ++ [One (is_char_i quote)]).
    eexists. unfold mention_anchor. rewrite <- !app_assoc. reflexivity.
  - exists (literal_i (lit "http") ++ [Opt (is_char_i 115)]
            ++ literal_i (lit "://") ++ [Star url_char]).
    eexists. unfold url_with. rewrite <- !app_assoc. reflexivity.
  - exists [One (is_char_i 91); Star (not_in [93]); One (is_char_i 93);
            One (is_char_i 40); Star (not_in [41])].
    eexists. unfold markdown_link_with. reflexivity.
Qed.

(** C9 as stated fails: the gid written as plain text is none of the
    three forms [sanitize_agent_mentions] looks for, so it passes through
    the sanitiser and, with a converter that renders the text as one
    paragraph, stands in the output. *)
Lemma plain_gid_survives :
  sanitize_agent_mentions (lit "Ping 1201234567890123 for details")
                          (Some agent_gid)
  = lit "Ping 1201234567890123 for details"
  ∧ @markdown_to_asana_html plain_converters
      (lit "Ping 1201234567890123 for details") (Some agent_gid)
    = lit "Ping 1201234567890123 for details"
  ∧ contains agent_gid
      (@markdown_to_asana_html plain_converters
         (lit "Ping 1201234567890123 for details") (Some agent_gid)) = true.
Proof. vm_compute. repeat split; reflexivity. Qed.

(** * Further properties *)

(** ** The shape of a signature *)

Lemma round_length (s : list N) (kw : N * N) :
  length s = 8%nat → length (Sha256.round s kw) = 8%nat.
Proof.
  destruct s as [|a [|b [|c [|d [|e [|f [|g [|h [|i s]]]]]]]]];
    intros Hlen; try discriminate Hlen. reflexivity.
Qed.

Lemma rounds_length (l : list (N * N)) (s : list N) :
  length s = 8%nat → length (fold_left Sha256.round l s) = 8%nat.
Proof.
  revert s. induction l as [|kw l IH]; intros s Hlen; simpl; [done|].
  apply IH. by apply round_length.
Qed.

Lemma compress_length (h : list N) (block : bytes) :
  length h = 8%nat → length (Sha256.compress h block) = 8%nat.
Proof.
  intros Hlen. unfold Sha256.compress.
  rewrite length_map, length_combine, rounds_length by done. lia.
Qed.

Lemma digest_length (m : bytes) : length (Sha256.digest m) = 32%nat.
Proof.
  unfold Sha256.digest.
  assert (Hh : ∀ (l : list bytes) (h : list N),
             length h = 8%nat →
             length (fold_left Sha256.compress l h) = 8%nat).
  { induction l as [|b l IH]; intros h Hlen; simpl; [done|].
    apply IH. by apply compress_length. }
  assert (H0 : length Sha256.H0 = 8%nat) by (vm_compute; reflexivity).
  specialize (Hh (Sha256.chunks (length (Sha256.pad m) / 64) 64 (Sha256.pad m))
                 Sha256.H0 H0).
  revert Hh. generalize (fold_left Sha256.compress
    (Sha256.chunks (length (Sha256.pad m) / 64) 64 (Sha256.pad m)) Sha256.H0).
  intros h Hlen.
  destruct h as [|a [|b [|c [|d [|e [|f [|g [|i [|j h]]]]]]]]];
    try discriminate Hlen. reflexivity.
Qed.

Lemma hexdigest_length (bs : bytes) :
  length (hexdigest bs) = (2 * length bs)%nat.
Proof.
  unfold hexdigest. induction bs as [|b bs IH]; simpl; [done|].
  simpl in IH. rewrite IH. lia.
Qed.

Lemma hex_digit_lower (d : N) : d < 16 → is_hex_lower (hex_digit d) = true.
Proof.
  intros Hd. unfold is_hex_lower, hex_digit.
  destruct (N.ltb_spec d 10).
  - apply orb_true_iff. left. apply andb_true_iff.
    split; [apply N.leb_le | apply N.leb_le]; lia.
  - apply orb_true_iff. right. apply andb_true_iff.
    split; [apply N.leb_le | apply N.leb_le]; lia.
Qed.

Lemma hexdigest_lower (bs : bytes) :
  Forall (fun c => is_hex_lower c = true) (hexdigest bs).
Proof.
  unfold hexdigest. induction bs as [|b bs IH]; simpl; [constructor|].
  constructor; [|constructor; [|exact IH]].
  - apply hex_digit_lower. apply N.mod_lt. lia.
  - apply hex_digit_lower. apply N.mod_lt. lia.
Qed.

Lemma hexdigest_hmac_length (key msg : bytes) :
  length (hexdigest (hmac_sha256 key msg)) = 64%nat.
Proof.
  rewrite hexdigest_length. unfold hmac_sha256. by rewrite digest_length.
Qed.

Lemma hexdigest_hmac_truthy (key msg : bytes) :
  truthy (hexdigest (hmac_sha256 key msg)) = true.
Proof.
  pose proof (hexdigest_hmac_length key msg) as Hlen.
  destruct (hexdigest (hmac_sha256 key msg)); [discriminate Hlen | done].
Qed.

(** X1: whatever the body and the secret, a signature that
    [verify_webhook_signature] accepts is made of exactly 64 lower-case
    hexadecimal digits: a signature of another length, or one written in
    upper case, is never accepted. *)
Theorem accepted_signature_shape (body : bytes) (signature secret : str) :
  verify_webhook_signature body signature secret = Ok true →
  length signature = 64%nat
  ∧ Forall (fun c => is_hex_lower c = true) signature.
Proof.
  unfold verify_webhook_signature.
  destruct (utf8_encode secret) as [key|]; [|discriminate].
  intros Hok. apply compare_digest_hex in Hok. subst signature. split.
  - apply hexdigest_hmac_length.
  - apply hexdigest_lower.
Qed.

Lemma accepted_signature_shape_witness :
  length (lit "5bdcc146bf60754e6a042426089575c75a003f089d2739839dec58b964ec3843")
  = 64%nat.
Proof.
  apply (accepted_signature_shape (lit "what do ya want for nothing?")
           (lit "5bdcc146bf60754e6a042426089575c75a003f089d2739839dec58b964ec3843")
           (lit "Jefe")).
  vm_compute. reflexivity.
Defined.

(** X2: [verify_webhook_signature] raises instead of returning when the
    signature holds a character outside ASCII ([hmac.compare_digest]
    refuses such a string) or when the secret cannot be encoded; in every
    other case it returns a boolean. *)
Theorem verify_webhook_signature_raises (body : bytes) (signature secret : str) :
  (utf8_encode secret = None →
   verify_webhook_signature body signature secret = UnicodeEncodeError)
  ∧ (utf8_encode secret ≠ None → is_ascii signature = false →
     verify_webhook_signature body signature secret = TypeError)
  ∧ (utf8_encode secret ≠ None → is_ascii signature = true →
     ∃ b, verify_webhook_signature body signature secret = Ok b).
Proof.
  unfold verify_webhook_signature, compare_digest.
  destruct (utf8_encode secret) as [key|]; split; try split; try done.
  - intros _ Hs. by rewrite Hs, andb_false_r.
  - intros _ Hs. rewrite Hs, hexdigest_ascii. simpl. eauto.
Qed.

Lemma signed_with_secret (body : bytes) (secret : str) (key : bytes) :
  utf8_encode secret = Some key →
  verify_webhook_signature body (hexdigest (hmac_sha256 key body)) secret
  = Ok true.
Proof.
  intros Hkey. unfold verify_webhook_signature. rewrite Hkey.
  by apply compare_digest_hex.
Qed.

(** ** The webhook endpoint: handshake and signed deliveries *)

Section SignedDeliveries.
Context {W : Type} `{Endpoint W}.

(** X3: a request that carries a non-empty [X-Hook-Secret] is a handshake
    whatever else it holds: nothing is verified, nothing is parsed or
    queued, the secret is echoed and replaces the one stored under
    ['default'].  A later delivery signed with the hexadecimal HMAC of its
    body under that secret passes the signature check and goes on to the
    payload parse. *)
Theorem handshake_stores_secret (request : Request) (st : hooks W)
    (secret : str) :
  x_hook_secret request = Some secret →
  truthy secret = true →
  resp (asana_webhook request st) = HandshakeEcho secret
  ∧ background_tasks (asana_webhook request st) = []
  ∧ signature_checks (asana_webhook request st) = 0%nat
  ∧ webhook_secrets (after (asana_webhook request st))
    = <[default_key := secret]> (webhook_secrets st)
  ∧ _processed_events (after (asana_webhook request st)) = _processed_events st
  ∧ hook_log (after (asana_webhook request st)) = hook_log st
  ∧ (∀ (delivery : Request) (key : bytes),
       truthy_opt (x_hook_secret delivery) = false →
       utf8_encode secret = Some key →
       x_hook_signature delivery
       = Some (hexdigest (hmac_sha256 key (body delivery))) →
       asana_webhook delivery (after (asana_webhook request st))
       = parse_and_queue delivery (after (asana_webhook request st)) 1).
Proof.
  intros Hsecret Htruthy.
  assert (Hrun : asana_webhook request st
                 = {| resp := HandshakeEcho secret;
                      after := with_secret st secret;
                      background_tasks := []; signature_checks := 0 |}).
  { unfold asana_webhook. rewrite Hsecret. simpl. by rewrite Htruthy. }
  rewrite Hrun. simpl. repeat split; try done.
  intros delivery key Hnone Hkey Hsig.
  apply (verified_delivery delivery (with_secret st secret)
           (hexdigest (hmac_sha256 key (body delivery))) secret);
    try done.
  - apply hexdigest_hmac_truthy.
  - simpl. apply lookup_insert_eq.
  - by apply signed_with_secret.
Qed.

(** X4: a delivery that carries a signature is answered 401 and nothing
    of it is parsed or queued when no secret is stored in memory and the
    settings store has none either, and when the signature, made of ASCII
    characters, is not the hexadecimal HMAC of the body under the stored
    secret.  In both cases the stored secrets and the processed-events set
    are left as they were. *)
Theorem unverified_delivery_is_refused (request : Request) (st : hooks W)
    (signature : str) :
  truthy_opt (x_hook_secret request) = false →
  x_hook_signature request = Some signature →
  truthy signature = true →
  (truthy (or_empty (webhook_secrets st !! default_key)) = false →
   truthy (or_empty (settings_webhook_secret (world st))) = false →
   resp (asana_webhook request st)
   = HTTPException 401 (lit "No webhook secret configured")
   ∧ signature_checks (asana_webhook request st) = 0%nat
   ∧ background_tasks (asana_webhook request st) = []
   ∧ webhook_secrets (after (asana_webhook request st)) = webhook_secrets st
   ∧ _processed_events (after (asana_webhook request st))
     = _processed_events st)
  ∧ (∀ (secret : str) (key : bytes),
       webhook_secrets st !! default_key = Some secret →
       truthy secret = true →
       utf8_encode secret = Some key →
       is_ascii signature = true →
       signature ≠ hexdigest (hmac_sha256 key (body request)) →
       resp (asana_webhook request st)
       = HTTPException 401 (lit "Invalid signature")
       ∧ signature_checks (asana_webhook request st) = 1%nat
       ∧ background_tasks (asana_webhook request st) = []
       ∧ webhook_secrets (after (asana_webhook request st)) = webhook_secrets st
       ∧ _processed_events (after (asana_webhook request st))
         = _processed_events st).
Proof.
  intros Hnone Hsig Htruthy. split.
  - intros Hcold Hsettings. unfold asana_webhook.
    rewrite Hnone, Hsig. simpl. rewrite Htruthy, Hcold, Hsettings. simpl.
    rewrite Hsettings. simpl. done.
  - intros secret key Hstored Hsecret Hkey Hascii Hne. unfold asana_webhook.
    rewrite Hnone, Hsig. simpl. rewrite Htruthy, Hstored. simpl.
    rewrite Hsecret. simpl.
    assert (Hv : verify_webhook_signature (body request) signature secret
                 = Ok false).
    { unfold verify_webhook_signature. rewrite Hkey.
      by apply compare_digest_hex. }
    rewrite Hv. simpl. rewrite Hsecret. simpl. done.
Qed.

(** X5: with no secret in memory, the secret of the settings store is
    used: a delivery signed with it passes the check, and the secret is
    cached under ['default'], so that the next delivery is verified from
    memory. *)
Theorem secret_is_loaded_from_settings (request : Request) (st : hooks W)
    (secret : str) (key : bytes) :
  truthy_opt (x_hook_secret request) = false →
  truthy (or_empty (webhook_secrets st !! default_key)) = false →
  settings_webhook_secret (world st) = Some secret →
  truthy secret = true →
  utf8_encode secret = Some key →
  x_hook_signature request = Some (hexdigest (hmac_sha256 key (body request))) →
  asana_webhook request st = parse_and_queue request (with_secret st secret) 1
  ∧ webhook_secrets (after (asana_webhook request st)) !! default_key
    = Some secret.
Proof.
  intros Hnone Hcold Hsettings Hsecret Hkey Hsig.
  assert (Hrun : asana_webhook request st
                 = parse_and_queue request (with_secret st secret) 1).
  { unfold asana_webhook. rewrite Hnone, Hsig. simpl.
    rewrite hexdigest_hmac_truthy, Hcold, Hsettings. simpl.
    rewrite Hsecret. simpl.
    rewrite (signed_with_secret _ _ _ Hkey). simpl.
    rewrite ?Hsettings; simpl; rewrite ?Hsecret; simpl.
    by rewrite ?(signed_with_secret _ _ _ Hkey). }
  split; [exact Hrun|]. rewrite Hrun. unfold parse_and_queue.
  destruct (parse_payload (body request)) as [[|e events]|]; simpl;
    apply lookup_insert_eq.
Qed.

(** X6: a signature with a character outside ASCII is not answered 401:
    the exception of the comparison escapes the endpoint, after the
    signature check and before anything is parsed. *)
Theorem non_ascii_signature_escapes (request : Request) (st : hooks W)
    (signature secret : str) (key : bytes) :
  truthy_opt (x_hook_secret request) = false →
  x_hook_signature request = Some signature →
  is_ascii signature = false →
  webhook_secrets st !! default_key = Some secret →
  truthy secret = true →
  utf8_encode secret = Some key →
  resp (asana_webhook request st) = InternalError
  ∧ background_tasks (asana_webhook request st) = []
  ∧ after (asana_webhook request st) = st.
Proof.
  intros Hnone Hsig Hascii Hstored Hsecret Hkey.
  assert (Htruthy : truthy signature = true).
  { destruct signature; [discriminate Hascii | done]. }
  unfold asana_webhook. rewrite Hnone, Hsig. simpl.
  rewrite Htruthy, Hstored. simpl. rewrite Hsecret. simpl.
  assert (Hv : verify_webhook_signature (body request) signature secret
               = TypeError).
  { unfold verify_webhook_signature, compare_digest.
    by rewrite Hkey, Hascii, andb_false_r. }
  rewrite Hv. simpl. rewrite ?Hsecret. simpl. by rewrite ?Hv.
Qed.
End SignedDeliveries.

Lemma verify_webhook_signature_raises_witness :
  verify_webhook_signature sample_body [233] (lit "Jefe") = TypeError
  ∧ verify_webhook_signature sample_body (lit "00") [0xD800]
    = UnicodeEncodeError.
Proof.
  split.
  - apply (verify_webhook_signature_raises sample_body [233] (lit "Jefe"));
      [discriminate | reflexivity].
  - apply (verify_webhook_signature_raises sample_body (lit "00") [0xD800]).
    reflexivity.
Defined.

Lemma handshake_stores_secret_witness :
  resp (@asana_webhook unit sample_endpoint handshake_request (fresh_hooks tt))
  = HandshakeEcho (lit "Jefe")
  ∧ resp (@asana_webhook unit sample_endpoint
            (signed_request (hexdigest (hmac_sha256 (lit "Jefe") sample_body)))
            (after (@asana_webhook unit sample_endpoint handshake_request
                      (fresh_hooks tt))))
    = Queued 1.
Proof.
  destruct (@handshake_stores_secret unit sample_endpoint handshake_request
              (fresh_hooks tt) (lit "Jefe") eq_refl eq_refl)
    as (Hresp & _ & _ & _ & _ & _ & Hnext).
  split; [exact Hresp|].
  rewrite (Hnext (signed_request (hexdigest (hmac_sha256 (lit "Jefe") sample_body)))
             (lit "Jefe") eq_refl eq_refl eq_refl).
  reflexivity.
Defined.

Lemma unverified_delivery_is_refused_witness :
  resp (@asana_webhook unit sample_endpoint (signed_request (lit "00"))
          (fresh_hooks tt))
  = HTTPException 401 (lit "No webhook secret configured")
  ∧ resp (@asana_webhook unit sample_endpoint (signed_request (lit "00"))
            (with_secret (fresh_hooks tt) (lit "Jefe")))
    = HTTPException 401 (lit "Invalid signature").
Proof.
  split.
  - destruct (@unverified_delivery_is_refused unit sample_endpoint
                (signed_request (lit "00")) (fresh_hooks tt) (lit "00")
                eq_refl eq_refl eq_refl) as [Hcold _].
    apply Hcold; reflexivity.
  - destruct (@unverified_delivery_is_refused unit sample_endpoint
                (signed_request (lit "00"))
                (with_secret (fresh_hooks tt) (lit "Jefe")) (lit "00")
                eq_refl eq_refl eq_refl) as [_ Hbad].
    apply (Hbad (lit "Jefe") (lit "Jefe") eq_refl eq_refl eq_refl eq_refl).
    intros Heq.
    pose proof (hexdigest_hmac_length (lit "Jefe")
                  (body (signed_request (lit "00")))) as Hlen.
    rewrite <- Heq in Hlen. discriminate Hlen.
Defined.

Lemma secret_is_loaded_from_settings_witness :
  webhook_secrets
    (after (@asana_webhook unit (stored_endpoint (lit "Jefe"))
              (signed_request (hexdigest (hmac_sha256 (lit "Jefe") sample_body)))
              (fresh_hooks tt))) !! default_key
  = Some (lit "Jefe").
Proof.
  apply (@secret_is_loaded_from_settings unit (stored_endpoint (lit "Jefe"))
           (signed_request (hexdigest (hmac_sha256 (lit "Jefe") sample_body)))
           (fresh_hooks tt) (lit "Jefe") (lit "Jefe")); reflexivity.
Defined.

Lemma non_ascii_signature_escapes_witness :
  resp (@asana_webhook unit sample_endpoint (signed_request [233])
          (with_secret (fresh_hooks tt) (lit "Jefe")))
  = InternalError.
Proof.
  apply (@non_ascii_signature_escapes unit sample_endpoint
           (signed_request [233]) (with_secret (fresh_hooks tt) (lit "Jefe"))
           [233] (lit "Jefe") (lit "Jefe")); reflexivity.
Defined.

(** ** Event dispatch *)

Section DispatchMore.
Context {W : Type} `{SetPop} `{Reconcilers W}.

Lemma event_ignored (event : WebhookEvent) (st : hooks W) :
  match event_key event with
  | Some k => k ∈ _processed_events st
  | None => True
  end →
  process_webhook_event_safe event st = st.
Proof.
  unfold event_key, process_webhook_event_safe, process_webhook_event,
    process_task_event, process_story_event, str_eqb.
  destruct (bool_decide (resource_type (resource event) = Some (lit "task")));
    simpl.
  - destruct (bool_decide (action event = lit "changed")); simpl; [|done].
    intros Hin. by rewrite (bool_decide_eq_true_2 _ Hin).
  - destruct (bool_decide (resource_type (resource event) = Some (lit "story")));
      [|done].
    destruct (bool_decide (action event = lit "added")); simpl; [|done].
    intros Hin. by rewrite (bool_decide_eq_true_2 _ Hin).
Qed.

Lemma event_fresh (event : WebhookEvent) (st : hooks W) (k : str) :
  event_key event = Some k →
  k ∉ _processed_events st →
  (size (_processed_events st) < _MAX_PROCESSED_EVENTS)%nat
  ∨ resource_type (resource event) ≠ Some (lit "task") →
  _processed_events (process_webhook_event_safe event st)
  = _processed_events st ∪ {[k]}
  ∧ invocations (process_webhook_event_safe event st)
    = invocations st ++ [event_call event].
Proof.
  unfold event_key, event_call, process_webhook_event_safe,
    process_webhook_event, process_task_event, process_story_event, str_eqb.
  destruct (bool_decide (resource_type (resource event) = Some (lit "task")))
    eqn:Hty; simpl.
  - apply bool_decide_eq_true in Hty.
    destruct (bool_decide (action event = lit "changed")); simpl; [|done].
    intros [= <-] Hnew [Hsz|Hno]; [|done].
    rewrite (bool_decide_eq_false_2 _ Hnew).
    assert (Hadd : size (_processed_events st ∪ {[task_dedup_key event]})
                   = S (size (_processed_events st))).
    { rewrite size_union by set_solver. rewrite size_singleton. lia. }
    rewrite Hadd.
    destruct (Nat.ltb_spec _MAX_PROCESSED_EVENTS
                (S (size (_processed_events st)))); [lia|].
    by rewrite invoke_events, invoke_invocations.
  - destruct (bool_decide (resource_type (resource event) = Some (lit "story")));
      [|done].
    destruct (bool_decide (action event = lit "added")); simpl; [|done].
    intros [= <-] Hnew _.
    rewrite (bool_decide_eq_false_2 _ Hnew).
    rewrite invoke_events, invoke_invocations. simpl.
    by destruct (parent event).
Qed.

Lemma run_background_once (events : list WebhookEvent) (st : hooks W) :
  (size (_processed_events st ∪ event_keys events) ≤ _MAX_PROCESSED_EVENTS)%nat
  ∨ Forall (fun e => resource_type (resource e) ≠ Some (lit "task")) events →
  _processed_events (run_background events st)
  = _processed_events st ∪ event_keys events
  ∧ (length (invocations (run_background events st))
     + size (_processed_events st)
     = length (invocations st)
       + size (_processed_events (run_background events st)))%nat.
Proof.
  revert st. induction events as [|e events IH]; intros st Hcase.
  - simpl. split; [|done]. unfold event_keys. simpl. set_solver.
  - change (run_background (e :: events) st)
      with (run_background events (process_webhook_event_safe e st)).
    unfold event_keys in *. simpl in Hcase. simpl.
    destruct (event_key e) as [k|] eqn:Hk.
    + destruct (decide (k ∈ _processed_events st)) as [Hin|Hnew].
      * rewrite (event_ignored e st) by (by rewrite Hk).
        destruct (IH st) as [Hev Hcount].
        { destruct Hcase as [Hsz|Hall]; [left | right; by inversion Hall].
          etrans; [|exact Hsz]. apply subseteq_size. simpl. set_solver. }
        split; [|exact Hcount]. rewrite Hev. simpl. set_solver.
      * destruct (event_fresh e st k Hk Hnew) as [Hev1 Hinv1].
        { destruct Hcase as [Hsz|Hall]; [left | right; by inversion Hall].
          assert (Hadd : size (_processed_events st ∪ {[k]})
                         = S (size (_processed_events st))).
          { rewrite size_union by set_solver. rewrite size_singleton. lia. }
          assert (size (_processed_events st ∪ {[k]})
                  ≤ _MAX_PROCESSED_EVENTS)%nat.
          { etrans; [|exact Hsz]. apply subseteq_size. set_solver. }
          lia. }
        destruct (IH (process_webhook_event_safe e st)) as [Hev Hcount].
        { destruct Hcase as [Hsz|Hall]; [left | right; by inversion Hall].
          rewrite Hev1. etrans; [|exact Hsz].
          apply subseteq_size. simpl. set_solver. }
        rewrite Hev1 in Hev, Hcount. rewrite Hinv1 in Hcount.
        rewrite length_app in Hcount. simpl in Hcount.
        rewrite size_union in Hcount by set_solver.
        rewrite size_singleton in Hcount.
        split; [rewrite Hev; simpl; set_solver | lia].
    + rewrite (event_ignored e st) by (by rewrite Hk).
      apply IH. destruct Hcase as [Hsz|Hall]; [by left | right; by inversion Hall].
Qed.

(** X7: events the module has no use for leave no trace: an event that
    is neither a task nor a story event, a task event whose action is not
    [changed], a story event whose action is not [added], and an event
    whose key is already in the processed-events set all leave the state
    as it was; no reconciler runs and no key is recorded. *)
Theorem unrelated_events_are_ignored (event : WebhookEvent) (st : hooks W) :
  (resource_type (resource event) ≠ Some (lit "task")
   ∧ resource_type (resource event) ≠ Some (lit "story"))
  ∨ (resource_type (resource event) = Some (lit "task")
     ∧ (action event ≠ lit "changed"
        ∨ task_dedup_key event ∈ _processed_events st))
  ∨ (resource_type (resource event) = Some (lit "story")
     ∧ (action event ≠ lit "added"
        ∨ story_dedup_key event ∈ _processed_events st)) →
  process_webhook_event_safe event st = st.
Proof.
  intros Hcase. apply event_ignored. unfold event_key.
  destruct Hcase as [[Hnt Hns]|[[Hty Hc]|[Hty Hc]]].
  - by rewrite !bool_decide_eq_false_2.
  - rewrite (bool_decide_eq_true_2 _ Hty). destruct Hc as [Hact|Hin].
    + by rewrite (bool_decide_eq_false_2 _ Hact).
    + by case_bool_decide.
  - rewrite bool_decide_eq_false_2 by (rewrite Hty; discriminate).
    rewrite (bool_decide_eq_true_2 _ Hty). destruct Hc as [Hact|Hin].
    + by rewrite (bool_decide_eq_false_2 _ Hact).
    + by case_bool_decide.
Qed.

(** X8: a changed-task event whose key is new always reaches the
    reconciler, once, and no exception escapes the cleanup, whatever the
    size of the processed-events set (also above the maximum).  The set
    left behind holds at most the maximum: the old keys and the new one
    when the set was below the maximum, and 900 of them otherwise. *)
Theorem fresh_task_event_is_dispatched (event : WebhookEvent) (st : hooks W) :
  resource_type (resource event) = Some (lit "task") →
  action event = lit "changed" →
  task_dedup_key event ∉ _processed_events st →
  ∃ st', process_webhook_event event st = Completed st'
    ∧ invocations st'
      = invocations st ++ [TaskAssignment (gid (resource event))]
    ∧ _processed_events st'
      ⊆ _processed_events st ∪ {[task_dedup_key event]}
    ∧ (size (_processed_events st') ≤ _MAX_PROCESSED_EVENTS)%nat
    ∧ ((size (_processed_events st) < _MAX_PROCESSED_EVENTS)%nat →
       _processed_events st'
       = _processed_events st ∪ {[task_dedup_key event]})
    ∧ ((_MAX_PROCESSED_EVENTS ≤ size (_processed_events st))%nat →
       size (_processed_events st') = keep_after_cleanup).
Proof.
  intros Hty Hact Hnew. unfold process_webhook_event, process_task_event.
  rewrite (bool_decide_eq_true_2 _ Hty). unfold str_eqb.
  rewrite (bool_decide_eq_true_2 _ Hact). simpl.
  rewrite (bool_decide_eq_false_2 _ Hnew).
  set (added := _processed_events st ∪ {[task_dedup_key event]}).
  assert (Hadd : size added = S (size (_processed_events st))).
  { unfold added. rewrite size_union by set_solver.
    rewrite size_singleton. lia. }
  destruct (_MAX_PROCESSED_EVENTS <? size added)%nat eqn:Hbig.
  - apply Nat.ltb_lt in Hbig.
    destruct (pop_times_size (size added - keep_after_cleanup) added)
      as (s' & -> & Hsz & Hsub).
    { unfold keep_after_cleanup. lia. }
    eexists. split; [reflexivity|].
    rewrite invoke_events, invoke_invocations. simpl.
    unfold _MAX_PROCESSED_EVENTS, keep_after_cleanup in *.
    split; [done|]. split; [done|]. split; [lia|]. split; [lia|].
    intros _. lia.
  - apply Nat.ltb_ge in Hbig.
    eexists. split; [reflexivity|].
    rewrite invoke_events, invoke_invocations. simpl.
    unfold _MAX_PROCESSED_EVENTS in *.
    split; [done|]. split; [done|]. split; [lia|]. split; [done|]. lia.
Qed.

(** X9: story events are processed exactly once each, however many
    arrive and however they repeat: after any sequence of events none of
    which is a task event, the processed-events set has grown by the keys
    of the added stories, and the reconciler has run as many times as
    keys were added. *)
Theorem story_events_are_processed_once
    (events : list WebhookEvent) (st : hooks W) :
  Forall (fun e => resource_type (resource e) ≠ Some (lit "task")) events →
  _processed_events (run_background events st)
  = _processed_events st ∪ event_keys events
  ∧ (length (invocations (run_background events st))
     + size (_processed_events st)
     = length (invocations st)
       + size (_processed_events (run_background events st)))%nat.
Proof. intros Hall. apply run_background_once. by right. Qed.

(** X10: as long as the processed-events set stays within the maximum,
    every event is processed exactly once, task events included: after a
    sequence of events whose keys fit in the set, the set has grown by
    those keys and the reconcilers have run as many times as keys were
    added. *)
Theorem events_within_capacity_are_processed_once
    (events : list WebhookEvent) (st : hooks W) :
  (size (_processed_events st ∪ event_keys events)
   ≤ _MAX_PROCESSED_EVENTS)%nat →
  _processed_events (run_background events st)
  = _processed_events st ∪ event_keys events
  ∧ (length (invocations (run_background events st))
     + size (_processed_events st)
     = length (invocations st)
       + size (_processed_events (run_background events st)))%nat.
Proof. intros Hsz. apply run_background_once. by left. Qed.
End DispatchMore.

Lemma unrelated_events_are_ignored_witness :
  @process_webhook_event_safe unit (evicts_first []) idle_reconcilers
    task_changed
    (with_events (fresh_hooks tt) {[task_dedup_key task_changed]})
  = with_events (fresh_hooks tt) {[task_dedup_key task_changed]}.
Proof.
  apply (@unrelated_events_are_ignored unit (evicts_first []) idle_reconcilers).
  right. left. split; [reflexivity|]. right. simpl. set_solver.
Defined.

Lemma fresh_task_event_is_dispatched_witness :
  ∃ st', @process_webhook_event unit (evicts_first []) idle_reconcilers
           task_changed (fresh_hooks tt) = Completed st'
    ∧ invocations st' = [TaskAssignment (lit "1200000000000001")].
Proof.
  destruct (@fresh_task_event_is_dispatched unit (evicts_first [])
              idle_reconcilers task_changed (fresh_hooks tt)
              eq_refl eq_refl (not_elem_of_empty _))
    as (st' & Hrun & Hinv & _).
  exists st'. split; [exact Hrun | exact Hinv].
Defined.

Lemma story_events_are_processed_once_witness :
  (length (invocations
             (@run_background unit (evicts_first []) idle_reconcilers
                [story_added 1; story_added 2; story_added 1] (fresh_hooks tt)))
   + size (_processed_events (fresh_hooks tt))
   = length (invocations (fresh_hooks tt))
     + size (_processed_events
               (@run_background unit (evicts_first []) idle_reconcilers
                  [story_added 1; story_added 2; story_added 1]
                  (fresh_hooks tt))))%nat.
Proof.
  apply (@story_events_are_processed_once unit (evicts_first [])
           idle_reconcilers).
  repeat constructor; intros Heq; vm_compute in Heq; discriminate Heq.
Defined.

Lemma events_within_capacity_are_processed_once_witness :
  _processed_events
    (@run_background unit (evicts_first []) idle_reconcilers
       [task_changed; story_added 1; task_changed] (fresh_hooks tt))
  = _processed_events (fresh_hooks tt)
    ∪ event_keys [task_changed; story_added 1; task_changed].
Proof.
  apply (@events_within_capacity_are_processed_once unit (evicts_first [])
           idle_reconcilers).
  etrans; [apply subseteq_size with (Y := {[task_dedup_key task_changed;
                                            story_dedup_key (story_added 1)]})|].
  - vm_compute event_keys. set_solver.
  - rewrite size_union_alt, !size_singleton.
    etrans; [apply Nat.add_le_mono_l, subseteq_size, subseteq_difference_l;
             reflexivity|].
    rewrite size_singleton. unfold _MAX_PROCESSED_EVENTS. lia.
Defined.

(** ** The status of the webhook *)

Section StatusFacts.
Context {W : Type} `{SetPop} `{Reconcilers W} `{Endpoint W}.

Lemma invoke_secrets (c : call) (st : hooks W) :
  webhook_secrets (invoke c st) = webhook_secrets st.
Proof.
  unfold invoke.
  destruct (match c with
            | TaskAssignment t => run_task_assignment t (world st)
            | StoryMention s p => run_story_mention s p (world st)
            end) as [[o|] w]; reflexivity.
Qed.

Lemma process_webhook_event_secrets (event : WebhookEvent) (st : hooks W) :
  webhook_secrets (state_of (process_webhook_event event st))
  = webhook_secrets st.
Proof.
  unfold process_webhook_event, process_task_event, process_story_event.
  destruct (bool_decide (resource_type (resource event) = Some (lit "task")));
    simpl.
  - destruct (negb (str_eqb (action event) (lit "changed"))); [done|].
    destruct (bool_decide (task_dedup_key event ∈ _processed_events st));
      [done|].
    destruct (if (_MAX_PROCESSED_EVENTS
                  <? size (_processed_events st ∪ {[task_dedup_key event]}))%nat
              then _ else _) as [s|]; simpl; by rewrite ?invoke_secrets.
  - destruct (bool_decide (resource_type (resource event) = Some (lit "story")));
      [|done].
    destruct (negb (str_eqb (action event) (lit "added"))); [done|].
    destruct (bool_decide (story_dedup_key event ∈ _processed_events st));
      [done|].
    simpl. by rewrite invoke_secrets.
Qed.

Lemma process_webhook_event_safe_secrets (event : WebhookEvent) (st : hooks W) :
  webhook_secrets (process_webhook_event_safe event st) = webhook_secrets st.
Proof.
  unfold process_webhook_event_safe.
  pose proof (process_webhook_event_secrets event st) as Hs.
  by destruct (process_webhook_event event st).
Qed.

Lemma run_background_secrets (events : list WebhookEvent) (st : hooks W) :
  webhook_secrets (run_background events st) = webhook_secrets st.
Proof.
  revert st. induction events as [|e events IH]; intros st; [done|].
  change (run_background (e :: events) st)
    with (run_background events (process_webhook_event_safe e st)).
  by rewrite IH, process_webhook_event_safe_secrets.
Qed.

Lemma asana_webhook_secrets (request : Request) (st : hooks W) :
  webhook_secrets (after (asana_webhook request st)) = webhook_secrets st
  ∨ ∃ secret, webhook_secrets (after (asana_webhook request st))
              = <[default_key := secret]> (webhook_secrets st).
Proof.
  unfold asana_webhook, parse_and_queue.
  repeat (case_match; simpl; try (by left); try (by right; eauto));
    simplify_eq; simpl; try (by left); try (by right; eauto).
Qed.

(** X11: the secrets table only ever holds the entry ['default']: from
    a state whose table holds no other key, whatever requests are served,
    handshakes and deliveries, [webhook_status] reports at most one
    configured secret. *)
Theorem at_most_one_secret (requests : list Request) (st : hooks W) :
  dom (webhook_secrets st) ⊆ {[default_key]} →
  dom (webhook_secrets (fold_left serve requests st)) ⊆ {[default_key]}
  ∧ (configured_secrets (webhook_status (fold_left serve requests st)) ≤ 1)%nat.
Proof.
  revert st. induction requests as [|r requests IH]; intros st Hdom.
  - split; [exact Hdom|]. simpl. rewrite <- size_dom.
    etrans; [apply subseteq_size, Hdom|]. by rewrite size_singleton.
  - simpl. apply IH. unfold serve. rewrite run_background_secrets.
    destruct (asana_webhook_secrets r st) as [->|[secret ->]]; [done|].
    rewrite dom_insert_L. set_solver.
Qed.
End StatusFacts.

Lemma at_most_one_secret_witness :
  (configured_secrets
     (webhook_status
        (fold_left (@serve unit (evicts_first []) idle_reconcilers
                      sample_endpoint)
           [handshake_request; unsigned_request; handshake_request]
           (fresh_hooks tt))) ≤ 1)%nat.
Proof.
  apply (@at_most_one_secret unit (evicts_first []) idle_reconcilers
           sample_endpoint).
  simpl. set_solver.
Defined.

(** ** The task-to-conversation mapping *)

(** X12: what [set_conversation_for_task] stores, [get_conversation_for_task]
    finds: with a writable store and a live conversation, the lookup that
    follows returns the conversation and changes nothing, and the entries
    of the other tasks are as before. *)
Theorem mapping_round_trip (task_gid c : str) (w : World) (session : Session) :
  store_writable w = true →
  truthy c = true →
  sessions w !! c = Some session →
  get_conversation_for_task task_gid (snd (set_conversation_for_task task_gid c w))
  = (Some c, snd (set_conversation_for_task task_gid c w))
  ∧ (∀ other, other ≠ task_gid →
       fst (get_task_conversation_mapping
              (snd (set_conversation_for_task task_gid c w))) !! other
       = fst (get_task_conversation_mapping w) !! other).
Proof.
  intros Hstore Htruthy Hsession.
  assert (Hset : snd (set_conversation_for_task task_gid c w)
                 = set_mapping_file
                     (Some (<[task_gid := c]>
                              (fst (get_task_conversation_mapping w)))) w).
  { cbv [set_conversation_for_task bind get_task_conversation_mapping gets
         save_task_conversation_mapping modify].
    cbn [fst snd]. by rewrite Hstore. }
  rewrite Hset. split.
  - cbv [get_conversation_for_task bind get_task_conversation_mapping gets
         get_agent_session ret].
    cbn [mapping_file set_mapping_file sessions fst snd].
    rewrite lookup_insert_eq, Htruthy. cbn [sessions set_mapping_file].
    by rewrite Hsession.
  - intros other Hother.
    cbv [get_task_conversation_mapping gets].
    cbn [mapping_file set_mapping_file fst].
    by rewrite lookup_insert_ne.
Qed.

Lemma mapping_round_trip_witness :
  fst (get_conversation_for_task sample_task_gid
         (snd (set_conversation_for_task sample_task_gid sample_conversation
                 (unsubscribed quiet_session))))
  = Some sample_conversation.
Proof.
  destruct (mapping_round_trip sample_task_gid sample_conversation
              (unsubscribed quiet_session) quiet_session
              eq_refl eq_refl eq_refl) as [Hget _].
  by rewrite Hget.
Defined.

(** X13: a mapping whose conversation is gone is dropped on lookup:
    [get_conversation_for_task] returns [None]; with a writable store the
    entry of the task is deleted from the file, the other entries stay,
    and looking up again changes nothing more; with a store that cannot
    be written the file is left as it was. *)
Theorem stale_mapping_is_dropped (task_gid c : str) (w : World)
    (m : gmap str str) :
  mapping_file w = Some m →
  m !! task_gid = Some c →
  truthy c = true →
  sessions w !! c = None →
  fst (get_conversation_for_task task_gid w) = None
  ∧ (store_writable w = true →
     snd (get_conversation_for_task task_gid w)
     = set_mapping_file (Some (delete task_gid m)) w
     ∧ get_conversation_for_task task_gid
         (snd (get_conversation_for_task task_gid w))
       = (None, snd (get_conversation_for_task task_gid w)))
  ∧ (store_writable w = false →
     mapping_file (snd (get_conversation_for_task task_gid w)) = Some m).
Proof.
  intros Hfile Hmap Htruthy Hgone.
  cbv [get_conversation_for_task bind get_task_conversation_mapping gets
       get_agent_session ret save_task_conversation_mapping modify logger].
  cbn [fst snd]. rewrite Hfile, Hmap, Htruthy, Hgone.
  destruct (store_writable w) eqn:Hstore; cbn [fst snd].
  - split; [done|]. split; [|done]. intros _. split; [done|].
    cbn [mapping_file set_mapping_file]. by rewrite lookup_delete_eq.
  - split; [done|]. split; [done|]. intros _. simpl. exact Hfile.
Qed.

Lemma stale_mapping_is_dropped_witness :
  fst (get_conversation_for_task sample_task_gid
         (set_sessions ∅ mapped_workspace)) = None
  ∧ mapping_file (snd (get_conversation_for_task sample_task_gid
                         (set_sessions ∅ mapped_workspace)))
    = Some (delete sample_task_gid {[sample_task_gid := sample_conversation]}).
Proof.
  destruct (stale_mapping_is_dropped sample_task_gid sample_conversation
              (set_sessions ∅ mapped_workspace)
              {[sample_task_gid := sample_conversation]}
              eq_refl (lookup_singleton_eq _ _) eq_refl (lookup_empty _))
    as (Hnone & Hdrop & _).
  split; [exact Hnone|]. destruct (Hdrop eq_refl) as [-> _]. reflexivity.
Defined.

(** ** The listener callback *)

Section CallbackMore.
Context `{Converters}.

Lemma callback_silent (self : nat) (e : Event) (w : World) :
  terminal_value e = None
  ∨ (∃ l, listeners w !! self = Some l ∧ _reported l = true) →
  untouched w (snd (callback self e w)).
Proof.
  intros Hcase. unfold callback, terminal_value in *.
  destruct e as [value| | |]; try (by repeat split).
  destruct (AgentState_of value) as [a|]; [|by repeat split].
  destruct (is_terminal a); [|by repeat split].
  destruct Hcase as [Hnone|(l & Hl & Hrep)]; [discriminate Hnone|].
  simpl. rewrite bind_run. cbv [gets]. cbn [fst snd].
  rewrite Hl, Hrep. by repeat split.
Qed.

Lemma callback_fires (self : nat) (e : Event) (w : World) (a : AgentState)
    (l : AsanaConversationListener) (session : Session) (stream : list Event) :
  terminal_value e = Some a →
  listeners w !! self = Some l →
  _reported l = false →
  sessions w !! conversation_id l = Some session →
  event_stream session = Some stream →
  comments_accepted w = true →
  comments (snd (callback self e w))
  = comments w ++ [result_comment l stream a (metrics_text w)]
  ∧ listeners (snd (callback self e w))
    = <[self := set_reported true l]> (listeners w)
  ∧ sessions (snd (callback self e w)) = sessions w
  ∧ comments_accepted (snd (callback self e w)) = true
  ∧ metrics_text (snd (callback self e w)) = metrics_text w.
Proof.
  intros Hterm Hl Hrep Hsession Hstream Hacc.
  unfold callback, terminal_value in *.
  destruct e as [value| | |]; try discriminate Hterm.
  destruct (AgentState_of value) as [a'|]; [|discriminate Hterm].
  destruct (is_terminal a') eqn:Ha; [|discriminate Hterm].
  injection Hterm as ->. simpl.
  assert (Hl' : <[self := set_reported true l]> (listeners w) !! self
                = Some (set_reported true l)).
  { apply list_lookup_insert_eq. by apply lookup_lt_Some in Hl. }
  rewrite bind_run. cbv [gets]. cbn [fst snd]. rewrite Hl, Hrep.
  rewrite bind_run. cbv beta.
  assert (Hw1 : snd (update_listener self (set_reported true) w)
                = set_listeners (<[self := set_reported true l]> (listeners w)) w).
  { unfold update_listener, modify. cbn [snd]. by rewrite Hl. }
  rewrite Hw1. unfold _report_to_asana.
  rewrite bind_run. cbv [gets]. cbn [fst snd listeners set_listeners].
  rewrite Hl'. rewrite bind_run. cbn [fst snd].
  cbn [conversation_id set_reported sessions set_listeners].
  rewrite Hsession, Hstream.
  cbv [bind report_result gets add_comment modify ret logger].
  cbn [fst snd comments_accepted set_listeners]. rewrite Hacc.
  cbn. done.
Qed.

Lemma callbacks_silent (self : nat) (events : list Event) (w : World) :
  Forall (fun e => terminal_value e = None) events
  ∨ (∃ l, listeners w !! self = Some l ∧ _reported l = true) →
  untouched w (snd (for_each events (callback self) w)).
Proof.
  revert w. induction events as [|e events IH]; intros w Hcase.
  - by repeat split.
  - cbn [for_each]. rewrite bind_run.
    assert (He : untouched w (snd (callback self e w))).
    { apply callback_silent.
      destruct Hcase as [Hall|Hl]; [left; by inversion Hall | by right]. }
    destruct He as (Hc & Hls & Hs & Ha & Hm).
    destruct (IH (snd (callback self e w))) as (Hc' & Hls' & Hs' & Ha' & Hm').
    { destruct Hcase as [Hall|Hl]; [left; by inversion Hall | right].
      by rewrite Hls. }
    repeat split; congruence.
Qed.

(** X14: the first terminal state that reaches an armed listener is
    reported, and nothing else is: of a sequence of events handed to the
    callback, the events before the first terminal state post nothing,
    that state posts one comment on the listener's task, made of the
    conversation's events by [format_agent_result], and raises the flag,
    and whatever follows, terminal or not, posts nothing more. *)
Theorem first_terminal_state_is_reported_once
    (self : nat) (before after : list Event) (e : Event) (w : World)
    (a : AgentState) (l : AsanaConversationListener) (session : Session)
    (stream : list Event) :
  Forall (fun e' => terminal_value e' = None) before →
  terminal_value e = Some a →
  listeners w !! self = Some l →
  _reported l = false →
  sessions w !! conversation_id l = Some session →
  event_stream session = Some stream →
  comments_accepted w = true →
  comments (snd (for_each (before ++ e :: after) (callback self) w))
  = comments w ++ [result_comment l stream a (metrics_text w)]
  ∧ listeners (snd (for_each (before ++ e :: after) (callback self) w))
    = <[self := set_reported true l]> (listeners w).
Proof.
  intros Hquiet Hterm Hl Hrep Hsession Hstream Hacc.
  assert (Happ : ∀ (xs ys : list Event) (w0 : World),
            snd (for_each (xs ++ ys) (callback self) w0)
            = snd (for_each ys (callback self)
                     (snd (for_each xs (callback self) w0)))).
  { induction xs as [|x xs IH]; intros ys w0; [done|].
    cbn [app for_each]. rewrite !bind_run. apply IH. }
  rewrite Happ. cbn [for_each]. rewrite bind_run.
  set (w1 := snd (for_each before (callback self) w)).
  destruct (callbacks_silent self before w (or_introl Hquiet))
    as (Hc1 & Hls1 & Hs1 & Ha1 & Hm1). fold w1 in Hc1, Hls1, Hs1, Ha1, Hm1.
  destruct (callback_fires self e w1 a l session stream)
    as (Hc2 & Hls2 & Hs2 & Ha2 & Hm2); try congruence.
  set (w2 := snd (callback self e w1)) in *.
  destruct (callbacks_silent self after w2) as (Hc3 & Hls3 & _).
  { right. exists (set_reported true l). split; [|done].
    rewrite Hls2, Hls1. apply list_lookup_insert_eq.
    by apply lookup_lt_Some in Hl. }
  rewrite Hc3, Hls3, Hc2, Hls2, Hc1, Hls1, Hm1. done.
Qed.
End CallbackMore.

Lemma first_terminal_state_is_reported_once_witness :
  length (comments
            (snd (for_each
                    ([AgentStateChangedObservation (lit "running")]
                     ++ AgentStateChangedObservation (lit "finished")
                        :: [AgentStateChangedObservation (lit "finished")])
                    (@callback plain_converters 0) armed_workspace)))
  = 1%nat.
Proof.
  edestruct (@first_terminal_state_is_reported_once plain_converters 0
               [AgentStateChangedObservation (lit "running")]
               [AgentStateChangedObservation (lit "finished")]
               (AgentStateChangedObservation (lit "finished"))
               armed_workspace) as [Hc _].
  - repeat constructor.
  - reflexivity.
  - reflexivity.
  - reflexivity.
  - reflexivity.
  - reflexivity.
  - reflexivity.
  - rewrite Hc. reflexivity.
Defined.

(** ** Follow-up messages *)

Section FollowUp.
Context `{Converters}.

(** What a follow-up does to a conversation that has a listener. *)
Lemma send_message_with_listener
    (c message : str) (t k ws g : option str) (w : World) (self : nat)
    (l : AsanaConversationListener) (session : Session) (stream : list Event) :
  sessions w !! c = Some session →
  event_stream session = Some stream →
  _active_listeners w !! c = Some self →
  listeners w !! self = Some l →
  send_message_to_conversation c message t k ws g w
  = (true,
     set_sessions
       (<[c := append_event (MessageAction message (Some USER)) session]>
          (sessions w))
       (set_listeners
          (<[self := set_start_time (clock w) (set_reported false l)]>
             (listeners w)) w)).
Proof.
  intros Hsession Hstream Hactive Hl.
  assert (Hlen : (self < length (listeners w))%nat)
    by by apply lookup_lt_Some in Hl.
  set (l2 := set_start_time (clock w) (set_reported false l)).
  set (w2 := set_listeners (<[self := l2]> (listeners w)) w).
  unfold send_message_to_conversation.
  rewrite bind_run. cbv [get_agent_session gets]. cbn [fst snd].
  rewrite Hsession. rewrite bind_run. cbn [fst snd]. rewrite Hactive.
  rewrite bind_run.
  assert (Hstep : bind (λ w0 : World, (clock w0, w0))
                    (λ now, bind (update_listener self (set_reported false))
                              (λ _, update_listener self (set_start_time now)))
                    w = (tt, w2)).
  { cbv [bind update_listener modify]. rewrite Hl.
    cbn [listeners set_listeners].
    rewrite list_lookup_insert_eq by done.
    unfold w2, l2. cbn [clock set_listeners].
    by rewrite list_insert_insert_eq. }
  rewrite Hstep. cbn [fst snd]. rewrite bind_run. cbn [fst snd].
  cbn [sessions w2 set_listeners]. rewrite Hsession. cbn [mbind option_bind].
  rewrite Hstream.
  cbv [bind update_session modify ret]. cbn [sessions w2 set_listeners].
  by rewrite Hsession.
Qed.

(** X15: a follow-up message to a conversation that has a listener
    re-arms it: the message joins the event stream as a user message, no
    comment is posted, the listener's flag is lowered and its clock
    restarted; the next terminal state that reaches the callback is
    therefore reported, with the follow-up among the events of the
    report. *)
Theorem follow_up_rearms_listener
    (c message : str) (t k ws g : option str) (w : World) (self : nat)
    (l : AsanaConversationListener) (session : Session) (stream : list Event) :
  sessions w !! c = Some session →
  event_stream session = Some stream →
  _active_listeners w !! c = Some self →
  listeners w !! self = Some l →
  fst (send_message_to_conversation c message t k ws g w) = true
  ∧ listeners (snd (send_message_to_conversation c message t k ws g w))
    = <[self := set_start_time (clock w) (set_reported false l)]> (listeners w)
  ∧ sessions (snd (send_message_to_conversation c message t k ws g w))
    = <[c := append_event (MessageAction message (Some USER)) session]>
        (sessions w)
  ∧ comments (snd (send_message_to_conversation c message t k ws g w))
    = comments w
  ∧ (∀ (e : Event) (a : AgentState),
       terminal_value e = Some a →
       conversation_id l = c →
       comments_accepted w = true →
       comments (snd (callback self e
                        (snd (send_message_to_conversation c message t k ws g w))))
       = comments w
         ++ [result_comment l (stream ++ [MessageAction message (Some USER)]) a
                            (metrics_text w)]).
Proof.
  intros Hsession Hstream Hactive Hl.
  rewrite (send_message_with_listener c message t k ws g w self l session stream)
    by done.
  cbn [fst snd].
  split; [done|]. split; [done|]. split; [done|]. split; [done|].
  intros e a Hterm Hc Hacc.
  match goal with
  | |- context [callback self e ?w3] =>
      destruct (callback_fires self e w3 a
                  (set_start_time (clock w) (set_reported false l))
                  (append_event (MessageAction message (Some USER)) session)
                  (stream ++ [MessageAction message (Some USER)]))
        as [Hpost _]; try done
  end.
  - cbn. apply list_lookup_insert_eq. by apply lookup_lt_Some in Hl.
  - cbn. rewrite Hc. apply lookup_insert_eq.
  - cbn. by rewrite Hstream.
Qed.
End FollowUp.

Lemma follow_up_rearms_listener_witness :
  fst (@send_message_to_conversation plain_converters sample_conversation
         (lit "And the tests?") (Some sample_task_gid) (Some (lit "0/secret"))
         None (Some agent_gid) armed_workspace) = true.
Proof.
  edestruct (@follow_up_rearms_listener plain_converters sample_conversation
               (lit "And the tests?") (Some sample_task_gid)
               (Some (lit "0/secret")) None (Some agent_gid) armed_workspace 0)
    as [Hsent _].
  - reflexivity.
  - reflexivity.
  - reflexivity.
  - reflexivity.
  - exact Hsent.
Defined.

(** ** The text of a report *)

Section ReportText.
Context `{Converters}.

Lemma last_agent_message_passed_over (post before : list Event) :
  Forall passed_over post →
  last_agent_message (rev post ++ before) = last_agent_message before.
Proof.
  induction post as [|e post IH] using rev_ind; intros Hall; [done|].
  apply Forall_app in Hall as [Hpost He]. inversion He as [|? ? Hp _]; subst.
  rewrite rev_unit. cbn [app last_agent_message].
  destruct e as [value|content [[| |]|]|content|]; simpl in Hp;
    try contradiction; try (by apply IH).
  rewrite Hp. by apply IH.
Qed.

(** X16: the report carries the last message of the agent and nothing
    else of the conversation: whatever comes before that message, and
    whatever comes after it that is not itself an agent message or an
    observation with a content (user messages, state changes), the result
    is the one of the message alone. *)
Theorem report_carries_last_agent_message
    (before after : list Event) (message : str) (a : AgentState)
    (url metrics : str) (g : option str) :
  Forall passed_over after →
  format_agent_result (before ++ MessageAction message (Some AGENT) :: after)
                      a url metrics g
  = format_agent_result [MessageAction message (Some AGENT)] a url metrics g.
Proof.
  intros Hafter. unfold format_agent_result.
  rewrite rev_app_distr. cbn [rev]. rewrite <- app_assoc.
  rewrite last_agent_message_passed_over by done. reflexivity.
Qed.

(** X17: a report has a bounded length: the message part is cut after
    10000 characters, so the result never holds more than 10035
    characters besides the metrics text. *)
Theorem format_agent_result_is_bounded
    (events : list Event) (a : AgentState) (url metrics : str)
    (g : option str) :
  N.of_nat (length (format_agent_result events a url metrics g))
  ≤ 10035 + N.of_nat (length metrics).
Proof.
  unfold format_agent_result.
  set (formatted := markdown_to_asana_html _ _).
  assert (Hcut : N.of_nat (length
            (if 10000 <? N.of_nat (length formatted)
             then take (N.to_nat 10000) formatted
                  ++ lit "..." ++ [newline] ++ lit "<em>(truncated)</em>"
             else formatted)) ≤ 10024).
  { destruct (N.ltb_spec 10000 (N.of_nat (length formatted))) as [Hlong|Hshort].
    - rewrite length_app, length_take.
      change (length (lit "..." ++ [newline] ++ lit "<em>(truncated)</em>"))
        with 24%nat.
      lia.
    - lia. }
  revert Hcut.
  generalize (if 10000 <? N.of_nat (length formatted)
              then take (N.to_nat 10000) formatted
                   ++ lit "..." ++ [newline] ++ lit "<em>(truncated)</em>"
              else formatted).
  intros cut Hcut.
  destruct (truthy_opt (last_agent_message (rev events)));
    destruct (truthy metrics) eqn:Hm; cbn [app concat];
    rewrite ?app_nil_r, ?length_app; cbn [length]; rewrite ?length_app;
    change (length (lit "<em>")) with 4%nat;
    change (length (lit "</em>")) with 5%nat;
    lia.
Qed.
End ReportText.

Lemma report_carries_last_agent_message_witness :
  @format_agent_result plain_converters
    ([MessageAction (lit "Fix the build") (Some USER)]
     ++ MessageAction (lit "The build is green again.") (Some AGENT)
        :: [AgentStateChangedObservation (lit "finished");
            MessageAction (lit "And the tests?") (Some USER)])
    FINISHED [] [] None
  = lit "The build is green again." ++ [newline; newline].
Proof.
  rewrite (@report_carries_last_agent_message plain_converters).
  - reflexivity.
  - repeat constructor.
Defined.

(** ** Clean-up of white space *)

Lemma three_newlines_start (s : str) :
  (3 ≤ leading_newlines s)%nat → starts_with three s = true.
Proof.
  destruct s as [|a [|b [|c s]]]; cbn [leading_newlines].
  - lia.
  - destruct (a =? newline); lia.
  - destruct (a =? newline); [|lia]. destruct (b =? newline); lia.
  - unfold three. cbn [starts_with].
    destruct (a =? newline) eqn:Ha; [|lia].
    destruct (b =? newline) eqn:Hb; [|lia].
    destruct (c =? newline) eqn:Hc; [|lia].
    apply N.eqb_eq in Ha, Hb, Hc. subst. done.
Qed.

Lemma collapse_newlines_id (s : str) :
  contains three s = false → collapse_newlines s = s.
Proof.
  unfold collapse_newlines, re_sub.
  induction s as [|c s IH]; intros Hno; [done|].
  cbn [contains] in Hno. apply orb_false_iff in Hno as [Hstart Hrest].
  cbn [sub_from]. rewrite match_three_newlines.
  destruct (Nat.leb_spec 3 (leading_newlines (c :: s))) as [Hrun|_].
  - apply three_newlines_start in Hrun. congruence.
  - f_equal. by apply IH.
Qed.

Lemma lstrip_id (s : str) :
  match s with [] => True | c :: _ => is_space c = false end → lstrip s = s.
Proof. destruct s as [|c s]; [done|]. simpl. by intros ->. Qed.

Lemma strip_id (s : str) : trimmed s → strip s = s.
Proof.
  intros [Hhead Hlast]. unfold strip, rstrip.
  rewrite (lstrip_id s Hhead), (lstrip_id (rev s) Hlast). apply rev_involutive.
Qed.

(** X18: the clean-up that closes [markdown_to_asana_html],
    [asana_html_to_markdown] and [clean_asana_comment], the newline
    substitution followed by [strip], changes nothing in a text that has
    no three newlines in a row and neither starts nor ends with white
    space; applied to its own result it is therefore the identity. *)
Theorem clean_up_is_idempotent (s : str) :
  (contains three s = false → trimmed s → strip (collapse_newlines s) = s)
  ∧ strip (collapse_newlines (strip (collapse_newlines s)))
    = strip (collapse_newlines s).
Proof.
  assert (Hid : ∀ t, contains three t = false → trimmed t →
                     strip (collapse_newlines t) = t).
  { intros t Hno Htrim. rewrite collapse_newlines_id by done.
    by apply strip_id. }
  split; [apply Hid|]. apply Hid; apply normalised.
Qed.

Section CleanComment.
Context `{UnicodeData}.

(** X19: whatever the comment, the text [clean_asana_comment] hands to
    the agent holds no three newlines in a row and neither starts nor
    ends with white space, and it does not depend on the agent's gid. *)
Theorem cleaned_comment_is_normalised (comment : str) (g : option str) :
  contains three (clean_asana_comment comment g) = false
  ∧ trimmed (clean_asana_comment comment g)
  ∧ clean_asana_comment comment g = clean_asana_comment comment None.
Proof.
  unfold clean_asana_comment. destruct comment as [|c comment].
  - by repeat split.
  - cbn [truthy negb]. split; [apply normalised|].
    split; [apply normalised | done].
Qed.
End CleanComment.

(** ** Texts that do not name the agent *)

(** X20: [sanitize_agent_mentions] leaves a text alone when no agent gid
    is configured, and when the gid, a string of digits, does not occur in
    the text: none of its three substitutions then applies. *)
Theorem text_without_gid_is_untouched (text g : str) :
  sanitize_agent_mentions text None = text
  ∧ sanitize_agent_mentions text (Some []) = text
  ∧ (Forall (fun d => is_digit d = true) g →
     contains g text = false →
     sanitize_agent_mentions text (Some g) = text).
Proof.
  split; [|split].
  - unfold sanitize_agent_mentions. by rewrite orb_true_r.
  - unfold sanitize_agent_mentions. by rewrite orb_true_r.
  - intros Hg Hno. unfold sanitize_agent_mentions.
    destruct (negb (truthy text) || negb (truthy_opt (Some g))); [done|].
    cbn [or_empty].
    destruct (patterns_hold_gid g)
      as ((p1 & q1 & ->) & (p2 & q2 & ->) & (p3 & q3 & ->)).
    rewrite (re_sub_without p1 g q1 _ text) by done.
    rewrite (re_sub_without p2 g q2 _ text) by done.
    by rewrite (re_sub_without p3 g q3 _ text).
Qed.

Lemma text_without_gid_is_untouched_witness :
  sanitize_agent_mentions (lit "See https://example.org/42 for details")
                          (Some agent_gid)
  = lit "See https://example.org/42 for details".
Proof.
  apply (text_without_gid_is_untouched
           (lit "See https://example.org/42 for details") agent_gid).
  - repeat constructor.
  - reflexivity.
Defined.

(** ** The reconciler: assignments *)

Lemma environment_outside (w w' : World) :
  outside_reporting w' = outside_reporting w → environment w' = environment w.
Proof. unfold outside_reporting, environment. intros [=]. congruence. Qed.

Section AssignmentFacts.
Context `{UnicodeData} `{Converters}.

Lemma like_step (g : str) (m : string) (w : World) :
  let w' := snd (bind (like g)
                   (fun liked => if liked then ret tt else logger Warning m) w) in
  environment w' = environment w
  ∧ likes w' = (if likes_accepted w then likes w ++ [g] else likes w)
  ∧ comments w' = comments w ∧ mapping_file w' = mapping_file w
  ∧ sessions w' = sessions w ∧ upcoming w' = upcoming w
  ∧ created w' = created w ∧ listeners w' = listeners w
  ∧ _active_listeners w' = _active_listeners w.
Proof.
  unfold like, bind, gets, modify, ret, logger.
  destruct (likes_accepted w) eqn:Hl; simpl; rewrite ?Hl; by repeat split.
Qed.

Lemma lookup_none_step (task_gid : str) (w : World) :
  (∀ m c, mapping_file w = Some m → m !! task_gid = Some c →
          truthy c = true → sessions w !! c = None) →
  let r := get_conversation_for_task task_gid w in
  fst r = None
  ∧ environment (snd r) = environment w
  ∧ likes (snd r) = likes w ∧ comments (snd r) = comments w
  ∧ sessions (snd r) = sessions w ∧ upcoming (snd r) = upcoming w
  ∧ created (snd r) = created w.
Proof.
  intros Hgone.
  cbv [get_conversation_for_task bind get_task_conversation_mapping gets
       get_agent_session save_task_conversation_mapping modify ret logger].
  destruct (mapping_file w) as [m|] eqn:Hfile.
  - destruct (m !! task_gid) as [c|] eqn:Hc; [|by repeat split].
    destruct (truthy c) eqn:Ht; [|by repeat split].
    rewrite (Hgone m c eq_refl Hc Ht).
    destruct (store_writable w) eqn:Hsw; simpl; by repeat split.
  - rewrite lookup_empty. by repeat split.
Qed.

Lemma lookup_live_step (task_gid c : str) (w : World) (m : gmap str str)
    (session : Session) :
  mapping_file w = Some m → m !! task_gid = Some c → truthy c = true →
  sessions w !! c = Some session →
  get_conversation_for_task task_gid w = (Some c, w).
Proof.
  intros Hfile Hc Ht Hs.
  cbv [get_conversation_for_task bind get_task_conversation_mapping gets
       get_agent_session ret].
  by rewrite Hfile, Hc, Ht, Hs.
Qed.

Lemma create_step
    (message : str) (task_name task_gid token ws g : option str) (w : World) :
  let r := create_asana_conversation message task_name task_gid token ws g w in
  environment (snd r) = environment w
  ∧ likes (snd r) = likes w ∧ mapping_file (snd r) = mapping_file w
  ∧ match upcoming w with
    | Creates c session :: rest =>
        fst r = inl c ∧ upcoming (snd r) = rest
        ∧ created (snd r) = created w ++ [(c, message)]
    | Fails e :: rest =>
        fst r = inr e ∧ snd r = set_upcoming rest w
    | [] => snd r = w
    end.
Proof.
  unfold create_asana_conversation.
  rewrite bind_run. cbv [gets fst snd].
  destruct (upcoming w) as [|[c session|e] rest] eqn:Hup.
  - by repeat split.
  - rewrite !bind_run. cbn [modify fst snd].
    set (w1 := match session with
               | Some s0 => _
               | None => _
               end).
    assert (Hw1 : outside_reporting w1
                  = outside_reporting
                      (set_created (created w ++ [(c, message)])
                                   (set_upcoming rest w))).
    { unfold w1. by destruct session. }
    set (sub := if truthy_opt task_gid && truthy_opt token
                then subscribe_to_conversation_events c (or_empty task_gid)
                       (or_empty token) ws g
                else ret tt).
    assert (Hsub : reports sub).
    { unfold sub. destruct (truthy_opt task_gid && truthy_opt token);
        [apply reports_subscribe | apply reports_ret]. }
    destruct (Hsub w1) as [Hout _]. rewrite Hw1 in Hout.
    cbv [ret fst snd]. pose proof (environment_outside _ _ Hout) as Henv.
    unfold outside_reporting in Hout. injection Hout as ?. simpl in *.
    by repeat split.
  - rewrite !bind_run. cbv [modify ret fst snd]. by repeat split.
Qed.

Lemma set_step (task_gid c : str) (w : World) :
  let w' := snd (set_conversation_for_task task_gid c w) in
  environment w' = environment w
  ∧ likes w' = likes w ∧ comments w' = comments w
  ∧ created w' = created w ∧ upcoming w' = upcoming w
  ∧ sessions w' = sessions w
  ∧ (store_writable w = true →
     ∃ m, mapping_file w' = Some m ∧ m !! task_gid = Some c).
Proof.
  cbv [set_conversation_for_task bind get_task_conversation_mapping gets
       save_task_conversation_mapping modify logger].
  destruct (store_writable w) eqn:Hsw; simpl; repeat split; try done.
  intros _. eexists. split; [reflexivity|]. apply lookup_insert_eq.
Qed.

Lemma assignee_passes (s : AsanaSettings) (task : AsanaTask) :
  (truthy_opt (agent_user_gid s) = true →
   gid <$> assignee task = agent_user_gid s) →
  truthy_opt (agent_user_gid s)
  && negb (bool_decide (gid <$> assignee task = agent_user_gid s)) = false.
Proof.
  intros Hfilter. destruct (truthy_opt (agent_user_gid s)); [|done].
  by rewrite bool_decide_eq_true_2 by auto.
Qed.

(** X21: a task assigned to the agent that has no live conversation gets
    one: [process_task_assignment] likes the task, creates the
    conversation with the message [build_task_message] makes of the task,
    stores the mapping, posts as its last comment the pinned link to the
    conversation, and returns the conversation id.  A mapping left behind
    by a conversation that is gone does not prevent this.  Without a
    configured agent gid the assignee is not looked at. *)
Theorem fresh_assignment_starts_conversation
    (task_gid : str) (w : World) (s : AsanaSettings) (task : AsanaTask)
    (c : str) (session : option Session) (rest : list creation) :
  settings w = Some s →
  asana_tasks w !! task_gid = Some task →
  (truthy_opt (agent_user_gid s) = true →
   gid <$> assignee task = agent_user_gid s) →
  (∀ m c', mapping_file w = Some m → m !! task_gid = Some c' →
           truthy c' = true → sessions w !! c' = None) →
  upcoming w = Creates c session :: rest →
  fst (process_task_assignment task_gid w) = Some c
  ∧ created (snd (process_task_assignment task_gid w))
    = created w ++ [(c, build_task_message task)]
  ∧ upcoming (snd (process_task_assignment task_gid w)) = rest
  ∧ (likes_accepted w = true →
     likes (snd (process_task_assignment task_gid w)) = likes w ++ [task_gid])
  ∧ (store_writable w = true →
     ∃ m, mapping_file (snd (process_task_assignment task_gid w)) = Some m
          ∧ m !! task_gid = Some c)
  ∧ (comments_accepted w = true →
     last (comments (snd (process_task_assignment task_gid w)))
     = Some (link_comment task_gid
               (base_url w ++ lit "/conversations/" ++ c))).
Proof.
  intros Hs Htask Hfilter Hgone Hup.
  unfold process_task_assignment.
  rewrite bind_run. cbv [gets fst snd]. rewrite Hs.
  rewrite bind_run. cbv [get_task gets fst snd]. rewrite Htask.
  rewrite (assignee_passes s task Hfilter).
  rewrite bind_run. rewrite (bind_run _ _ (snd (like task_gid w))).
  pose proof (like_step task_gid "Failed to like task" w) as Hlike.
  rewrite bind_run in Hlike. cbv zeta in Hlike.
  set (w1 := snd ((if fst (like task_gid w) then ret tt
                   else logger Warning "Failed to like task")
                    (snd (like task_gid w)))) in *.
  destruct Hlike as (L0 & L1 & L2 & L3 & L4 & L5 & L6 & L7 & L8).
  rewrite bind_run.
  destruct (lookup_none_step task_gid w1) as (G0 & G1 & G2 & G3 & G4 & G5 & G6).
  { intros m c' Hm. rewrite L4. apply Hgone. by rewrite <- L3. }
  set (w2 := snd (get_conversation_for_task task_gid w1)) in *.
  rewrite G0. cbn [truthy_opt].
  rewrite bind_run.
  match goal with
  | |- context [create_asana_conversation ?a ?b ?c0 ?d ?e ?f w2] =>
      pose proof (create_step a b c0 d e f w2) as Hcreate;
      set (made := create_asana_conversation a b c0 d e f w2) in *
  end.
  cbv zeta in Hcreate. rewrite G5, L5, Hup in Hcreate.
  destruct Hcreate as (C0 & C1 & C2 & C3 & C4 & C5).
  rewrite C3. rewrite bind_run.
  pose proof (set_step task_gid c (snd made)) as Hset. cbv zeta in Hset.
  set (w4 := snd (set_conversation_for_task task_gid c (snd made))) in *.
  destruct Hset as (S0 & S1 & S2 & S3 & S4 & S5 & S6).
  assert (Henv : environment w4 = environment w) by congruence.
  unfold environment in Henv. injection Henv as E1 E2 E3 E4 E5 E6 E7 E8 E9 E10.
  assert (Hmade : store_writable (snd made) = store_writable w).
  { assert (Henv : environment (snd made) = environment w) by congruence.
    unfold environment in Henv. by injection Henv. }
  rewrite bind_run. cbv [get_conversation_url bind gets ret fst snd].
  cbv [add_comment bind gets modify ret logger fst snd].
  rewrite E7.
  destruct (comments_accepted w) eqn:Hacc; cbn [fst snd].
  - split; [done|]. cbn. rewrite S3, C5, G6, L6.
    split; [done|]. rewrite S4, C4. split; [done|].
    split. { intros Hl. rewrite S1, C1, G2, L1. by rewrite Hl. }
    split. { intros Hw. apply S6. by rewrite Hmade. }
    intros _. rewrite last_snoc. by rewrite E2.
  - split; [done|]. cbn. rewrite S3, C5, G6, L6.
    split; [done|]. rewrite S4, C4. split; [done|].
    split. { intros Hl. rewrite S1, C1, G2, L1. by rewrite Hl. }
    split. { intros Hw. apply S6. by rewrite Hmade. }
    intros Hf. discriminate Hf.
Qed.

(** X22: a task that is not assigned to the configured agent, or not
    assigned at all, is skipped before anything is done: no like, no
    lookup, no conversation, no comment, no log record of a warning or an
    error. *)
Theorem task_of_another_assignee_is_skipped
    (task_gid : str) (w : World) (s : AsanaSettings) (task : AsanaTask) :
  settings w = Some s →
  asana_tasks w !! task_gid = Some task →
  truthy_opt (agent_user_gid s) = true →
  gid <$> assignee task ≠ agent_user_gid s →
  process_task_assignment task_gid w = (None, w).
Proof.
  intros Hs Htask Hagent Hother. unfold process_task_assignment.
  rewrite bind_run. cbv [gets fst snd]. rewrite Hs.
  rewrite bind_run. cbv [get_task gets fst snd]. rewrite Htask, Hagent.
  by rewrite (bool_decide_eq_false_2 _ Hother).
Qed.

(** X23: when the conversation cannot be created, the failure is told on
    the task: [process_task_assignment] returns [None], records no
    conversation, and posts as its last comment the error of the
    creation, unpinned; the sessions are as before, so that a later
    assignment event tries again. *)
Theorem failed_creation_is_reported
    (task_gid : str) (w : World) (s : AsanaSettings) (task : AsanaTask)
    (e : str) (rest : list creation) :
  settings w = Some s →
  asana_tasks w !! task_gid = Some task →
  (truthy_opt (agent_user_gid s) = true →
   gid <$> assignee task = agent_user_gid s) →
  (∀ m c', mapping_file w = Some m → m !! task_gid = Some c' →
           truthy c' = true → sessions w !! c' = None) →
  upcoming w = Fails e :: rest →
  fst (process_task_assignment task_gid w) = None
  ∧ created (snd (process_task_assignment task_gid w)) = created w
  ∧ sessions (snd (process_task_assignment task_gid w)) = sessions w
  ∧ upcoming (snd (process_task_assignment task_gid w)) = rest
  ∧ (comments_accepted w = true →
     comments (snd (process_task_assignment task_gid w))
     = comments w ++ [failure_comment task_gid e]).
Proof.
  intros Hs Htask Hfilter Hgone Hup.
  unfold process_task_assignment.
  rewrite bind_run. cbv [gets fst snd]. rewrite Hs.
  rewrite bind_run. cbv [get_task gets fst snd]. rewrite Htask.
  rewrite (assignee_passes s task Hfilter).
  rewrite bind_run. rewrite (bind_run _ _ (snd (like task_gid w))).
  pose proof (like_step task_gid "Failed to like task" w) as Hlike.
  rewrite bind_run in Hlike. cbv zeta in Hlike.
  set (w1 := snd ((if fst (like task_gid w) then ret tt
                   else logger Warning "Failed to like task")
                    (snd (like task_gid w)))) in *.
  destruct Hlike as (L0 & L1 & L2 & L3 & L4 & L5 & L6 & L7 & L8).
  rewrite bind_run.
  destruct (lookup_none_step task_gid w1) as (G0 & G1 & G2 & G3 & G4 & G5 & G6).
  { intros m c' Hm. rewrite L4. apply Hgone. by rewrite <- L3. }
  set (w2 := snd (get_conversation_for_task task_gid w1)) in *.
  rewrite G0. cbn [truthy_opt].
  rewrite bind_run.
  match goal with
  | |- context [create_asana_conversation ?a ?b ?c0 ?d ?e0 ?f w2] =>
      pose proof (create_step a b c0 d e0 f w2) as Hcreate;
      set (made := create_asana_conversation a b c0 d e0 f w2) in *
  end.
  cbv zeta in Hcreate. rewrite G5, L5, Hup in Hcreate.
  destruct Hcreate as (C0 & C1 & C2 & C3 & C4).
  rewrite C3, C4.
  assert (Henv : environment w2 = environment w) by congruence.
  unfold environment in Henv. injection Henv as E1 E2 E3 E4 E5 E6 E7 E8 E9 E10.
  cbv [add_comment bind gets modify ret logger fst snd].
  cbn [comments_accepted set_upcoming set_log]. rewrite E7.
  destruct (comments_accepted w) eqn:Hacc; cbn;
    rewrite ?G6, ?L6, ?G4, ?L4, ?G3, ?L2; by repeat split.
Qed.
End AssignmentFacts.

(** ** The reconciler: mentions *)

Section MentionMore.
Context `{UnicodeData} `{Converters}.

(** X24: a comment that mentions the agent on a task with a live
    conversation is a follow-up: [process_story_mention] likes the
    comment, sends its cleaned text to the conversation as a user
    message, re-arms the conversation's listener, and returns the
    conversation id; no conversation is created and no comment is
    posted. *)
Theorem mention_reaches_live_conversation
    (story_gid : str) (parent_gid : option str) (w : World)
    (s : AsanaSettings) (story : Story) (task_gid c : str)
    (m : gmap str str) (session : Session) (stream : list Event)
    (self : nat) (l : AsanaConversationListener) :
  settings w = Some s →
  truthy_opt (agent_user_gid s) = true →
  asana_stories w !! story_gid = Some story →
  resource_subtype story = Some (lit "comment_added") →
  contains (or_empty (agent_user_gid s)) (or_empty (html_text story)) = true →
  truthy (strip (comment_text_of story)) = true →
  parent_task parent_gid story = Some task_gid →
  truthy task_gid = true →
  mapping_file w = Some m →
  m !! task_gid = Some c →
  truthy c = true →
  sessions w !! c = Some session →
  event_stream session = Some stream →
  _active_listeners w !! c = Some self →
  listeners w !! self = Some l →
  fst (process_story_mention story_gid parent_gid w) = Some c
  ∧ created (snd (process_story_mention story_gid parent_gid w)) = created w
  ∧ upcoming (snd (process_story_mention story_gid parent_gid w)) = upcoming w
  ∧ comments (snd (process_story_mention story_gid parent_gid w)) = comments w
  ∧ mapping_file (snd (process_story_mention story_gid parent_gid w)) = Some m
  ∧ sessions (snd (process_story_mention story_gid parent_gid w))
    = <[c := append_event
               (MessageAction
                  (clean_asana_comment (comment_text_of story)
                                       (agent_user_gid s))
                  (Some USER)) session]> (sessions w)
  ∧ listeners (snd (process_story_mention story_gid parent_gid w))
    = <[self := set_start_time (clock w) (set_reported false l)]> (listeners w)
  ∧ (likes_accepted w = true →
     likes (snd (process_story_mention story_gid parent_gid w))
     = likes w ++ [story_gid]).
Proof.
  intros Hs Hagent Hstory Hsub Hmention Htext Hparent Htask Hfile Hmap Hc
    Hsession Hstream Hactive Hl.
  assert (Hag : truthy (or_empty (agent_user_gid s)) = true).
  { destruct (agent_user_gid s); [exact Hagent | discriminate]. }
  pose proof (contains_nonempty _ _ Hag Hmention) as Hhtml_t.
  assert (Hhtml : truthy_opt (html_text story) = true).
  { destruct (html_text story); [exact Hhtml_t | discriminate]. }
  unfold comment_text_of in *. rewrite Hhtml in Htext |- *.
  unfold process_story_mention.
  rewrite bind_run. cbv [gets fst snd]. rewrite Hs, Hagent. cbn [negb].
  rewrite bind_run. cbv [get_story gets fst snd]. rewrite Hstory.
  rewrite (bool_decide_eq_true_2 _ Hsub). cbn [negb].
  rewrite Hmention, Hhtml. cbn [andb negb].
  rewrite Htext. cbn [negb].
  fold (parent_task parent_gid story). rewrite Hparent.
  cbn [truthy_opt or_empty]. rewrite Htask. cbn [negb].
  rewrite bind_run. rewrite (bind_run _ _ (snd (like story_gid w))).
  pose proof (like_step story_gid "Failed to like story" w) as Hlike.
  rewrite bind_run in Hlike. cbv zeta in Hlike.
  set (w1 := snd ((if fst (like story_gid w) then ret tt
                   else logger Warning "Failed to like story")
                    (snd (like story_gid w)))) in *.
  destruct Hlike as (L0 & L1 & L2 & L3 & L4 & L5 & L6 & L7 & L8).
  rewrite bind_run.
  rewrite (lookup_live_step task_gid c w1 m session) by congruence.
  cbn [fst snd]. rewrite bind_run. rewrite Hc. rewrite bind_run.
  assert (Henv : environment w1 = environment w) by exact L0.
  unfold environment in Henv. injection Henv as E1 E2 E3 E4 E5 E6 E7 E8 E9 E10.
  rewrite (send_message_with_listener c _ _ _ _ _ w1 self l session stream)
    by congruence.
  cbn. rewrite L4, L7, L6, L5, L2, L3, L1, E10.
  repeat split; try done. intros Hlikes. by rewrite Hlikes.
Qed.

(** X25: a story that is not a comment (an assignment, a like, any other
    activity of the task), and a comment whose text is empty once
    converted and stripped, are dropped without any effect, even when
    their markup carries the agent's gid. *)
Theorem other_stories_are_ignored
    (story_gid : str) (parent_gid : option str) (w : World)
    (s : AsanaSettings) (story : Story) :
  settings w = Some s →
  truthy_opt (agent_user_gid s) = true →
  asana_stories w !! story_gid = Some story →
  resource_subtype story ≠ Some (lit "comment_added")
  ∨ truthy (strip (comment_text_of story)) = false →
  process_story_mention story_gid parent_gid w = (None, w).
Proof.
  intros Hs Hagent Hstory Hcase. unfold process_story_mention.
  rewrite bind_run. cbv [gets fst snd]. rewrite Hs, Hagent. cbn [negb].
  rewrite bind_run. cbv [get_story gets fst snd]. rewrite Hstory.
  destruct Hcase as [Hsub|Hempty].
  - by rewrite (bool_decide_eq_false_2 _ Hsub).
  - destruct (bool_decide (resource_subtype story = Some (lit "comment_added")));
      [|done].
    cbn [negb].
    destruct (truthy_opt (html_text story)
              && contains (or_empty (agent_user_gid s))
                   (or_empty (html_text story))); [|done].
    cbn [negb]. fold (comment_text_of story). by rewrite Hempty.
Qed.
End MentionMore.

(** ** Links that carry the agent's gid *)

(** What a match has consumed belongs to the classes of the pattern. *)
Lemma span_class (q : N → bool) (pat : pattern) (t : str) (n : nat) :
  Forall (fun it => ∀ c, item_class it c = true → q c = true) pat →
  match_here pat t = Some n →
  Forall (fun c => q c = true) (take n t).
Proof.
  intros Hpat. revert t n.
  induction Hpat as [|[p|p|p] pat Hp Hpat IH]; intros t n Hm;
    cbn [item_class] in *.
  - injection Hm as <-. constructor.
  - destruct t as [|c t]; [done|]. cbn [match_here] in Hm.
    destruct (p c) eqn:Hc; [|done].
    destruct (match_here pat t) as [m|] eqn:Hr; [|done].
    injection Hm as <-. cbn [take]. constructor; [by apply Hp | by apply IH].
  - destruct t as [|c t]; cbn [match_here] in Hm.
    + by apply IH.
    + destruct (p c) eqn:Hc; [|by apply IH].
      destruct (match_here pat t) as [m|] eqn:Hr; [|by apply IH].
      injection Hm as <-. cbn [take]. constructor; [by apply Hp | by apply IH].
  - revert n Hm. induction t as [|c t IHt]; intros n Hm.
    + by apply IH.
    + change (match_here (Star p :: pat) (c :: t))
        with (if p c then
                match match_here (Star p :: pat) t with
                | Some n => Some (S n)
                | None => match_here pat (c :: t)
                end
              else match_here pat (c :: t)) in Hm.
      destruct (p c) eqn:Hc; [|by apply IH].
      destruct (match_here (Star p :: pat) t) as [m|] eqn:Hr; [|by apply IH].
      injection Hm as <-. cbn [take]. constructor; [by apply Hp | by apply IHt].
Qed.

Lemma literal_digits_span (g : str) (post : pattern) (t : str) (n : nat) :
  Forall (fun d => is_digit d = true) g →
  match_here (literal_i g ++ post) t = Some n →
  starts_with g (take n t) = true.
Proof.
  intros Hg. revert t n. induction g as [|a g IH]; intros t n Hm; [done|].
  apply Forall_cons in Hg as [Ha Hg].
  destruct t as [|c t]; [done|]. cbn [literal_i map app match_here] in Hm.
  destruct (is_char_i a c) eqn:Hc; [|done].
  unfold is_char_i in Hc. apply N.eqb_eq in Hc.
  apply (fold_case_digit c a Ha) in Hc as ->.
  destruct (match_here (map (fun a => One (is_char_i a)) g ++ post) t)
    as [m|] eqn:Hrest; [|done].
  injection Hm as <-. cbn [take starts_with]. rewrite N.eqb_refl. cbn [andb].
  by apply (IH Hg t m).
Qed.

(** A literal of digits that has matched lies in what the match has
    consumed. *)
Lemma span_contains (pre : pattern) (g : str) (post : pattern) (t : str)
    (n : nat) :
  Forall (fun d => is_digit d = true) g →
  match_here (pre ++ literal_i g ++ post) t = Some n →
  contains g (take n t) = true.
Proof.
  intros Hg. revert t n. induction pre as [|[p|p|p] pre IH]; intros t n Hm.
  - apply literal_digits_span in Hm; [|done].
    destruct (take n t); cbn [contains]; by rewrite Hm.
  - destruct t as [|c t]; [done|]. cbn [app match_here] in Hm.
    destruct (p c); [|done].
    destruct (match_here (pre ++ literal_i g ++ post) t) as [m|] eqn:Hr; [|done].
    injection Hm as <-. cbn [take]. apply contains_cons. by apply IH.
  - destruct t as [|c t]; cbn [app match_here] in Hm.
    + by apply IH.
    + destruct (p c); [|by apply IH].
      destruct (match_here (pre ++ literal_i g ++ post) t) as [m|] eqn:Hr.
      * injection Hm as <-. cbn [take]. apply contains_cons. by apply IH.
      * by apply IH.
  - revert n Hm. induction t as [|c t IHt]; intros n Hm.
    + by apply IH.
    + change (match_here ((Star p :: pre) ++ literal_i g ++ post) (c :: t))
        with (if p c then
                match match_here ((Star p :: pre) ++ literal_i g ++ post) t with
                | Some n => Some (S n)
                | None => match_here (pre ++ literal_i g ++ post) (c :: t)
                end
              else match_here (pre ++ literal_i g ++ post) (c :: t)) in Hm.
      destruct (p c); [|by apply IH].
      destruct (match_here ((Star p :: pre) ++ literal_i g ++ post) t)
        as [m|] eqn:Hr.
      * injection Hm as <-. cbn [take]. apply contains_cons. by apply IHt.
      * by apply IH.
Qed.

(** A match needs a character of each class the pattern asks for once. *)
Lemma match_needs (pre : pattern) (q : N → bool) (post : pattern) (t : str)
    (n : nat) :
  match_here (pre ++ One q :: post) t = Some n →
  Exists (fun c => q c = true) t.
Proof.
  revert t n. induction pre as [|[p|p|p] pre IH]; intros t n Hm.
  - destruct t as [|c t]; [done|]. cbn [app match_here] in Hm.
    destruct (q c) eqn:Hc; [|done]. by constructor.
  - destruct t as [|c t]; [done|]. cbn [app match_here] in Hm.
    destruct (p c); [|done].
    destruct (match_here (pre ++ One q :: post) t) as [m|] eqn:Hr; [|done].
    apply Exists_cons_tl. by apply (IH t m).
  - destruct t as [|c t]; cbn [app match_here] in Hm.
    + by apply (IH [] n).
    + destruct (p c); [|by apply (IH (c :: t) n)].
      destruct (match_here (pre ++ One q :: post) t) as [m|] eqn:Hr.
      * apply Exists_cons_tl. by apply (IH t m).
      * by apply (IH (c :: t) n).
  - revert n Hm. induction t as [|c t IHt]; intros n Hm.
    + by apply (IH [] n).
    + change (match_here ((Star p :: pre) ++ One q :: post) (c :: t))
        with (if p c then
                match match_here ((Star p :: pre) ++ One q :: post) t with
                | Some n => Some (S n)
                | None => match_here (pre ++ One q :: post) (c :: t)
                end
              else match_here (pre ++ One q :: post) (c :: t)) in Hm.
      destruct (p c); [|by apply (IH (c :: t) n)].
      destruct (match_here ((Star p :: pre) ++ One q :: post) t)
        as [m|] eqn:Hr.
      * apply Exists_cons_tl. by apply (IHt m).
      * by apply (IH (c :: t) n).
Qed.

(** A substitution leaves alone a text that lacks a character its
    pattern asks for. *)
Lemma re_sub_lacking (pre : pattern) (q : N → bool) (post : pattern)
    (repl s : str) :
  Forall (fun c => q c = false) s →
  re_sub (pre ++ One q :: post) repl s = s.
Proof.
  unfold re_sub. induction s as [|c s IH]; intros Hs.
  - cbn [sub_from].
    destruct (match_here (pre ++ One q :: post) []) as [n|] eqn:Hm; [|done].
    apply match_needs in Hm. inversion Hm.
  - cbn [sub_from].
    destruct (match_here (pre ++ One q :: post) (c :: s)) as [n|] eqn:Hm.
    + apply match_needs in Hm. apply Exists_exists in Hm as (x & Hx & Hq).
      rewrite Forall_forall in Hs. by rewrite (Hs x Hx) in Hq.
    + f_equal. apply IH. by inversion Hs.
Qed.

(** No match starts where the pattern matches nowhere. *)
Lemma sub_from_no_match (pat : pattern) (repl before t : str) :
  (∀ k, (k < length before)%nat →
        match_here pat (drop k before ++ t) = None) →
  sub_from pat repl O (before ++ t) = before ++ sub_from pat repl O t.
Proof.
  induction before as [|c before IH]; intros Hnone; [done|].
  cbn [app sub_from].
  pose proof (Hnone O ltac:(simpl; lia)) as H0. cbn [drop app] in H0.
  rewrite H0. f_equal. apply IH. intros k Hk.
  apply (Hnone (S k)). simpl. lia.
Qed.

(** A match that covers the head of a text is replaced, and the scan
    goes on behind it. *)
Lemma sub_from_match (pat : pattern) (repl found t : str) :
  match_here pat [] = None →
  found ≠ [] →
  match_here pat (found ++ t) = Some (length found) →
  sub_from pat repl O (found ++ t) = repl ++ sub_from pat repl O t.
Proof.
  intros Hempty Hfound Hm. destruct found as [|c found]; [done|].
  cbn [app sub_from length] in *. rewrite Hm.
  rewrite sub_from_skip by done. by rewrite drop_app_length.
Qed.

Lemma star_some (p : N → bool) (r : pattern) (t : str) :
  is_Some (match_here r t) → is_Some (match_here (Star p :: r) t).
Proof.
  intros Hr. destruct t as [|c t]; [exact Hr|].
  change (match_here (Star p :: r) (c :: t))
    with (if p c then
            match match_here (Star p :: r) t with
            | Some n => Some (S n)
            | None => match_here r (c :: t)
            end
          else match_here r (c :: t)).
  destruct (p c); [|exact Hr].
  by destruct (match_here (Star p :: r) t).
Qed.

Lemma literal_star_length (p : N → bool) (g : str) (tail : pattern)
    (s : str) (m : nat) (y : str) (n : nat) :
  Forall (fun d => is_digit d = true) g →
  (∀ d, is_digit d = true → p d = true) →
  match_here tail s = Some m →
  match s with c :: _ => p c = false | [] => True end →
  Forall (fun c => p c = true) y →
  match_here (literal_i g ++ Star p :: tail) (y ++ s) = Some n →
  n = (length y + m)%nat.
Proof.
  intros Hg Hp Htail Hs. revert y n.
  induction g as [|a g IH]; intros y n Hy Hm.
  - cbn [literal_i map app] in Hm.
    rewrite (star_greedy p tail y s m Hy Htail Hs) in Hm. by injection Hm.
  - apply Forall_cons in Hg as [Ha Hg].
    cbn [literal_i map app match_here] in Hm.
    destruct y as [|c y].
    + destruct s as [|c s']; [done|]. cbn [app] in Hm.
      destruct (is_char_i a c) eqn:Hc; [|done].
      unfold is_char_i in Hc. apply N.eqb_eq in Hc.
      apply (fold_case_digit c a Ha) in Hc as ->.
      by rewrite (Hp a Ha) in Hs.
    + cbn [app] in Hm. destruct (is_char_i a c); [|done].
      apply Forall_cons in Hy as [_ Hy].
      destruct (match_here (map (fun a => One (is_char_i a)) g
                            ++ Star p :: tail) (y ++ s)) as [k|] eqn:Hr; [|done].
      injection Hm as <-. cbn [length]. rewrite Nat.add_succ_l. f_equal.
      by apply (IH Hg).
Qed.

Lemma star_literal_star_length (p : N → bool) (g : str) (tail : pattern)
    (s : str) (m : nat) (x : str) (n : nat) :
  Forall (fun d => is_digit d = true) g →
  (∀ d, is_digit d = true → p d = true) →
  match_here tail s = Some m →
  match s with c :: _ => p c = false | [] => True end →
  Forall (fun c => p c = true) x →
  match_here (Star p :: literal_i g ++ Star p :: tail) (x ++ s) = Some n →
  n = (length x + m)%nat.
Proof.
  intros Hg Hp Htail Hs. revert n. induction x as [|c x IH]; intros n Hx Hm.
  - apply (literal_star_length p g tail s m [] n); try done.
    cbn [app] in *. destruct s as [|c s'] eqn:Hs'; [exact Hm|].
    change (match_here (Star p :: literal_i g ++ Star p :: tail) (c :: s'))
      with (if p c then
              match match_here (Star p :: literal_i g ++ Star p :: tail) s' with
              | Some n => Some (S n)
              | None => match_here (literal_i g ++ Star p :: tail) (c :: s')
              end
            else match_here (literal_i g ++ Star p :: tail) (c :: s')) in Hm.
    by rewrite Hs in Hm.
  - apply Forall_cons in Hx as [Hc Hx].
    change (match_here (Star p :: literal_i g ++ Star p :: tail) ((c :: x) ++ s))
      with (if p c then
              match match_here (Star p :: literal_i g ++ Star p :: tail) (x ++ s) with
              | Some n => Some (S n)
              | None => match_here (literal_i g ++ Star p :: tail) ((c :: x) ++ s)
              end
            else match_here (literal_i g ++ Star p :: tail) ((c :: x) ++ s)) in Hm.
    rewrite Hc in Hm.
    destruct (match_here (Star p :: literal_i g ++ Star p :: tail) (x ++ s))
      as [k|] eqn:Hr.
    + injection Hm as <-. cbn [length]. rewrite Nat.add_succ_l. f_equal.
      by apply IH.
    + apply (literal_star_length p g tail s m (c :: x) n); try done.
      by constructor.
Qed.

(** Two greedy runs around the gid take the whole run the gid lies in,
    up to where the rest of the pattern follows. *)
Lemma star_literal_star (p : N → bool) (g : str) (tail : pattern)
    (s : str) (m : nat) (x1 x2 : str) :
  Forall (fun d => is_digit d = true) g →
  (∀ d, is_digit d = true → p d = true) →
  match_here tail s = Some m →
  match s with c :: _ => p c = false | [] => True end →
  Forall (fun c => p c = true) x1 →
  Forall (fun c => p c = true) x2 →
  match_here (Star p :: literal_i g ++ Star p :: tail) (x1 ++ g ++ x2 ++ s)
  = Some (length (x1 ++ g ++ x2) + m)%nat.
Proof.
  intros Hg Hp Htail Hs H1 H2.
  assert (Hall : Forall (fun c => p c = true) (x1 ++ g ++ x2)).
  { apply Forall_app. split; [done|]. apply Forall_app. split; [|done].
    eapply Forall_impl; [exact Hg|]. exact Hp. }
  assert (Hsome : is_Some (match_here (Star p :: literal_i g ++ Star p :: tail)
                             (x1 ++ g ++ x2 ++ s))).
  { clear Hall. induction x1 as [|c x1 IH].
    - apply star_some. cbn [app]. rewrite match_literal.
      by rewrite (star_greedy p tail x2 s m H2 Htail Hs).
    - apply Forall_cons in H1 as [Hc H1]. destruct (IH H1) as [k Hk].
      exists (S k). by apply star_step. }
  destruct Hsome as [n Hn]. rewrite Hn. f_equal.
  apply (star_literal_star_length p g tail s m (x1 ++ g ++ x2) n); try done.
  by rewrite <- !app_assoc.
Qed.

(** Which characters a case-blind character class takes. *)
Lemma fold_case_inv (c k : N) :
  fold_case c = k →
  c = k ∨ (65 ≤ c ∧ c ≤ 90 ∧ k = c + 32)
  ∨ (k = 105 ∧ (c = 0x130 ∨ c = 0x131)) ∨ (k = 115 ∧ c = 0x17F)
  ∨ (k = 107 ∧ c = 0x212A).
Proof.
  unfold fold_case. intros <-.
  repeat match goal with
         | |- context [if ?b then _ else _] => destruct b eqn:?
         end;
    repeat match goal with
           | H : (_ && _) = true |- _ => apply andb_true_iff in H as [? ?]
           | H : (_ || _) = true |- _ => apply orb_true_iff in H as [?|?]
           | H : (_ <=? _) = true |- _ => apply N.leb_le in H
           | H : (_ =? _) = true |- _ => apply N.eqb_eq in H
           end; lia.
Qed.

(** A character that is no letter is matched by itself alone. *)
Lemma is_char_i_symbol (a c : N) :
  a < 65 ∨ (90 < a ∧ a < 97) ∨ (122 < a ∧ a < 128) →
  is_char_i a c = true → c = a.
Proof.
  intros Ha Hc. unfold is_char_i in Hc. apply N.eqb_eq in Hc.
  assert (Hfa : fold_case a = a).
  { unfold fold_case.
    repeat match goal with
           | |- context [if ?b then _ else _] => destruct b eqn:?
           end;
      repeat match goal with
             | H : (_ && _) = true |- _ => apply andb_true_iff in H as [? ?]
             | H : (_ || _) = true |- _ => apply orb_true_iff in H as [?|?]
             | H : (_ <=? _) = true |- _ => apply N.leb_le in H
             | H : (_ =? _) = true |- _ => apply N.eqb_eq in H
             end; lia. }
  rewrite Hfa in Hc. apply fold_case_inv in Hc. lia.
Qed.

Lemma url_char_printable (c : N) :
  (33 ≤ c ∧ c ≤ 126 ∧ c ≠ 60 ∧ c ≠ 62 ∧ c ≠ 34)
  ∨ c = 0x130 ∨ c = 0x131 ∨ c = 0x17F ∨ c = 0x212A →
  url_char c = true.
Proof.
  intros [Hc|[->|[->|[->| ->]]]]; try reflexivity.
  unfold url_char, is_space, quote.
  rewrite bool_decide_eq_false_2.
  2:{ rewrite !elem_of_cons, elem_of_nil. lia. }
  repeat match goal with
         | |- context [?x <=? ?y] =>
             first [ rewrite (proj2 (N.leb_le x y)) by lia
                   | rewrite (proj2 (N.leb_gt x y)) by lia ]
         | |- context [?x =? ?y] =>
             rewrite (proj2 (N.eqb_neq x y)) by lia
         end.
  reflexivity.
Qed.

Lemma url_char_inv (c : N) :
  url_char c = true → c ≠ 60 ∧ c ≠ 62 ∧ c ≠ quote ∧ is_space c = false.
Proof.
  unfold url_char. intros Hc. apply negb_true_iff, orb_false_iff in Hc as [Hs Hl].
  apply bool_decide_eq_false in Hl. rewrite !not_elem_of_cons in Hl.
  destruct Hl as (? & ? & ? & _). done.
Qed.

Lemma is_char_i_url (a c : N) :
  33 ≤ a ∧ a ≤ 126 ∧ a ≠ 60 ∧ a ≠ 62 ∧ a ≠ 34 →
  is_char_i a c = true → url_char c = true.
Proof.
  intros Ha Hc. unfold is_char_i in Hc. apply N.eqb_eq in Hc.
  apply fold_case_inv in Hc.
  destruct (fold_case_inv a (fold_case a) eq_refl)
    as [Hfa|[Hfa|[Hfa|[Hfa|Hfa]]]]; apply url_char_printable; lia.
Qed.

Lemma digit_url_char (d : N) : is_digit d = true → url_char d = true.
Proof.
  unfold is_digit. intros [?%N.leb_le ?%N.leb_le]%andb_true_iff.
  apply url_char_printable. lia.
Qed.

Lemma literal_url_classes (l : str) :
  Forall (fun a => 33 ≤ a ∧ a ≤ 126 ∧ a ≠ 60 ∧ a ≠ 62 ∧ a ≠ 34) l →
  Forall (fun it => ∀ c, item_class it c = true → url_char c = true)
         (literal_i l).
Proof.
  intros Hl. unfold literal_i. apply Forall_map.
  eapply Forall_impl; [exact Hl|]. intros a Ha c Hc. by apply (is_char_i_url a).
Qed.

Lemma digits_printable (g : str) :
  Forall (fun d => is_digit d = true) g →
  Forall (fun a => 33 ≤ a ∧ a ≤ 126 ∧ a ≠ 60 ∧ a ≠ 62 ∧ a ≠ 34) g.
Proof.
  intros Hg. eapply Forall_impl; [exact Hg|]. intros d Hd.
  unfold is_digit in Hd. apply andb_true_iff in Hd as [?%N.leb_le ?%N.leb_le].
  lia.
Qed.

(** All that the second pattern can take is made of the characters of a
    link. *)
Lemma url_with_classes (g : str) :
  Forall (fun d => is_digit d = true) g →
  Forall (fun it => ∀ c, item_class it c = true → url_char c = true)
         (url_with g).
Proof.
  intros Hg. unfold url_with. repeat (apply Forall_app; split).
  - apply literal_url_classes. repeat constructor; vm_compute; congruence.
  - constructor; [|constructor]. intros c Hc. apply (is_char_i_url 115 c); [|done].
    repeat split; vm_compute; congruence.
  - apply literal_url_classes. repeat constructor; vm_compute; congruence.
  - by repeat constructor.
  - apply literal_url_classes. by apply digits_printable.
  - by repeat constructor.
Qed.

(** A string of digits lies on one side of a character that is no
    digit. *)
Lemma starts_with_cut (g x : str) (d : N) (y : str) :
  truthy g = true →
  Forall (fun a => is_digit a = true) g →
  is_digit d = false →
  starts_with g (x ++ d :: y) = starts_with g x.
Proof.
  intros _ Hg Hd. revert x. induction g as [|a g IH]; intros x; [done|].
  apply Forall_cons in Hg as [Ha Hg].
  destruct x as [|c x]; cbn [app starts_with].
  - destruct (N.eqb_spec a d) as [->|_]; [congruence | done].
  - destruct g as [|b g]; [done|]. by rewrite (IH Hg).
Qed.

Lemma contains_cut (g x : str) (d : N) (y : str) :
  truthy g = true →
  Forall (fun a => is_digit a = true) g →
  is_digit d = false →
  contains g (x ++ d :: y) = contains g x || contains g y.
Proof.
  intros Ht Hg Hd. induction x as [|c x IH].
  - pose proof (starts_with_cut g [] d y Ht Hg Hd) as Hs. cbn [app] in Hs.
    cbn [app contains]. rewrite Hs.
    destruct g; [done|]. cbn [starts_with]. by rewrite !orb_false_l.
  - pose proof (starts_with_cut g (c :: x) d y Ht Hg Hd) as Hs.
    cbn [app] in Hs. cbn [app contains]. rewrite IH, Hs.
    by rewrite orb_assoc.
Qed.

Lemma contains_around (g x b y : str) :
  truthy g = true →
  Forall (fun a => is_digit a = true) g →
  b ≠ [] →
  Forall (fun d => is_digit d = false) b →
  contains g x = false → contains g y = false →
  contains g (x ++ b ++ y) = false.
Proof.
  intros Ht Hg Hne Hb Hx Hy. revert x Hx.
  induction b as [|d b IH]; intros x Hx; [done|].
  apply Forall_cons in Hb as [Hd Hb]. cbn [app].
  rewrite (contains_cut g x d (b ++ y) Ht Hg Hd), Hx. cbn [orb].
  destruct b as [|d' b]; [exact Hy|].
  apply (IH ltac:(done) Hb []). by destruct g.
Qed.

(** X26: a link that carries the agent's gid is replaced whole by
    [[link removed]]: in a text without [<], where the gid, a string of
    digits, occurs nowhere else and the link is set off from what comes
    before and after it, [sanitize_agent_mentions] puts the words [[link
    removed]] in the place of the link, from its scheme to its last
    character, and leaves the rest as it is. *)
Theorem url_with_gid_is_replaced
    (g before u1 u2 after : str) (secure : bool) :
  truthy g = true →
  Forall (fun d => is_digit d = true) g →
  Forall (fun c => url_char c = true) u1 →
  Forall (fun c => url_char c = true) u2 →
  60 ∉ before → 60 ∉ after →
  contains g before = false → contains g after = false →
  match last before with Some c => url_char c = false | None => True end →
  match after with c :: _ => url_char c = false | [] => True end →
  sanitize_agent_mentions
    (before ++ absolute_url secure (u1 ++ g ++ u2) ++ after) (Some g)
  = before ++ lit "[link removed]" ++ after.
Proof.
  intros Ht Hg Hu1 Hu2 Hb Ha Hgb Hga Hlast Hnext.
  set (url := absolute_url secure (u1 ++ g ++ u2)).
  assert (Hurl : Forall (fun c => url_char c = true) url).
  { unfold url, absolute_url. repeat (apply Forall_app; split); try done.
    - repeat constructor.
    - destruct secure; repeat constructor.
    - repeat constructor.
    - eapply Forall_impl; [exact Hg|]. apply digit_url_char. }
  assert (Hne : url ≠ []) by done.
  assert (Hmatch : match_here (url_with g) (url ++ after) = Some (length url)).
  { assert (Hrest : match_here (literal_i (lit "://") ++ Star url_char
                                :: literal_i g ++ [Star url_char])
                      (lit "://" ++ u1 ++ g ++ u2 ++ after)
                    = Some (3 + length (u1 ++ g ++ u2))%nat).
    { rewrite match_literal.
      rewrite (star_literal_star url_char g [] after 0); try done;
        [ cbn; by rewrite Nat.add_0_r
        | intros d Hd; by apply digit_url_char ]. }
    unfold url, absolute_url, url_with. rewrite <- !app_assoc.
    rewrite match_literal.
    destruct secure; cbn [app match_here].
    - change (is_char_i 115 115) with true. cbv iota.
      rewrite Hrest. cbn [fmap option_fmap option_map].
      first [done | f_equal; rewrite !length_app; simpl; lia].
    - change (lit "://" ++ u1 ++ g ++ u2 ++ after)
        with (58 :: lit "//" ++ u1 ++ g ++ u2 ++ after) in *.
      cbn [match_here]. change (is_char_i 115 58) with false. cbv iota.
      rewrite Hrest. cbn [fmap option_fmap option_map].
      first [done | f_equal; rewrite !length_app; simpl; lia]. }
  assert (Hclean : ∀ c, c ∈ before ++ url ++ after → c ≠ 60).
  { intros c Hc. rewrite !elem_of_app in Hc. destruct Hc as [Hc|[Hc|Hc]].
    - intros ->. contradiction.
    - rewrite Forall_forall in Hurl. by apply url_char_inv, Hurl.
    - intros ->. contradiction. }
  unfold sanitize_agent_mentions.
  assert (Htext : truthy (before ++ url ++ after) = true).
  { destruct before; [|done]. by destruct url. }
  rewrite Htext. cbn [truthy_opt negb orb or_empty]. rewrite Ht. cbn [negb].
  (* the anchors *)
  rewrite mention_anchor_shape.
  change (literal_i (lit "<a") ++ ?r)
    with ([] ++ One (is_char_i 60) :: literal_i (lit "a") ++ r).
  rewrite re_sub_lacking.
  2:{ apply Forall_forall. intros c Hc. apply is_char_i_lt. by apply Hclean. }
  (* the links *)
  assert (Hsub : re_sub (url_with g) (lit "[link removed]")
                   (before ++ url ++ after)
                 = before ++ lit "[link removed]" ++ after).
  { unfold re_sub. rewrite sub_from_no_match.
    - f_equal. rewrite (sub_from_match _ _ url after); [|done|done|done].
      f_equal. destruct (patterns_hold_gid g) as (_ & (pre & post & ->) & _).
      by apply (re_sub_without pre g post).
    - intros k Hk.
      destruct (match_here (url_with g) (drop k before ++ url ++ after))
        as [n|] eqn:Hm; [exfalso|done].
      destruct (last before) as [c|] eqn:Hl.
      2:{ apply last_None in Hl. subst before. simpl in Hk. lia. }
      apply last_Some in Hl as [b ->].
      rewrite length_app in Hk. simpl in Hk.
      rewrite drop_app_le in Hm by lia. rewrite <- app_assoc in Hm.
      pose proof (span_class url_char _ _ _ (url_with_classes g Hg) Hm) as Hspan.
      destruct (decide (n ≤ length (drop k b))%nat) as [Hshort|Hlong].
      + rewrite take_app_le in Hspan by done.
        destruct (patterns_hold_gid g) as (_ & (pre & post & Hpat) & _).
        rewrite Hpat in Hm. apply span_contains in Hm; [|done].
        rewrite take_app_le in Hm by done.
        assert (Hin : contains g (b ++ [c]) = true).
        { apply contains_app_l. rewrite <- (take_drop k b).
          apply contains_app_r. rewrite <- (take_drop n (drop k b)).
          by apply contains_app_l. }
        congruence.
      + rewrite take_app_ge in Hspan by lia.
        apply Forall_app in Hspan as [_ Hspan].
        destruct (n - length (drop k b))%nat as [|j] eqn:Hj; [lia|].
        cbn [app take] in Hspan. apply Forall_cons in Hspan as [Hc _].
        congruence. }
  rewrite Hsub.
  (* the markdown links *)
  destruct (patterns_hold_gid g) as (_ & _ & (pre & post & ->)).
  apply re_sub_without; [done|].
  apply contains_around; try done. repeat constructor.
Qed.

Lemma match_one (p : N → bool) (r : pattern) (c : N) (s : str) :
  p c = true → match_here (One p :: r) (c :: s) = S <$> match_here r s.
Proof. intros Hc. cbn [match_here]. by rewrite Hc. Qed.

Lemma not_in_spec (l : list N) (c : N) : not_in l c = true ↔ c ∉ l.
Proof.
  unfold not_in. rewrite negb_true_iff. split.
  - intros Hc. by apply bool_decide_eq_false in Hc.
  - intros Hc. by apply bool_decide_eq_false.
Qed.

Lemma not_in_run (a : N) (x : str) :
  a ∉ x → Forall (fun c => not_in [a] c = true) x.
Proof.
  intros Ha. apply Forall_forall. intros c Hc. apply not_in_spec.
  rewrite list_elem_of_singleton. intros ->. contradiction.
Qed.

Lemma is_char_i_other (a c : N) :
  a < 65 ∨ (90 < a ∧ a < 97) ∨ (122 < a ∧ a < 128) →
  c ≠ a → is_char_i a c = false.
Proof.
  intros Ha Hc. apply not_true_is_false. intros Hm.
  by apply (is_char_i_symbol a c Ha) in Hm.
Qed.

(** X27: a markdown link whose target carries the agent's gid is cut
    out, label and target: in a text without [<] and without a colon, so
    that no anchor and no absolute link is in it, where no bracket opens
    before the link and the gid, a string of digits, does not occur after
    it, [sanitize_agent_mentions] removes the link from its opening
    bracket to its closing parenthesis and leaves the rest as it is. *)
Theorem markdown_link_with_gid_is_removed
    (g before label t1 t2 after : str) :
  truthy g = true →
  Forall (fun d => is_digit d = true) g →
  93 ∉ label → 41 ∉ t1 → 41 ∉ t2 → 91 ∉ before →
  Forall (fun c => c ≠ 60 ∧ c ≠ 58)
         (before ++ markdown_link label (t1 ++ g ++ t2) ++ after) →
  contains g after = false →
  sanitize_agent_mentions
    (before ++ markdown_link label (t1 ++ g ++ t2) ++ after) (Some g)
  = before ++ after.
Proof.
  intros Ht Hg Hlabel Ht1 Ht2 Hb Hplain Hga.
  set (link := markdown_link label (t1 ++ g ++ t2)) in *.
  assert (Hne : link ≠ []) by done.
  assert (Hdigit : ∀ d, is_digit d = true → not_in [41] d = true).
  { intros d Hd. apply not_in_spec. rewrite list_elem_of_singleton.
    intros ->. discriminate Hd. }
  assert (Hmatch : match_here (markdown_link_with g) (link ++ after)
                   = Some (length link)).
  { unfold link, markdown_link, markdown_link_with.
    rewrite <- !app_assoc. cbn [app].
    rewrite match_one by apply is_char_i_refl.
    assert (Hrest : match_here
                      (One (is_char_i 93) :: One (is_char_i 40)
                       :: Star (not_in [41])
                       :: literal_i g ++ [Star (not_in [41]); One (is_char_i 41)])
                      (93 :: 40 :: t1 ++ g ++ t2 ++ 41 :: after)
                    = Some (2 + (length (t1 ++ g ++ t2) + 1))%nat).
    { rewrite !match_one by apply is_char_i_refl.
      rewrite (star_literal_star (not_in [41]) g [One (is_char_i 41)]
                 (41 :: after) 1 t1 t2); try done.
      - by apply not_in_run.
      - by apply not_in_run. }
    rewrite (star_greedy (not_in [93]) _ label _ _ (not_in_run 93 label Hlabel)
               Hrest eq_refl).
    cbn [fmap option_fmap option_map]. f_equal.
    repeat (rewrite !length_app || cbn [length]). lia. }
  unfold sanitize_agent_mentions.
  assert (Htext : truthy (before ++ link ++ after) = true).
  { destruct before; [|done]. by destruct link. }
  rewrite Htext. cbn [truthy_opt negb orb or_empty]. rewrite Ht. cbn [negb].
  (* the anchors *)
  rewrite mention_anchor_shape.
  change (literal_i (lit "<a") ++ ?r)
    with ([] ++ One (is_char_i 60) :: literal_i (lit "a") ++ r).
  rewrite re_sub_lacking.
  2:{ eapply Forall_impl; [exact Hplain|]. intros c [Hc _].
      apply is_char_i_other; [lia | done]. }
  (* the absolute links *)
  unfold url_with.
  change (literal_i (lit "http") ++ [Opt (is_char_i 115)]
          ++ literal_i (lit "://") ++ ?r)
    with ((literal_i (lit "http") ++ [Opt (is_char_i 115)])
          ++ One (is_char_i 58) :: literal_i (lit "//") ++ r).
  rewrite re_sub_lacking.
  2:{ eapply Forall_impl; [exact Hplain|]. intros c [_ Hc].
      apply is_char_i_other; [lia | done]. }
  (* the markdown links *)
  unfold re_sub.
  assert (Hshape : ∃ r, markdown_link_with g = One (is_char_i 91) :: r).
  { unfold markdown_link_with. eexists. reflexivity. }
  destruct Hshape as [r Hr]. rewrite Hr in Hmatch |- *.
  rewrite sub_from_before.
  2:{ apply Forall_forall. intros c Hc. apply is_char_i_other; [lia|].
      intros ->. contradiction. }
  f_equal.
  rewrite (sub_from_match _ _ link after); [|done|done|done].
  cbn [app]. rewrite <- Hr.
  destruct (patterns_hold_gid g) as (_ & _ & (pre & post & ->)).
  by apply (re_sub_without pre g post).
Qed.

Lemma url_with_gid_is_replaced_witness :
  sanitize_agent_mentions
    (lit "See " ++ absolute_url true
                     (lit "app.asana.com/0/" ++ agent_gid ++ lit "/list")
     ++ lit " for details") (Some agent_gid)
  = lit "See " ++ lit "[link removed]" ++ lit " for details".
Proof.
  apply (url_with_gid_is_replaced agent_gid (lit "See ")
           (lit "app.asana.com/0/") (lit "/list") (lit " for details") true);
    try reflexivity.
  - repeat constructor.
  - repeat constructor.
  - repeat constructor.
  - intros Hin. vm_compute in Hin. set_solver.
  - intros Hin. vm_compute in Hin. set_solver.
Defined.

Lemma markdown_link_with_gid_is_removed_witness :
  sanitize_agent_mentions
    (lit "Ask " ++ markdown_link (lit "the agent")
                     (lit "/0/" ++ agent_gid ++ lit "/list")
     ++ lit " for details") (Some agent_gid)
  = lit "Ask " ++ lit " for details".
Proof.
  apply (markdown_link_with_gid_is_removed agent_gid (lit "Ask ")
           (lit "the agent") (lit "/0/") (lit "/list") (lit " for details"));
    try reflexivity.
  - repeat constructor.
  - intros Hin. vm_compute in Hin. set_solver.
  - intros Hin. vm_compute in Hin. set_solver.
  - intros Hin. vm_compute in Hin. set_solver.
  - intros Hin. vm_compute in Hin. set_solver.
  - vm_compute. repeat constructor; lia.
Defined.

(** ** Mentions with further attributes, and several of them *)

Lemma literal_run_star_length (p : N → bool) (l : str) (tail : pattern)
    (s : str) (m : nat) (y : str) (n : nat) :
  Forall (fun a => ∀ c, is_char_i a c = true → p c = true) l →
  match_here tail s = Some m →
  match s with c :: _ => p c = false | [] => True end →
  Forall (fun c => p c = true) y →
  match_here (literal_i l ++ Star p :: tail) (y ++ s) = Some n →
  n = (length y + m)%nat.
Proof.
  intros Hl Htail Hs. revert y n.
  induction l as [|a l IH]; intros y n Hy Hm.
  - cbn [literal_i map app] in Hm.
    rewrite (star_greedy p tail y s m Hy Htail Hs) in Hm. by injection Hm.
  - apply Forall_cons in Hl as [Ha Hl].
    cbn [literal_i map app match_here] in Hm.
    destruct y as [|c y].
    + destruct s as [|c s']; [done|]. cbn [app] in Hm.
      destruct (is_char_i a c) eqn:Hc; [|done].
      by rewrite (Ha c Hc) in Hs.
    + cbn [app] in Hm. destruct (is_char_i a c); [|done].
      apply Forall_cons in Hy as [_ Hy].
      destruct (match_here (map (fun a => One (is_char_i a)) l
                            ++ Star p :: tail) (y ++ s)) as [k|] eqn:Hr; [|done].
      injection Hm as <-. cbn [length]. rewrite Nat.add_succ_l. f_equal.
      by apply (IH Hl).
Qed.

Lemma star_literal_run_star_length (p : N → bool) (l : str) (tail : pattern)
    (s : str) (m : nat) (x : str) (n : nat) :
  Forall (fun a => ∀ c, is_char_i a c = true → p c = true) l →
  match_here tail s = Some m →
  match s with c :: _ => p c = false | [] => True end →
  Forall (fun c => p c = true) x →
  match_here (Star p :: literal_i l ++ Star p :: tail) (x ++ s) = Some n →
  n = (length x + m)%nat.
Proof.
  intros Hl Htail Hs. revert n. induction x as [|c x IH]; intros n Hx Hm.
  - apply (literal_run_star_length p l tail s m [] n); try done.
    cbn [app] in *. destruct s as [|c s'] eqn:Hs'; [exact Hm|].
    change (match_here (Star p :: literal_i l ++ Star p :: tail) (c :: s'))
      with (if p c then
              match match_here (Star p :: literal_i l ++ Star p :: tail) s' with
              | Some n => Some (S n)
              | None => match_here (literal_i l ++ Star p :: tail) (c :: s')
              end
            else match_here (literal_i l ++ Star p :: tail) (c :: s')) in Hm.
    by rewrite Hs in Hm.
  - apply Forall_cons in Hx as [Hc Hx].
    change (match_here (Star p :: literal_i l ++ Star p :: tail) ((c :: x) ++ s))
      with (if p c then
              match match_here (Star p :: literal_i l ++ Star p :: tail) (x ++ s) with
              | Some n => Some (S n)
              | None => match_here (literal_i l ++ Star p :: tail) ((c :: x) ++ s)
              end
            else match_here (literal_i l ++ Star p :: tail) ((c :: x) ++ s)) in Hm.
    rewrite Hc in Hm.
    destruct (match_here (Star p :: literal_i l ++ Star p :: tail) (x ++ s))
      as [k|] eqn:Hr.
    + injection Hm as <-. cbn [length]. rewrite Nat.add_succ_l. f_equal.
      by apply IH.
    + apply (literal_run_star_length p l tail s m (c :: x) n); try done.
      by constructor.
Qed.

(** Two greedy runs around a literal take the whole run the literal lies
    in, wherever in it the literal is found. *)
Lemma star_literal_run_star (p : N → bool) (l : str) (tail : pattern)
    (s : str) (m : nat) (x1 x2 : str) :
  Forall (fun a => ∀ c, is_char_i a c = true → p c = true) l →
  match_here tail s = Some m →
  match s with c :: _ => p c = false | [] => True end →
  Forall (fun c => p c = true) x1 →
  Forall (fun c => p c = true) x2 →
  match_here (Star p :: literal_i l ++ Star p :: tail) (x1 ++ l ++ x2 ++ s)
  = Some (length (x1 ++ l ++ x2) + m)%nat.
Proof.
  intros Hl Htail Hs H1 H2.
  assert (Hall : Forall (fun c => p c = true) (x1 ++ l ++ x2)).
  { apply Forall_app. split; [done|]. apply Forall_app. split; [|done].
    eapply Forall_impl; [exact Hl|]. intros a Ha. apply Ha.
    apply is_char_i_refl. }
  assert (Hsome : is_Some (match_here (Star p :: literal_i l ++ Star p :: tail)
                             (x1 ++ l ++ x2 ++ s))).
  { clear Hall. induction x1 as [|c x1 IH].
    - apply star_some. cbn [app]. rewrite match_literal.
      by rewrite (star_greedy p tail x2 s m H2 Htail Hs).
    - apply Forall_cons in H1 as [Hc H1]. destruct (IH H1) as [k Hk].
      exists (S k). by apply star_step. }
  destruct Hsome as [n Hn]. rewrite Hn. f_equal.
  apply (star_literal_run_star_length p l tail s m (x1 ++ l ++ x2) n); try done.
  by rewrite <- !app_assoc.
Qed.

Lemma mention_tag_shape (g a1 a2 name rest : str) :
  mention_tag g a1 a2 name ++ rest
  = lit "<a" ++ a1 ++ gid_attribute g ++ a2
    ++ lit ">@" ++ name ++ lit "</a>" ++ rest.
Proof. unfold mention_tag. by rewrite <- !app_assoc. Qed.

Lemma mention_tag_length (g a1 a2 name : str) :
  length (mention_tag g a1 a2 name)
  = (2 + (length (a1 ++ gid_attribute g ++ a2) + (2 + (length name + 4))))%nat.
Proof.
  unfold mention_tag. rewrite !length_app.
  change (length (lit "<a")) with 2%nat. change (length (lit ">@")) with 2%nat.
  change (length (lit "</a>")) with 4%nat. lia.
Qed.

(** The first pattern matches a mention of the agent, whatever further
    attributes its tag has: all of it and no more. *)
Lemma match_mention_tag (g a1 a2 name rest : str) :
  Forall (fun d => is_digit d = true) g →
  62 ∉ a1 → 62 ∉ a2 → 60 ∉ name →
  match_here (mention_anchor g) (mention_tag g a1 a2 name ++ rest)
  = Some (length (mention_tag g a1 a2 name)).
Proof.
  intros Hg H1 H2 Hname.
  rewrite mention_anchor_shape, mention_tag_shape, mention_tag_length.
  rewrite match_literal.
  assert (Hclose : match_here (Star (not_in [60]) :: literal_i (lit "</a>") ++ [])
                     (name ++ lit "</a>" ++ rest)
                   = Some (length name + 4)%nat).
  { apply star_greedy.
    - by apply not_in_run.
    - by rewrite match_literal.
    - done. }
  assert (Htail : match_here
                    (literal_i (lit ">@")
                     ++ Star (not_in [60]) :: literal_i (lit "</a>") ++ [])
                    (lit ">@" ++ name ++ lit "</a>" ++ rest)
                  = Some (2 + (length name + 4))%nat).
  { by rewrite match_literal, Hclose. }
  rewrite (star_literal_run_star (not_in [62]) (gid_attribute g) _ _
             (2 + (length name + 4)) a1 a2); try done.
  - apply gid_attribute_no_gt in Hg.
    eapply Forall_impl; [exact Hg|]. intros a Ha c Hc. cbn beta in Ha.
    apply not_in_spec. rewrite list_elem_of_singleton. intros ->.
    by rewrite Hc in Ha.
  - by apply not_in_run.
  - by apply not_in_run.
Qed.

(** Where no anchor tag opens, the first pattern matches nowhere. *)
Lemma no_anchor_no_match (r : pattern) (before t : str) (k : nat) :
  opens_no_anchor before →
  match t with c :: _ => c = 60 | [] => True end →
  (k < length before)%nat →
  match_here (literal_i (lit "<a") ++ r) (drop k before ++ t) = None.
Proof.
  intros [Hlow Hup] Ht. revert k.
  induction before as [|c before IH]; intros k Hk; [simpl in Hk; lia|].
  assert (Htl : contains (lit "<a") before = false
                ∧ contains (lit "<A") before = false).
  { cbn [contains] in Hlow, Hup.
    apply orb_false_iff in Hlow as [_ ?]. by apply orb_false_iff in Hup as [_ ?]. }
  destruct k as [|k].
  2:{ cbn [drop]. apply IH; [tauto | tauto | simpl in Hk; lia]. }
  cbn [drop app]. change (literal_i (lit "<a") ++ r)
    with (One (is_char_i 60) :: One (is_char_i 97) :: r).
  cbn [match_here].
  destruct (is_char_i 60 c) eqn:Hc; [|done].
  apply is_char_i_symbol in Hc; [|lia]. subst c.
  assert (Hnext : match before ++ t with
                  | d :: _ => is_char_i 97 d = false
                  | [] => True
                  end).
  { destruct before as [|d before].
    - destruct t as [|d t]; [done|]. cbn [app]. by subst d.
    - cbn [app]. apply not_true_is_false. intros Hd.
      unfold is_char_i in Hd. apply N.eqb_eq in Hd.
      change (fold_case 97) with 97 in Hd.
      apply fold_case_inv in Hd as [->|[(? & ? & Hd)|[(Hd & _)|[(Hd & _)|(Hd & _)]]]];
        try discriminate Hd.
      + cbn [contains starts_with] in Hlow. discriminate Hlow.
      + assert (d = 65) as -> by lia.
        cbn [contains starts_with] in Hup. discriminate Hup. }
  destruct (before ++ t) as [|d u]; [done|]. by rewrite Hnext.
Qed.

Lemma mention_anchor_needs_text (g : str) :
  match_here (mention_anchor g) [] = None.
Proof. by rewrite mention_anchor_shape. Qed.

(** Before the gid, the first pattern takes no [>]: when it matches a
    text, the gid stands before any [>] of the text. *)
Lemma literal_digits_before (g : str) (post : pattern) (y z : str) (n : nat) :
  Forall (fun d => is_digit d = true) g →
  match_here (literal_i g ++ post) (y ++ 62 :: z) = Some n →
  starts_with g y = true.
Proof.
  intros Hg. revert y n. induction g as [|a g IH]; intros y n Hm; [done|].
  apply Forall_cons in Hg as [Ha Hg].
  cbn [literal_i map app match_here] in Hm.
  destruct y as [|c y]; cbn [app] in Hm.
  - destruct (is_char_i a 62) eqn:Hc; [|done].
    unfold is_char_i in Hc. apply N.eqb_eq in Hc.
    apply (fold_case_digit 62 a Ha) in Hc. subst a. discriminate Ha.
  - destruct (is_char_i a c) eqn:Hc; [|done].
    unfold is_char_i in Hc. apply N.eqb_eq in Hc.
    apply (fold_case_digit c a Ha) in Hc as ->.
    destruct (match_here (map (fun a => One (is_char_i a)) g ++ post)
                (y ++ 62 :: z)) as [m|] eqn:Hrest; [|done].
    cbn [starts_with]. rewrite N.eqb_refl. cbn [andb].
    by apply (IH Hg y m).
Qed.

Lemma match_gid_before (pre : pattern) (g : str) (post : pattern)
    (y z : str) (n : nat) :
  Forall (fun d => is_digit d = true) g →
  Forall (fun it => item_class it 62 = false) pre →
  match_here (pre ++ literal_i g ++ post) (y ++ 62 :: z) = Some n →
  contains g y = true.
Proof.
  intros Hg Hpre. revert y n.
  induction Hpre as [|[p|p|p] pre Hp Hpre IH]; intros y n Hm;
    cbn [item_class] in *.
  - apply literal_digits_before in Hm; [|done].
    destruct y; cbn [contains]; by rewrite Hm.
  - destruct y as [|c y]; cbn [app match_here] in Hm.
    + by rewrite Hp in Hm.
    + destruct (p c); [|done].
      destruct (match_here (pre ++ literal_i g ++ post) (y ++ 62 :: z))
        as [m|] eqn:Hr; [|done].
      apply contains_cons. by apply (IH y m).
  - destruct y as [|c y]; cbn [app match_here] in Hm.
    + rewrite Hp in Hm. by apply (IH [] n).
    + destruct (p c); [|by apply (IH (c :: y) n)].
      destruct (match_here (pre ++ literal_i g ++ post) (y ++ 62 :: z))
        as [m|] eqn:Hr.
      * apply contains_cons. by apply (IH y m).
      * by apply (IH (c :: y) n).
  - revert n Hm. induction y as [|c y IHy]; intros n Hm.
    + change ([] ++ 62 :: z) with (62 :: z) in Hm.
      change (match_here ((Star p :: pre) ++ literal_i g ++ post) (62 :: z))
        with (if p 62 then
                match match_here ((Star p :: pre) ++ literal_i g ++ post) z with
                | Some n => Some (S n)
                | None => match_here (pre ++ literal_i g ++ post) (62 :: z)
                end
              else match_here (pre ++ literal_i g ++ post) (62 :: z)) in Hm.
      rewrite Hp in Hm. by apply (IH [] n).
    + change (match_here ((Star p :: pre) ++ literal_i g ++ post)
                ((c :: y) ++ 62 :: z))
        with (if p c then
                match match_here ((Star p :: pre) ++ literal_i g ++ post)
                        (y ++ 62 :: z) with
                | Some n => Some (S n)
                | None => match_here (pre ++ literal_i g ++ post)
                            ((c :: y) ++ 62 :: z)
                end
              else match_here (pre ++ literal_i g ++ post)
                     ((c :: y) ++ 62 :: z)) in Hm.
      destruct (p c); [|by apply (IH (c :: y) n)].
      destruct (match_here ((Star p :: pre) ++ literal_i g ++ post)
                  (y ++ 62 :: z)) as [m|] eqn:Hr.
      * apply contains_cons. by apply (IHy m).
      * by apply (IH (c :: y) n).
Qed.

Lemma tags_closed_drop (s : str) (k : nat) (u : str) :
  tags_closed s = true → drop k s = 60 :: u → 62 ∈ u.
Proof.
  revert k. induction s as [|c s IH]; intros k Hs Hk.
  - by rewrite drop_nil in Hk.
  - cbn [tags_closed] in Hs. apply andb_true_iff in Hs as [Hc Hs].
    destruct k as [|k].
    + cbn [drop] in Hk. injection Hk as -> ->.
      by apply bool_decide_eq_true in Hc.
    + cbn [drop] in Hk. by apply (IH k).
Qed.

(** Where the tags close and none carries the gid, the first pattern
    matches nowhere, whatever follows. *)
Lemma closed_tags_no_match (g before t : str) (k : nat) :
  Forall (fun d => is_digit d = true) g →
  tags_closed before = true → contains g before = false →
  (k < length before)%nat →
  match_here (mention_anchor g) (drop k before ++ t) = None.
Proof.
  intros Hg Hclosed Hgid Hk.
  destruct (drop k before) as [|c u] eqn:Hdrop.
  { apply (f_equal length) in Hdrop. rewrite length_drop in Hdrop.
    simpl in Hdrop. lia. }
  destruct (N.eq_dec c 60) as [->|Hc].
  2:{ rewrite mention_anchor_shape.
      match goal with
      | |- match_here (literal_i (lit "<a") ++ ?r) _ = None =>
          change (literal_i (lit "<a") ++ r)
            with (One (is_char_i 60) :: One (is_char_i 97) :: r)
      end.
      cbn [app match_here].
      by rewrite (is_char_i_other 60 c) by (lia || done). }
  pose proof (tags_closed_drop before k u Hclosed Hdrop) as Hgt.
  apply list_elem_of_split in Hgt as (y & z & ->).
  destruct (match_here (mention_anchor g) ((60 :: y ++ 62 :: z) ++ t))
    as [n|] eqn:Hm; [|done].
  exfalso.
  assert (Hin : contains g (60 :: y) = true).
  { apply (match_gid_before
             (literal_i (lit "<a") ++ [Star (not_in [62])]
              ++ literal_i (lit "data-asana-gid=") ++ [One (is_char_i quote)])
             g ([One (is_char_i quote); Star (not_in [62]); One (is_char_i 62);
                 One (is_char_i 64); Star (not_in [60])]
                ++ literal_i (lit "</a>"))
             (60 :: y) (z ++ t) n Hg).
    - repeat constructor.
    - rewrite <- Hm. unfold mention_anchor. cbn [app].
      rewrite <- !app_assoc. reflexivity. }
  assert (Hbefore : contains g before = true).
  { rewrite <- (take_drop k before), Hdrop. apply contains_app_r.
    change (60 :: y ++ 62 :: z) with ((60 :: y) ++ 62 :: z).
    by apply contains_app_l. }
  congruence.
Qed.

Lemma clear_no_match (g before t : str) (k : nat) :
  Forall (fun d => is_digit d = true) g →
  clear_of_mentions g before →
  match t with c :: _ => c = 60 | [] => True end →
  (k < length before)%nat →
  match_here (mention_anchor g) (drop k before ++ t) = None.
Proof.
  intros Hg [Hopen|[Hclosed Hgid]] Ht Hk.
  - rewrite mention_anchor_shape. by apply no_anchor_no_match.
  - by apply closed_tags_no_match.
Qed.

(** The first substitution cuts every mention of the agent out and
    leaves the stretches between them. *)
Lemma mentions_removed (g : str) (pieces : list mentioning) (last : str) :
  Forall (fun d => is_digit d = true) g →
  Forall (well_formed g) pieces →
  clear_of_mentions g last →
  re_sub (mention_anchor g) [] (with_mentions g pieces last)
  = without_mentions pieces last.
Proof.
  intros Hg Hpieces Hlast. unfold re_sub.
  induction Hpieces as [|p rest (Hs & H1 & H2 & Hn) Hrest IH];
    cbn [with_mentions without_mentions].
  - rewrite <- (app_nil_r last) at 1. rewrite sub_from_no_match.
    + cbn [sub_from]. rewrite mention_anchor_needs_text. by rewrite app_nil_r.
    + intros k Hk. by apply clear_no_match.
  - rewrite sub_from_no_match.
    2:{ intros k Hk. apply clear_no_match; [done|done| |done].
        by rewrite mention_tag_shape. }
    f_equal.
    rewrite (sub_from_match (mention_anchor g) []).
    + exact IH.
    + apply mention_anchor_needs_text.
    + unfold mention_tag. done.
    + by apply match_mention_tag.
Qed.

Lemma lacking_char (a : N) (s : str) :
  a < 65 ∨ (90 < a ∧ a < 97) ∨ (122 < a ∧ a < 128) →
  a ∉ s → Forall (fun c => is_char_i a c = false) s.
Proof.
  intros Ha Hs. apply Forall_forall. intros c Hc.
  apply is_char_i_other; [done|]. intros ->. contradiction.
Qed.

(** A text without [<], without an opening bracket and without a colon
    holds none of the three forms the sanitiser looks for. *)
Lemma plain_text_is_kept (g plain : str) :
  60 ∉ plain → 91 ∉ plain → 58 ∉ plain →
  sanitize_agent_mentions plain (Some g) = plain.
Proof.
  intros Hlt Hbr Hcolon. unfold sanitize_agent_mentions.
  destruct (negb (truthy plain) || negb (truthy_opt (Some g))); [done|].
  cbn [or_empty].
  assert (H1 : re_sub (mention_anchor g) [] plain = plain).
  { rewrite mention_anchor_shape.
    apply (re_sub_lacking [] (is_char_i 60)). apply lacking_char; [lia | done]. }
  assert (H2 : re_sub (url_with g) (lit "[link removed]") plain = plain).
  { unfold url_with.
    change (literal_i (lit "http") ++ [Opt (is_char_i 115)] ++ literal_i (lit "://")
            ++ [Star url_char] ++ literal_i g ++ [Star url_char])
      with ((literal_i (lit "http") ++ [Opt (is_char_i 115)])
            ++ One (is_char_i 58)
               :: literal_i (lit "//") ++ [Star url_char] ++ literal_i g
                  ++ [Star url_char]).
    apply re_sub_lacking. apply lacking_char; [lia | done]. }
  assert (H3 : re_sub (markdown_link_with g) [] plain = plain).
  { unfold markdown_link_with.
    apply (re_sub_lacking [] (is_char_i 91)). apply lacking_char; [lia | done]. }
  by rewrite H1, H2, H3.
Qed.

Lemma with_mentions_empty (g : str) (pieces : list mentioning) (last : str) :
  with_mentions g pieces last = [] → without_mentions pieces last = [].
Proof.
  destruct pieces as [|p rest]; [done|]. cbn [with_mentions].
  intros Hnil. apply app_eq_nil in Hnil as [_ Hnil].
  apply app_eq_nil in Hnil as [Hnil _]. discriminate Hnil.
Qed.

Section SelfMention.
Context `{Converters}.

(** C9 as the code has it: for a non-empty gid of decimal digits,
    [sanitize_agent_mentions] cuts out every mention of the agent, an
    anchor that carries the gid among any further attributes around the
    at sign and a name, from a text made of any number of such mentions
    and of stretches between them that hold no mention: no anchor tag
    opens in a stretch, or its tags close in it and the gid does not
    occur in it.  What the two later substitutions are applied to is the
    stretches joined.  When the gid does not occur in the stretches they
    are the sanitiser's output, and the markdown converter is handed them
    alone.  The sanitiser looks for its three forms only: a text without
    [<], without an opening bracket and without a colon is returned as it
    is, the gid written in it included. *)
Theorem mention_markup_is_cut_out
    (g : str) (pieces : list mentioning) (last : str) :
  truthy g = true →
  Forall (fun d => is_digit d = true) g →
  Forall (well_formed g) pieces →
  clear_of_mentions g last →
  sanitize_agent_mentions (with_mentions g pieces last) (Some g)
  = re_sub (markdown_link_with g) []
      (re_sub (url_with g) (lit "[link removed]")
         (without_mentions pieces last))
  ∧ (contains g (without_mentions pieces last) = false →
     sanitize_agent_mentions (with_mentions g pieces last) (Some g)
     = without_mentions pieces last
     ∧ (truthy (with_mentions g pieces last) = true →
        markdown_to_asana_html (with_mentions g pieces last) (Some g)
        = strip (collapse_newlines
                   (_asana_markdown (without_mentions pieces last)))))
  ∧ (∀ plain : str,
       60 ∉ plain → 91 ∉ plain → 58 ∉ plain →
       sanitize_agent_mentions plain (Some g) = plain).
Proof.
  intros Hne Hg Hpieces Hlast.
  assert (Hsan : sanitize_agent_mentions (with_mentions g pieces last) (Some g)
                 = re_sub (markdown_link_with g) []
                     (re_sub (url_with g) (lit "[link removed]")
                        (without_mentions pieces last))).
  { unfold sanitize_agent_mentions.
    destruct (with_mentions g pieces last) as [|c text] eqn:Htext.
    - cbn [truthy negb orb]. by rewrite (with_mentions_empty g pieces last Htext).
    - cbn [truthy truthy_opt or_empty negb orb]. rewrite Hne. cbn [negb].
      rewrite <- Htext. by rewrite mentions_removed. }
  split; [exact Hsan|]. split.
  - intros Hrest.
    assert (Hplain : sanitize_agent_mentions (with_mentions g pieces last) (Some g)
                     = without_mentions pieces last).
    { rewrite Hsan.
      destruct (patterns_hold_gid g)
        as (_ & (pre2 & post2 & ->) & (pre3 & post3 & ->)).
      rewrite (re_sub_without pre2 g post2) by done.
      by apply (re_sub_without pre3 g post3). }
    split; [exact Hplain|]. intros Htext.
    unfold markdown_to_asana_html. rewrite Htext. cbn [negb].
    by rewrite Hplain.
  - intros plain. apply plain_text_is_kept.
Qed.
End SelfMention.

Lemma mention_markup_is_cut_out_witness :
  with_mentions agent_gid [asana_mention; second_mention] (lit ".</body>")
  = with_quotes "<body><strong>Done.</strong> See <a href='https://ci.example.com/42'>the log</a>. <a data-asana-gid='1201234567890123' data-asana-accessible='true' data-asana-type='user' href='https://app.asana.com/0/profile/1201234567890123'>@OpenHands</a> has fixed the build, thanks <a data-asana-gid='1201234567890123'>@OpenHands</a>.</body>"
  ∧ sanitize_agent_mentions
      (with_mentions agent_gid [asana_mention; second_mention] (lit ".</body>"))
      (Some agent_gid)
    = with_quotes "<body><strong>Done.</strong> See <a href='https://ci.example.com/42'>the log</a>.  has fixed the build, thanks .</body>"
  ∧ sanitize_agent_mentions (lit "Ping 1201234567890123 for details")
                            (Some agent_gid)
    = lit "Ping 1201234567890123 for details".
Proof.
  destruct (@mention_markup_is_cut_out plain_converters agent_gid
              [asana_mention; second_mention] (lit ".</body>"))
    as (_ & Hcut & Hplain).
  - reflexivity.
  - vm_compute. repeat constructor.
  - apply Forall_cons; split; [|apply Forall_cons; split; [|apply Forall_nil_2]];
      (split; [right; split; vm_compute; reflexivity
              | repeat split; apply (bool_decide_unpack _); by vm_compute]).
  - right. split; vm_compute; reflexivity.
  - split; [reflexivity|]. split.
    + destruct Hcut as [Hsan _]; [vm_compute; reflexivity|]. exact Hsan.
    + apply Hplain; apply (bool_decide_unpack _); by vm_compute.
Defined.

(** ** Error reports *)

Lemma replace_char_elem (c : N) (by_ s : str) (x : N) :
  x ∈ replace_char c by_ s → x ∈ by_ ∨ (x ∈ s ∧ x ≠ c).
Proof.
  unfold replace_char. induction s as [|y s IH]; cbn [flat_map].
  - intros Hx. by apply elem_of_nil in Hx.
  - rewrite elem_of_app. intros [Hx|Hx].
    + destruct (N.eqb_spec y c) as [->|Hne]; [by left|].
      apply list_elem_of_singleton in Hx as ->. right.
      split; [apply elem_of_cons; by left | done].
    + destruct (IH Hx) as [?|[? ?]]; [by left|]. right.
      split; [apply elem_of_cons; by right | done].
Qed.

Lemma replace_char_id (c : N) (by_ s : str) :
  c ∉ s → replace_char c by_ s = s.
Proof.
  unfold replace_char. induction s as [|y s IH]; [done|].
  rewrite not_elem_of_cons. intros [Hy Hs]. cbn [flat_map].
  destruct (N.eqb_spec y c) as [->|_]; [done|]. cbn [app]. f_equal. by apply IH.
Qed.

(** X28: [report_error] escapes the error message: the comment it posts
    holds the message inside its [code] element with every [<] and [>]
    of the message replaced, so that no markup of the message reaches
    Asana; a message without [&], [<] and [>] is posted as it is.  The
    call returns whether the comment was accepted, and posts nothing and
    logs an error when it was not. *)
Theorem report_error_escapes_markup
    (task_gid error_message : str) (conversation_url : option str) (w : World) :
  (60 ∉ html_escape error_message)
  ∧ (62 ∉ html_escape error_message)
  ∧ (38 ∉ error_message → 60 ∉ error_message → 62 ∉ error_message →
     html_escape error_message = error_message)
  ∧ (comments_accepted w = true →
     fst (report_error task_gid error_message conversation_url w) = true
     ∧ comments (snd (report_error task_gid error_message conversation_url w))
       = comments w
         ++ [error_comment task_gid (html_escape error_message)
                           conversation_url])
  ∧ (comments_accepted w = false →
     fst (report_error task_gid error_message conversation_url w) = false
     ∧ comments (snd (report_error task_gid error_message conversation_url w))
       = comments w).
Proof.
  split; [|split; [|split; [|split]]].
  - unfold html_escape. intros Hin.
    apply replace_char_elem in Hin as [Hin|[Hin _]].
    { vm_compute in Hin. set_solver. }
    apply replace_char_elem in Hin as [Hin|[_ Hne]]; [|done].
    vm_compute in Hin. set_solver.
  - unfold html_escape. intros Hin.
    apply replace_char_elem in Hin as [Hin|[_ Hne]]; [|done].
    vm_compute in Hin. set_solver.
  - intros Ha Hl Hg. unfold html_escape.
    rewrite (replace_char_id 38) by done.
    rewrite (replace_char_id 60) by done.
    by rewrite (replace_char_id 62).
  - intros Hacc. cbv [report_error bind add_comment gets modify ret logger].
    cbn [fst snd]. rewrite Hacc. cbn [fst snd comments set_comments].
    by split.
  - intros Hacc. cbv [report_error bind add_comment gets modify ret logger].
    cbn [fst snd]. rewrite Hacc. by cbn.
Qed.

(** ** Subscription and its catch-up scan *)

Section CatchUp.
Context `{Converters}.

Lemma set_log_same (w : World) : set_log (log w) w = w.
Proof. by destruct w. Qed.

Lemma set_log_twice (a b : list log_record) (w : World) :
  set_log a (set_log b w) = set_log a w.
Proof. done. Qed.

(** The scan passes over what announces no terminal state; it may log. *)
Lemma catch_up_skips (self : nat) (skipped rest : list Event) (w : World) :
  Forall (fun e => terminal_value e = None) skipped →
  ∃ lg, catch_up self (skipped ++ rest) w = catch_up self rest (set_log lg w).
Proof.
  intros Hall. revert w.
  induction Hall as [|e skipped He Hall IH]; intros w.
  - exists (log w). by rewrite set_log_same.
  - cbn [app catch_up]. unfold terminal_value in He.
    destruct e as [value| | |]; try apply IH.
    destruct (AgentState_of value) as [a|].
    + destruct (is_terminal a); [discriminate He | apply IH].
    + rewrite bind_run. cbv [logger modify]. cbn [fst snd].
      destruct (IH (set_log (log w ++ [{| lvl := Warning;
                                          msg := lit "Invalid agent state value" |}]) w))
        as [lg Hlg].
      exists lg. by rewrite Hlg.
Qed.

Lemma catch_up_fires (self : nat) (e : Event) (later : list Event) (w : World)
    (a : AgentState) (l : AsanaConversationListener) (session : Session)
    (stream : list Event) :
  terminal_value e = Some a →
  listeners w !! self = Some l →
  sessions w !! conversation_id l = Some session →
  event_stream session = Some stream →
  comments_accepted w = true →
  catch_up self (e :: later) w
  = (tt, set_comments (comments w ++ [result_comment l stream a (metrics_text w)])
           (set_listeners (<[self := set_reported true l]> (listeners w)) w)).
Proof.
  intros Hterm Hl Hsession Hstream Hacc. unfold terminal_value in Hterm.
  destruct e as [value| | |]; try discriminate Hterm.
  cbn [catch_up].
  destruct (AgentState_of value) as [a'|]; [|discriminate Hterm].
  destruct (is_terminal a') eqn:Ha; [|discriminate Hterm].
  injection Hterm as ->.
  assert (Hl' : <[self := set_reported true l]> (listeners w) !! self
                = Some (set_reported true l)).
  { apply list_lookup_insert_eq. by apply lookup_lt_Some in Hl. }
  rewrite bind_run.
  assert (Hw1 : snd (update_listener self (set_reported true) w)
                = set_listeners (<[self := set_reported true l]> (listeners w)) w).
  { unfold update_listener, modify. cbn [snd]. by rewrite Hl. }
  rewrite Hw1. unfold _report_to_asana.
  rewrite bind_run. cbv [gets]. cbn [fst snd listeners set_listeners].
  rewrite Hl'. rewrite bind_run. cbn [fst snd].
  cbn [conversation_id set_reported sessions set_listeners].
  rewrite Hsession, Hstream.
  cbv [bind report_result gets add_comment modify ret logger].
  cbn [fst snd comments_accepted set_listeners]. rewrite Hacc.
  reflexivity.
Qed.
End CatchUp.

Section Subscription.
Context `{Converters}.

(** A subscription to a conversation with no event in flight comes down
    to the catch-up scan over its recent events. *)
Lemma subscribe_quiet (c t k : str) (ws g : option str) (w : World)
    (session : Session) (stream : list Event) :
  sessions w !! c = Some session →
  event_stream session = Some stream →
  in_flight session = [] →
  subscribe_to_conversation_events c t k ws g w
  = catch_up (length (listeners w)) (recent_events stream)
             (subscribed c t k ws g session w).
Proof.
  intros Hsession Hstream Hquiet.
  unfold subscribe_to_conversation_events.
  rewrite bind_run. cbv [get_agent_session gets]. cbn [fst snd].
  rewrite Hsession, Hstream.
  rewrite bind_run. cbv [get_conversation_url bind gets ret]. cbn [fst snd].
  cbv [modify]. cbn [fst snd listeners set_listeners].
  fold (new_listener c t k ws g w).
  set (self := length (listeners w)).
  set (wA := set_active_listeners _ _).
  assert (HsA : sessions wA = sessions w) by done.
  unfold settle, update_session, get_agent_session, gets, modify, bind.
  cbn [fst snd].
  destruct (callbacks session !! (lit "asana_reporter_" ++ c)) as [old|] eqn:Hcb.
  - cbn [ret fst snd]. rewrite HsA, Hsession. cbn [fst snd].
    rewrite HsA, Hsession. cbn [fst snd sessions set_sessions].
    rewrite Hquiet. cbn [for_each ret fst snd sessions set_sessions].
    rewrite lookup_insert_eq. cbn [mbind option_bind event_stream without_in_flight].
    rewrite Hstream. unfold subscribed, subscribed_session. rewrite Hcb.
    reflexivity.
  - rewrite HsA, Hsession. cbn [fst snd sessions set_sessions].
    rewrite lookup_insert_eq. cbn [fst snd sessions set_sessions].
    rewrite lookup_insert_eq.
    cbn [in_flight with_callback without_in_flight for_each].
    rewrite Hquiet. cbn [for_each ret fst snd sessions set_sessions].
    rewrite lookup_insert_eq.
    cbn [mbind option_bind event_stream with_callback without_in_flight].
    rewrite Hstream. unfold subscribed, subscribed_session. rewrite Hcb.
    rewrite insert_insert_eq. reflexivity.
Qed.

Lemma subscribed_listener (c t k : str) (ws g : option str) (w : World)
    (session : Session) (stream : list Event) (lg : list log_record) :
  event_stream session = Some stream →
  let w' := set_log lg (subscribed c t k ws g session w) in
  listeners w' !! length (listeners w) = Some (new_listener c t k ws g w)
  ∧ sessions w' !! conversation_id (new_listener c t k ws g w)
    = Some (subscribed_session c (length (listeners w)) session)
  ∧ event_stream (subscribed_session c (length (listeners w)) session)
    = Some stream.
Proof.
  intros Hstream. split; [|split].
  - cbn [listeners set_log subscribed set_sessions set_active_listeners
         set_listeners].
    by apply list_lookup_middle.
  - cbn [sessions conversation_id new_listener set_log subscribed set_sessions].
    apply lookup_insert_eq.
  - unfold subscribed_session.
    destruct (callbacks session !! (lit "asana_reporter_" ++ c));
      exact Hstream.
Qed.

(** X29: a subscription to a conversation with no event in flight looks
    for a terminal state among the last 50 events, from the newest, and
    passes over every other event, newer states that are not terminal
    included: the most recent terminal state it finds is reported at
    once, as one comment on the task, and the new listener starts with
    its flag raised; when it finds none nothing is posted and the
    listener starts armed. *)
Theorem subscription_reports_latest_terminal_state
    (c t k : str) (ws g : option str) (w : World)
    (session : Session) (stream : list Event) :
  sessions w !! c = Some session →
  event_stream session = Some stream →
  in_flight session = [] →
  comments_accepted w = true →
  (∀ (skipped later : list Event) (e : Event) (a : AgentState),
     recent_events stream = skipped ++ e :: later →
     Forall (fun e' => terminal_value e' = None) skipped →
     terminal_value e = Some a →
     comments (snd (subscribe_to_conversation_events c t k ws g w))
     = comments w
       ++ [result_comment (new_listener c t k ws g w) stream a (metrics_text w)]
     ∧ listeners (snd (subscribe_to_conversation_events c t k ws g w))
       = listeners w ++ [set_reported true (new_listener c t k ws g w)])
  ∧ (Forall (fun e' => terminal_value e' = None) (recent_events stream) →
     comments (snd (subscribe_to_conversation_events c t k ws g w)) = comments w
     ∧ listeners (snd (subscribe_to_conversation_events c t k ws g w))
       = listeners w ++ [new_listener c t k ws g w])
  ∧ _active_listeners (snd (subscribe_to_conversation_events c t k ws g w))
    !! c = Some (length (listeners w)).
Proof.
  intros Hsession Hstream Hquiet Hacc.
  rewrite (subscribe_quiet c t k ws g w session stream) by done.
  split; [|split].
  - intros skipped later e a Hrecent Hskipped Hterm. rewrite Hrecent.
    destruct (catch_up_skips (length (listeners w)) skipped (e :: later)
                (subscribed c t k ws g session w) Hskipped) as [lg ->].
    destruct (subscribed_listener c t k ws g w session stream lg Hstream)
      as (Hl & Hs & He).
    rewrite (catch_up_fires _ e later _ a _ _ stream Hterm Hl Hs He) by done.
    cbn. split; [done|].
    rewrite insert_app_r_alt by done. by rewrite Nat.sub_diag.
  - intros Hnone.
    destruct (catch_up_skips (length (listeners w)) (recent_events stream) []
                (subscribed c t k ws g session w) Hnone) as [lg Hlg].
    rewrite app_nil_r in Hlg. rewrite Hlg. by cbn.
  - assert (Hkeep : ∀ (events : list Event) (w0 : World),
              _active_listeners (snd (catch_up (length (listeners w)) events w0))
              = _active_listeners w0).
    { induction events as [|e events IH]; intros w0; [done|].
      cbn [catch_up]. destruct e as [value| | |]; try apply IH.
      destruct (AgentState_of value) as [a|].
      - destruct (is_terminal a); [|apply IH].
        rewrite bind_run.
        set (w1 := snd (update_listener (length (listeners w))
                          (set_reported true) w0)).
        assert (H1 : _active_listeners w1 = _active_listeners w0).
        { unfold w1, update_listener, modify. cbn [snd].
          by destruct (listeners w0 !! length (listeners w)). }
        rewrite <- H1. generalize w1. intros w2.
        cbv [_report_to_asana bind gets report_result add_comment modify ret
             logger].
        cbn [fst snd].
        destruct (listeners w2 !! length (listeners w)) as [l|]; [|done].
        destruct (sessions w2 !! conversation_id l) as [s|]; [|done].
        destruct (event_stream s); [|done].
        by destruct (comments_accepted w2).
      - rewrite bind_run. rewrite IH. done. }
    rewrite Hkeep.
    cbn [_active_listeners subscribed set_sessions set_active_listeners].
    apply lookup_insert_eq.
Qed.

(** X30: a follow-up to a conversation that has lost its listener
    creates one before the message is sent, and its catch-up scan finds
    the terminal state the conversation reached before the follow-up:
    the old result is posted once more, the message is sent, and the
    listener, its flag raised by the scan and not lowered again, posts
    nothing for whatever events the conversation emits afterwards. *)
Theorem follow_up_without_listener_reports_old_result
    (c message t k : str) (ws g : option str) (w : World)
    (session : Session) (stream skipped later : list Event) (e : Event)
    (a : AgentState) :
  sessions w !! c = Some session →
  event_stream session = Some stream →
  in_flight session = [] →
  _active_listeners w !! c = None →
  truthy t = true → truthy k = true →
  comments_accepted w = true →
  recent_events stream = skipped ++ e :: later →
  Forall (fun e' => terminal_value e' = None) skipped →
  terminal_value e = Some a →
  fst (send_message_to_conversation c message (Some t) (Some k) ws g w) = true
  ∧ comments (snd (send_message_to_conversation c message (Some t) (Some k)
                     ws g w))
    = comments w
      ++ [result_comment (new_listener c t k ws g w) stream a (metrics_text w)]
  ∧ (event_stream
       <$> sessions (snd (send_message_to_conversation c message (Some t)
                            (Some k) ws g w)) !! c)
    = Some (Some (stream ++ [MessageAction message (Some USER)]))
  ∧ (∀ events : list Event,
       comments (snd (for_each events (callback (length (listeners w)))
                        (snd (send_message_to_conversation c message (Some t)
                                (Some k) ws g w))))
       = comments w
         ++ [result_comment (new_listener c t k ws g w) stream a
                            (metrics_text w)]).
Proof.
  intros Hsession Hstream Hquiet Hnone Ht Hk Hacc Hrecent Hskipped Hterm.
  set (self := length (listeners w)).
  set (l0 := new_listener c t k ws g w).
  assert (Hrun : ∃ w', send_message_to_conversation c message (Some t) (Some k)
                         ws g w = (true, w')
                       ∧ comments w' = comments w
                                       ++ [result_comment l0 stream a (metrics_text w)]
                       ∧ listeners w' = listeners w ++ [set_reported true l0]
                       ∧ (event_stream <$> sessions w' !! c)
                         = Some (Some (stream ++ [MessageAction message (Some USER)]))).
  { unfold send_message_to_conversation.
    rewrite bind_run. cbv [get_agent_session gets]. cbn [fst snd].
    rewrite Hsession. rewrite bind_run. cbn [fst snd]. rewrite Hnone.
    cbn [truthy_opt or_empty]. rewrite Ht, Hk. cbn [andb].
    rewrite bind_run.
    rewrite (subscribe_quiet c t k ws g w session stream) by done.
    rewrite Hrecent. subst self l0.
    destruct (catch_up_skips (length (listeners w)) skipped (e :: later)
                (subscribed c t k ws g session w) Hskipped) as [lg ->].
    destruct (subscribed_listener c t k ws g w session stream lg Hstream)
      as (Hl & Hs & He).
    rewrite (catch_up_fires _ e later _ a _ _ stream Hterm Hl Hs He) by done.
    cbn [fst snd]. rewrite bind_run. cbn [fst snd].
    cbn [sessions set_comments set_listeners set_log subscribed set_sessions].
    rewrite lookup_insert_eq.
    unfold mbind, option_bind. cbv beta iota.
    destruct (event_stream (subscribed_session c (length (listeners w)) session))
      as [ev|] eqn:Hev; [|discriminate He].
    injection He as ->.
    cbv [bind update_session modify ret]. cbn [fst snd].
    cbn [sessions set_comments set_listeners set_log subscribed set_sessions].
    rewrite lookup_insert_eq.
    eexists. split; [reflexivity|]. cbn. split; [done|]. split.
    - rewrite insert_app_r_alt by done. by rewrite Nat.sub_diag.
    - rewrite lookup_insert_eq. cbn [fmap option_fmap option_map].
      unfold append_event. cbn [event_stream]. by rewrite Hev. }
  destruct Hrun as (w' & -> & Hc & Hls & Hev). cbn [fst snd].
  split; [done|]. split; [done|]. split; [done|].
  intros events.
  destruct (callbacks_silent self events w') as (Hsilent & _); [|by rewrite Hsilent].
  right. exists (set_reported true l0). split; [|done].
  rewrite Hls. by apply list_lookup_middle.
Qed.
End Subscription.

(** ** The further properties on the sample workspace *)

Lemma clean_up_is_idempotent_witness :
  strip (collapse_newlines (lit "one" ++ [newline; newline] ++ lit "two"))
  = lit "one" ++ [newline; newline] ++ lit "two".
Proof.
  destruct (clean_up_is_idempotent
              (lit "one" ++ [newline; newline] ++ lit "two")) as [Hid _].
  apply Hid; [reflexivity | split; reflexivity].
Defined.

Lemma report_error_escapes_markup_witness :
  fst (report_error sample_task_gid (lit "<b>boom</b>") None
         (workspace true quiet_session)) = true.
Proof.
  apply (report_error_escapes_markup sample_task_gid (lit "<b>boom</b>") None
           (workspace true quiet_session)).
  reflexivity.
Defined.

Lemma fresh_assignment_starts_conversation_witness :
  fst (@process_task_assignment ascii_digits plain_converters sample_task_gid
         (workspace true quiet_session)) = Some sample_conversation.
Proof.
  apply (@fresh_assignment_starts_conversation ascii_digits plain_converters
           sample_task_gid (workspace true quiet_session) sample_settings
           sample_task sample_conversation (Some quiet_session) []);
    try reflexivity; try (intros m c' Hm; discriminate Hm).
Defined.

Lemma task_of_another_assignee_is_skipped_witness :
  @process_task_assignment ascii_digits plain_converters sample_task_gid
    activity_workspace
  = (None, activity_workspace).
Proof.
  apply (@task_of_another_assignee_is_skipped ascii_digits plain_converters
           sample_task_gid activity_workspace sample_settings unassigned_task);
    try reflexivity; try discriminate.
Defined.

Lemma failed_creation_is_reported_witness :
  fst (@process_task_assignment ascii_digits plain_converters sample_task_gid
         (set_upcoming [Fails (lit "no runtime")] (workspace true quiet_session)))
  = None.
Proof.
  apply (@failed_creation_is_reported ascii_digits plain_converters
           sample_task_gid
           (set_upcoming [Fails (lit "no runtime")] (workspace true quiet_session))
           sample_settings sample_task (lit "no runtime") []);
    try reflexivity; try (intros m c' Hm; discriminate Hm).
Defined.

Lemma mention_reaches_live_conversation_witness :
  fst (@process_story_mention ascii_digits plain_converters mention_gid None
         followed_workspace) = Some sample_conversation.
Proof.
  eapply (@mention_reaches_live_conversation ascii_digits plain_converters
            mention_gid None followed_workspace sample_settings mention_story
            sample_task_gid sample_conversation
            {[sample_task_gid := sample_conversation]});
    try reflexivity; try apply lookup_singleton_eq.
Defined.

Lemma other_stories_are_ignored_witness :
  @process_story_mention ascii_digits plain_converters remark_gid None
    activity_workspace
  = (None, activity_workspace).
Proof.
  apply (@other_stories_are_ignored ascii_digits plain_converters remark_gid
           None activity_workspace sample_settings activity_story);
    try reflexivity.
  left. intros Heq. vm_compute in Heq. discriminate Heq.
Defined.

Lemma subscription_reports_latest_terminal_state_witness :
  length (comments
            (snd (@subscribe_to_conversation_events plain_converters
                    sample_conversation sample_task_gid (lit "0/secret") None
                    (Some agent_gid) (unsubscribed finished_session))))
  = 1%nat.
Proof.
  destruct (@subscription_reports_latest_terminal_state plain_converters
              sample_conversation sample_task_gid (lit "0/secret") None
              (Some agent_gid) (unsubscribed finished_session)
              finished_session
              [MessageAction (lit "Fix the build") (Some USER);
               AgentStateChangedObservation (lit "running");
               MessageAction (lit "The build is green again.") (Some AGENT);
               AgentStateChangedObservation (lit "finished")]
              eq_refl eq_refl eq_refl eq_refl) as [Hfound _].
  destruct (Hfound []
              [MessageAction (lit "The build is green again.") (Some AGENT);
               AgentStateChangedObservation (lit "running");
               MessageAction (lit "Fix the build") (Some USER)]
              (AgentStateChangedObservation (lit "finished")) FINISHED
              eq_refl (Forall_nil_2 _) eq_refl) as [-> _].
  reflexivity.
Defined.

Lemma follow_up_without_listener_reports_old_result_witness :
  length (comments
            (snd (@send_message_to_conversation plain_converters
                    sample_conversation (lit "And the tests?")
                    (Some sample_task_gid) (Some (lit "0/secret")) None
                    (Some agent_gid) (unsubscribed finished_session))))
  = 1%nat.
Proof.
  destruct (@follow_up_without_listener_reports_old_result plain_converters
              sample_conversation (lit "And the tests?") sample_task_gid
              (lit "0/secret") None (Some agent_gid)
              (unsubscribed finished_session) finished_session
              [MessageAction (lit "Fix the build") (Some USER);
               AgentStateChangedObservation (lit "running");
               MessageAction (lit "The build is green again.") (Some AGENT);
               AgentStateChangedObservation (lit "finished")]
              []
              [MessageAction (lit "The build is green again.") (Some AGENT);
               AgentStateChangedObservation (lit "running");
               MessageAction (lit "Fix the build") (Some USER)]
              (AgentStateChangedObservation (lit "finished")) FINISHED
              eq_refl eq_refl eq_refl eq_refl eq_refl eq_refl eq_refl eq_refl
              (Forall_nil_2 _) eq_refl) as (_ & -> & _).
  reflexivity.
Defined.
